(** * Career-readiness scoring: a shallow embedding of the Python sources

    Definitions, one module per source file:
    - [Py]: the Python built-ins the analyzers rely on (numbers, [min],
      [int], [round], stable sorting, strings, slices);
    - [Profile]: the profile mapping and its record lists;
    - [InternshipMatcher]: [src/internship_matcher.py];
    - [HolisticScore]: [src/holistic_score.py];
    - [CertificateValidator]: [src/certificate_validator.py], the
      validation of one certificate and the analysis of a list;
    - [OpenRouterLLM]: the text generators of [src/openrouter_llm.py];
    - [Examples]: the concrete inputs of the examples.

    Properties: [PyFacts], [MatcherFacts], [HolisticFacts], [ClockFacts]
    and [LLMFacts]; further properties of the same functions, and those
    of the roadmap and of the certificate analysis: [MatcherExtras],
    [HolisticExtras], [ValidatorExtras] and [LLMExtras].

    Numbers.  Python computes the scores with [int] and [float]; the
    embedding computes with exact rationals ([Q]), that is with the real
    values the floating-point operations approximate.  Equality of numbers
    is therefore [Qeq] ([==]), and a Python [bool] used as a number is its
    value [0] or [1].  A rational stands for a finite number: a field
    that holds [nan], an infinity or an integer beyond the largest float
    is outside the embedding.  On such a field Python's arithmetic
    yields [nan] or raises ([OverflowError] in a division, [ValueError]
    in [int]), which no definition here shows; a statement about the
    numeric mappings of every profile therefore carries the condition
    [float_sized] of [HolisticScore], which bounds the numbers by the
    largest float.

    Strings.  Strings are byte strings; [str.lower], [str.strip], [int]
    and the regular expressions are modelled on ASCII text and leave
    every other byte alone.

    The world.  What a function takes from outside its arguments is a
    parameter: the current year and time read from the clock, the order
    in which Python enumerates a set, the availability probe and the
    replies of the language-model provider. *)

From Stdlib Require Import QArith Qminmax Qround Qabs Lqa ZArith String Ascii List Lia.
From stdpp Require Import gmap strings list fin_maps sorting.

(* ===================================================================== *)
(** ** Python built-ins                                                   *)
(* ===================================================================== *)

Module Py.

(** [len(xs)] and other counts, read as numbers. *)
Definition Qnat (n : nat) : Q := inject_Z (Z.of_nat n).

(** [d.get(k, dflt)] *)
Definition get {V} (d : gmap string V) (k : string) (dflt : V) : V :=
  default dflt (d !! k).

(** [not d] for a dict: true exactly on the empty dict. *)
Definition dict_falsy {V} (d : gmap string V) : bool :=
  bool_decide (d = ∅).

(** the numbers a dict holds under the given keys are not negative *)
Definition nonneg_at (keys : list string) (d : gmap string Q) : Prop :=
  Forall (λ k, ∀ v, d !! k = Some v → (0 <= v)%Q) keys.

(** no number of the dict is negative *)
Definition nonneg_values (d : gmap string Q) : Prop :=
  map_Forall (λ _ v, (0 <= v)%Q) d.

(** [bool] as a number *)
Definition Qbool (b : bool) : Q := if b then 1 else 0.

(** [a > b], [a >= b], [a < b], [a <= b] on numbers *)
Definition gtb (a b : Q) : bool := negb (Qle_bool a b).
Definition geb (a b : Q) : bool := Qle_bool b a.
Definition ltb (a b : Q) : bool := negb (Qle_bool b a).
Definition leb (a b : Q) : bool := Qle_bool a b.

(** [min(a, b)]: the first argument unless the second is strictly smaller *)
Definition min (a b : Q) : Q := if ltb b a then b else a.

(** [max(len(xs), 1)] *)
Definition max (a b : Q) : Q := if gtb b a then b else a.

(** [int(x)] on a number: truncation towards zero *)
Definition int (x : Q) : Z := Z.quot (Qnum x) (Z.pos (Qden x)).

(** [sum(xs)]: starts from [0] and adds from the left *)
Definition sum (xs : list Q) : Q := fold_left Qplus xs 0%Q.

(** [round(x)] to an integer, ties to the even neighbour *)
Definition round_half_even (x : Q) : Z :=
  let f := Qfloor x in
  let r := (x - inject_Z f)%Q in
  match (r ?= 1 # 2)%Q with
  | Lt => f
  | Gt => (f + 1)%Z
  | Eq => if Z.even f then f else (f + 1)%Z
  end.

(** [round(x, 1)].  Python rounds the binary value of the float, for
    which a tie is rare; on exact rationals a tie is a true tie and goes
    to the even neighbour. *)
Definition round1 (x : Q) : Q := (inject_Z (round_half_even (x * 10)) / 10)%Q.

(** [sorted(xs, key=key, reverse=True)] and [xs.sort(key=key, reverse=True)]:
    Python's sort is stable, also under [reverse=True]; records with equal
    keys keep their original order.  Insertion from the right end of the
    list places each record in front of the records that do not have a
    strictly larger key. *)
Fixpoint insert_desc {A} (key : A → Q) (x : A) (l : list A) : list A :=
  match l with
  | [] => [x]
  | y :: l' => if gtb (key y) (key x) then y :: insert_desc key x l'
               else x :: y :: l'
  end.

Definition sorted_desc {A} (key : A → Q) (xs : list A) : list A :=
  foldr (insert_desc key) [] xs.

(** [sorted(xs, key=key)]: stable, ascending *)
Fixpoint insert_asc {A} (key : A → Q) (x : A) (l : list A) : list A :=
  match l with
  | [] => [x]
  | y :: l' => if ltb (key y) (key x) then y :: insert_asc key x l'
               else x :: y :: l'
  end.

Definition sorted_asc {A} (key : A → Q) (xs : list A) : list A :=
  foldr (insert_asc key) [] xs.

(** the order a descending sort by [key] establishes between an earlier
    record [a] and a later record [b] *)
Definition desc {A} (key : A → Q) (a b : A) : Prop := (key b <= key a)%Q.

(** [a] stands before [b] in the list [l] *)
Definition precedes {A} (l : list A) (a b : A) : Prop :=
  ∃ i j, (i < j)%nat ∧ l !! i = Some a ∧ l !! j = Some b.

(** [min(xs, key=key)]: the first record with the smallest key
    ([None] for the [ValueError] on an empty sequence) *)
Definition min_by {A} (key : A → Q) (xs : list A) : option A :=
  match xs with
  | [] => None
  | x :: rest =>
      Some (fold_left (λ best y, if ltb (key y) (key best) then y else best) rest x)
  end.

(** [max(xs, key=key)]: the first record with the largest key *)
Definition max_by {A} (key : A → Q) (xs : list A) : option A :=
  match xs with
  | [] => None
  | x :: rest =>
      Some (fold_left (λ best y, if gtb (key y) (key best) then y else best) rest x)
  end.

(** An f-string, kept as its pieces: literal or interpolated text, an
    interpolated [int], an interpolated number in its default format, and
    a number under the format [:.1f]. *)
Inductive fpart :=
| FStr (s : string)
| FInt (n : Z)
| FNum (q : Q)
| FFix1 (q : Q).

Definition fstring := list fpart.

(** [any(...)] over a list of tests *)
Definition any {A} (f : A → bool) (xs : list A) : bool := existsb f xs.

(** *** Strings *)

Definition is_upper (c : ascii) : bool :=
  let n := nat_of_ascii c in (65 <=? n)%nat && (n <=? 90)%nat.

Definition lower_ascii (c : ascii) : ascii :=
  if is_upper c then ascii_of_nat (nat_of_ascii c + 32) else c.

(** [s.lower()] *)
Fixpoint lower (s : string) : string :=
  match s with
  | EmptyString => EmptyString
  | String c s' => String (lower_ascii c) (lower s')
  end.

Definition is_lower (c : ascii) : bool :=
  let n := nat_of_ascii c in (97 <=? n)%nat && (n <=? 122)%nat.

Definition upper_ascii (c : ascii) : ascii :=
  if is_lower c then ascii_of_nat (nat_of_ascii c - 32) else c.

(** [s.title()]: a letter that follows a letter is lowered, any other
    letter is raised *)
Fixpoint title_from (after_letter : bool) (s : string) : string :=
  match s with
  | EmptyString => EmptyString
  | String c s' =>
      String (if after_letter then lower_ascii c else upper_ascii c)
             (title_from (is_upper c || is_lower c) s')
  end.

Definition title (s : string) : string := title_from false s.

(** [s.replace(a, b)] for one-character [a] and [b] *)
Fixpoint replace_char (a b : ascii) (s : string) : string :=
  match s with
  | EmptyString => EmptyString
  | String c s' =>
      String (if Ascii.eqb c a then b else c) (replace_char a b s')
  end.

(** [s[:n]] for a non-negative literal [n] *)
Fixpoint str_prefix (n : nat) (s : string) : string :=
  match n, s with
  | S n', String c s' => String c (str_prefix n' s')
  | _, _ => EmptyString
  end.

(** white space as [str.strip] sees it: tab to carriage return, the
    four separator controls and the blank *)
Definition is_space (c : ascii) : bool :=
  let n := nat_of_ascii c in
  ((9 <=? n)%nat && (n <=? 13)%nat) || ((28 <=? n)%nat && (n <=? 32)%nat).

(** white space as [int] sees it around a literal: tab to carriage
    return and the blank *)
Definition is_int_space (c : ascii) : bool :=
  let n := nat_of_ascii c in
  ((9 <=? n)%nat && (n <=? 13)%nat) || (n =? 32)%nat.

Fixpoint lstrip (space : ascii → bool) (s : string) : string :=
  match s with
  | EmptyString => EmptyString
  | String c s' => if space c then lstrip space s' else s
  end.

Fixpoint rstrip (space : ascii → bool) (s : string) : string :=
  match s with
  | EmptyString => EmptyString
  | String c s' =>
      match rstrip space s' with
      | EmptyString => if space c then EmptyString else String c EmptyString
      | r => String c r
      end
  end.

(** [s.strip()] *)
Definition strip (s : string) : string := rstrip is_space (lstrip is_space s).

Definition is_digit (c : ascii) : bool :=
  let n := nat_of_ascii c in (48 <=? n)%nat && (n <=? 57)%nat.

Definition digit_value (c : ascii) : Z := Z.of_nat (nat_of_ascii c - 48).

(** the digits of a decimal literal, where single underscores may
    separate digits; [after_digit] tells whether the previous character
    was a digit *)
Fixpoint digits_value (acc : Z) (after_digit : bool) (s : string) : option Z :=
  match s with
  | EmptyString => if after_digit then Some acc else None
  | String c s' =>
      if is_digit c then digits_value (acc * 10 + digit_value c) true s'
      else if Ascii.eqb c "_" && after_digit then digits_value acc false s'
      else None
  end.

(** [int(s)] on a string, base ten: surrounding white space, an optional
    sign, then digits.  [None] stands for the [ValueError]. *)
Definition int_of_string (s : string) : option Z :=
  match rstrip is_int_space (lstrip is_int_space s) with
  | String "+" ds => digits_value 0 false ds
  | String "-" ds => Z.opp <$> digits_value 0 false ds
  | ds => digits_value 0 false ds
  end.

(** [s.startswith(p)] *)
Definition startswith (s p : string) : bool := String.prefix p s.

(** [needle in hay] on strings: [needle] occurs as a contiguous run *)
Fixpoint contains (needle hay : string) : bool :=
  String.prefix needle hay ||
  match hay with
  | EmptyString => false
  | String _ hay' => contains needle hay'
  end.

(** truthiness of a string: non-empty *)
Definition truthy (s : string) : bool :=
  match s with EmptyString => false | _ => true end.

(** truthiness of [d.get(k)] for a string-valued key: present and non-empty *)
Definition truthy_opt (o : option string) : bool :=
  match o with Some s => truthy s | None => false end.

(** the line break ["\n"] *)
Definition nl : string := String "010" EmptyString.

(** [sep.join(xs)] *)
Fixpoint join (sep : string) (xs : list string) : string :=
  match xs with
  | [] => EmptyString
  | [x] => x
  | x :: rest => x ++ sep ++ join sep rest
  end.

(** [xs[:n]] for a non-negative literal [n] *)
Definition take_first {A} (n : nat) (xs : list A) : list A := firstn n xs.

(** [xs[:n]] for an arbitrary integer [n]: a negative bound counts from
    the end of the list. *)
Definition slice_to {A} (n : Z) (xs : list A) : list A :=
  if (0 <=? n)%Z then firstn (Z.to_nat n) xs
  else firstn (length xs - Z.to_nat (- n)) xs.

End Py.

(* ===================================================================== *)
(** ** The profile mapping                                                *)
(* ===================================================================== *)

(** A profile is a [Dict[str, Any]].  Its record lists are lists of
    dicts whose keys are all optional; a key that is absent is [None]
    here, and every reader of the key supplies its own default.  The
    purely numeric sub-dicts ([resume_analysis], [skill_proficiency],
    [github_stats], [learning_progress], [interview_scores]) stay finite
    maps from key to number, so that their emptiness test and their
    per-key defaults are the source's own. *)

Module Profile.

Record Project := {
  proj_name : option string;
  proj_description : option string;
  proj_github_url : option string;
  proj_demo_url : option string;
  proj_stars : option Q;
  proj_language : option string
}.

Record Certification := {
  cert_name : option string;
  cert_provider : option string;
  cert_url : option string;
  cert_date : option string;
  cert_expiry : option string
}.

Record Activity := {
  act_role : option string;
  act_achievements : option (list string);
  act_impact : option string
}.

Record t := {
  resume_analysis : option (gmap string Q);
  skills : option (list string);
  skill_proficiency : option (gmap string Q);
  projects : option (list Project);
  certifications : option (list Certification);
  extracurricular : option (list Activity);
  github_stats : option (gmap string Q);
  learning_progress : option (gmap string Q);
  interview_scores : option (gmap string Q)
}.

(** [profile.get(key, dflt)] *)
Definition get {A} (field : option A) (dflt : A) : A := default dflt field.

(** functional update of the [skills] key *)
Definition with_skills (p : t) (sk : list string) : t :=
  {| resume_analysis := resume_analysis p;
     skills := Some sk;
     skill_proficiency := skill_proficiency p;
     projects := projects p;
     certifications := certifications p;
     extracurricular := extracurricular p;
     github_stats := github_stats p;
     learning_progress := learning_progress p;
     interview_scores := interview_scores p |}.

(** the empty profile [{}] *)
Definition empty : t :=
  {| resume_analysis := None; skills := None; skill_proficiency := None;
     projects := None; certifications := None; extracurricular := None;
     github_stats := None; learning_progress := None;
     interview_scores := None |}.

End Profile.

(* ===================================================================== *)
(** ** src/internship_matcher.py                                          *)
(* ===================================================================== *)

Module InternshipMatcher.
Import Profile.
Local Open Scope string_scope.

Record Category := {
  required_skills : list string;
  preferred_skills : list string;
  keywords : list string;
  avg_stipend_range : string;
  duration : string
}.

(** [INTERNSHIP_CATEGORIES], in the insertion order of the dict literal *)
Definition INTERNSHIP_CATEGORIES : list (string * Category) := [
  ("Software Development",
   {| required_skills := ["Programming"; "Problem Solving"; "Data Structures"];
      preferred_skills := ["Python"; "Java"; "C++"; "JavaScript"; "Git"];
      keywords := ["software"; "developer"; "programming"; "coding"; "backend"; "frontend"];
      avg_stipend_range := "₹10,000-30,000/month";
      duration := "2-6 months" |});
  ("Data Science/Analytics",
   {| required_skills := ["Python"; "Statistics"; "Data Analysis"];
      preferred_skills := ["Machine Learning"; "SQL"; "Pandas"; "NumPy"; "Visualization"];
      keywords := ["data"; "analytics"; "machine learning"; "ai"; "ml"; "statistics"];
      avg_stipend_range := "₹15,000-35,000/month";
      duration := "3-6 months" |});
  ("Web Development",
   {| required_skills := ["HTML"; "CSS"; "JavaScript"];
      preferred_skills := ["React"; "Node.js"; "MongoDB"; "Express"; "REST API"];
      keywords := ["web"; "frontend"; "backend"; "fullstack"; "react"; "angular"];
      avg_stipend_range := "₹8,000-25,000/month";
      duration := "2-4 months" |});
  ("Mobile App Development",
   {| required_skills := ["Programming"; "Mobile Development"];
      preferred_skills := ["Android"; "iOS"; "Flutter"; "React Native"; "Swift"; "Kotlin"];
      keywords := ["mobile"; "android"; "ios"; "app development"; "flutter"];
      avg_stipend_range := "₹12,000-28,000/month";
      duration := "3-5 months" |});
  ("UI/UX Design",
   {| required_skills := ["Design"; "User Research"; "Prototyping"];
      preferred_skills := ["Figma"; "Adobe XD"; "Sketch"; "User Testing"; "Wireframing"];
      keywords := ["ui"; "ux"; "design"; "user experience"; "interface"; "figma"];
      avg_stipend_range := "₹8,000-20,000/month";
      duration := "2-4 months" |});
  ("Digital Marketing",
   {| required_skills := ["Marketing"; "Communication"; "Analytics"];
      preferred_skills := ["SEO"; "Social Media"; "Content Marketing"; "Google Analytics"];
      keywords := ["marketing"; "digital"; "seo"; "social media"; "content"; "campaigns"];
      avg_stipend_range := "₹5,000-18,000/month";
      duration := "2-4 months" |});
  ("Content Writing",
   {| required_skills := ["Writing"; "Communication"; "Research"];
      preferred_skills := ["SEO Writing"; "Technical Writing"; "Copywriting"; "Editing"];
      keywords := ["content"; "writing"; "copywriting"; "blog"; "technical writing"];
      avg_stipend_range := "₹5,000-15,000/month";
      duration := "2-3 months" |});
  ("Business Development",
   {| required_skills := ["Communication"; "Sales"; "Negotiation"];
      preferred_skills := ["CRM"; "Market Research"; "Presentation"; "Client Management"];
      keywords := ["business development"; "sales"; "bd"; "partnerships"; "client"];
      avg_stipend_range := "₹8,000-22,000/month";
      duration := "3-6 months" |});
  ("Graphic Design",
   {| required_skills := ["Design"; "Creativity"; "Visual Communication"];
      preferred_skills := ["Photoshop"; "Illustrator"; "InDesign"; "Canva"; "Branding"];
      keywords := ["graphic"; "design"; "visual"; "creative"; "photoshop"; "illustrator"];
      avg_stipend_range := "₹6,000-18,000/month";
      duration := "2-4 months" |});
  ("Cybersecurity",
   {| required_skills := ["Security"; "Networking"; "Problem Solving"];
      preferred_skills := ["Penetration Testing"; "Security Analysis"; "Firewall"; "Encryption"];
      keywords := ["security"; "cybersecurity"; "ethical hacking"; "penetration"; "network security"];
      avg_stipend_range := "₹12,000-30,000/month";
      duration := "3-6 months" |});
  ("Cloud Computing",
   {| required_skills := ["Cloud Platforms"; "Networking"; "Linux"];
      preferred_skills := ["AWS"; "Azure"; "GCP"; "Docker"; "Kubernetes"; "DevOps"];
      keywords := ["cloud"; "aws"; "azure"; "gcp"; "devops"; "kubernetes"];
      avg_stipend_range := "₹15,000-35,000/month";
      duration := "3-6 months" |});
  ("Research",
   {| required_skills := ["Research"; "Analysis"; "Critical Thinking"];
      preferred_skills := ["Academic Writing"; "Data Collection"; "Literature Review"; "Statistics"];
      keywords := ["research"; "academic"; "study"; "analysis"; "investigation"];
      avg_stipend_range := "₹8,000-20,000/month";
      duration := "3-6 months" |})
].

(** [INTERNSHIP_CATEGORIES.keys()] *)
Definition category_names : list string := INTERNSHIP_CATEGORIES.*1.

(** [INTERNSHIP_CATEGORIES.get(name)]: the first (and only) entry under
    the key *)
Fixpoint lookup_category (name : string) (cats : list (string * Category))
  : option Category :=
  match cats with
  | [] => None
  | (k, info) :: rest =>
      if String.eqb k name then Some info else lookup_category name rest
  end.

(** The full analysis mapping of a valid category. *)
Record MatchAnalysis := {
  match_score : Q;
  skill_match_percentage : Q;
  required_skills_met : nat;
  required_skills_total : nat;
  preferred_skills_met : nat;
  relevant_projects : nat;
  relevant_certifications : nat;
  missing_required_skills : list string;
  missing_preferred_skills : list string;
  readiness_level : string;
  recommendations : list string;
  category_info : Category
}.

(** What [calculate_match_score] returns: either the two-key mapping
    [{'match_score': 0, 'error': ...}] or the full analysis. *)
Inductive MatchResult :=
| MatchError (score : Q) (error : string)
| MatchOk (analysis : MatchAnalysis).

(** [result['match_score']], a key of both mappings *)
Definition result_match_score (r : MatchResult) : Q :=
  match r with
  | MatchError s _ => s
  | MatchOk a => match_score a
  end.

(** [result['readiness_level']]: a [KeyError] on the error mapping *)
Definition result_readiness_level (r : MatchResult) : option string :=
  match r with
  | MatchError _ _ => None
  | MatchOk a => Some (readiness_level a)
  end.

(** [set(skill.lower() for skill in xs)] *)
Definition lower_set (xs : list string) : gset string :=
  list_to_set (Py.lower <$> xs).

Definition _calculate_experience_score (profile : Profile.t) : Q :=
  let score := 0%Q in
  let projects := Py.Qnat (length (get (projects profile) [])) in
  let score := (score + Py.min (projects * 2) 4)%Q in
  let certs := Py.Qnat (length (get (certifications profile) [])) in
  let score := (score + Py.min (certs * (15 # 10)) 3)%Q in
  let activities := Py.Qnat (length (get (extracurricular profile) [])) in
  let score := (score + Py.min (activities * (5 # 10)) 3)%Q in
  Py.min score 10.

Definition _determine_readiness (score : Q) : string :=
  if Py.geb score 75 then "Highly Ready - Strong Match"
  else if Py.geb score 60 then "Ready - Good Match"
  else if Py.geb score 40 then "Developing - Needs Preparation"
  else "Early Stage - Significant Preparation Needed".

(** The three local quantities of [calculate_match_score] that make up
    the skill part of the score, as functions of the lowered skill sets. *)

(** [len(candidate_skills & required_skills) / max(len(required_skills), 1)] *)
Definition required_match (candidate_skills required_skills : gset string) : Q :=
  (Py.Qnat (size (candidate_skills ∩ required_skills))
   / Py.max (Py.Qnat (size required_skills)) 1)%Q.

(** [len(candidate_skills & preferred_skills) / max(len(preferred_skills), 1)] *)
Definition preferred_match (candidate_skills preferred_skills : gset string) : Q :=
  (Py.Qnat (size (candidate_skills ∩ preferred_skills))
   / Py.max (Py.Qnat (size preferred_skills)) 1)%Q.

(** [(required_match * 0.7 + preferred_match * 0.3) * 60] *)
Definition skill_score (required_match preferred_match : Q) : Q :=
  ((required_match * (7 # 10) + preferred_match * (3 # 10)) * 60)%Q.

Section SetOrder.

(** Python enumerates a [set] in an order that depends on the hashes of
    its elements; [list(s)] is whatever that order is.  It is a parameter
    of the functions that enumerate a set. *)
Variable set_order : gset string → list string.

Definition _generate_match_recommendations
    (score : Q) (missing_required missing_preferred : gset string)
    (relevant_projects : nat) : list string :=
  let r1 := if Py.ltb score 60
            then ["🎯 Focus on building foundational skills before applying"]
            else [] in
  let r2 := if negb (bool_decide (missing_required = ∅))
            then ["📚 Priority: Learn these required skills - "
                  ++ Py.join ", " (Py.take_first 3 (set_order missing_required))]
            else [] in
  let r3 := if negb (bool_decide (missing_preferred = ∅)) && Py.ltb score 80
            then ["⭐ Recommended: Add these skills to stand out - "
                  ++ Py.join ", " (Py.take_first 3 (set_order missing_preferred))]
            else [] in
  let r4 := if (relevant_projects =? 0)%nat
            then ["💡 Build 1-2 projects in this domain to demonstrate practical skills"]
            else if (relevant_projects <? 2)%nat
            then ["🚀 Add more domain-specific projects to strengthen your profile"]
            else [] in
  let r5 := if Py.geb score 75
            then ["✅ You're ready to apply! Prepare a strong resume highlighting relevant skills"]
            else if Py.geb score 60
            then ["📈 You're on track! A few more skills/projects will make you highly competitive"]
            else [] in
  r1 ++ r2 ++ r3 ++ r4 ++ r5.

(** [f"{project.get('name', '')} {project.get('description', '')}".lower()] *)
Definition project_text (project : Project) : string :=
  Py.lower (get (proj_name project) "" ++ " " ++ get (proj_description project) "").

(** [f"{cert.get('name', '')} {cert.get('provider', '')}".lower()] *)
Definition cert_text (cert : Certification) : string :=
  Py.lower (get (cert_name cert) "" ++ " " ++ get (cert_provider cert) "").

(** the loop counting the records whose text mentions a category keyword *)
Definition count_relevant {A} (text : A → string) (kws : list string)
    (records : list A) : nat :=
  length (filter (λ r, Is_true (Py.any (λ kw, Py.contains kw (text r)) kws)) records).

(** [category_info] is the catalogue entry or, for an unknown name, the
    empty dict; every entry of the catalogue has keys, so
    [not category_info] holds exactly for the unknown names. *)
Definition calculate_match_score
    (candidate_profile : Profile.t) (internship_category : string)
  : MatchResult :=
  match lookup_category internship_category INTERNSHIP_CATEGORIES with
  | None => MatchError 0 "Invalid category"
  | Some category_info =>
      let candidate_skills := lower_set (get (skills candidate_profile) []) in
      let required_skills := lower_set (required_skills category_info) in
      let preferred_skills := lower_set (preferred_skills category_info) in
      (* skill match *)
      let required_match := required_match candidate_skills required_skills in
      let preferred_match := preferred_match candidate_skills preferred_skills in
      (* base score from skills (60% weight) *)
      let skill_score := skill_score required_match preferred_match in
      (* project relevance (20% weight) *)
      let relevant_projects :=
        count_relevant project_text (keywords category_info)
          (get (projects candidate_profile) []) in
      let project_score := Py.min (Py.Qnat relevant_projects * 10) 20 in
      (* certifications (10% weight) *)
      let relevant_certs :=
        count_relevant cert_text (keywords category_info)
          (get (certifications candidate_profile) []) in
      let cert_score := Py.min (Py.Qnat relevant_certs * 5) 10 in
      (* experience level (10% weight) *)
      let experience_score := _calculate_experience_score candidate_profile in
      let total_score :=
        (skill_score + project_score + cert_score + experience_score)%Q in
      let missing_required := required_skills ∖ candidate_skills in
      let missing_preferred := preferred_skills ∖ candidate_skills in
      MatchOk
        {| match_score := Py.min total_score 100;
           skill_match_percentage := (required_match * 100)%Q;
           required_skills_met := size (candidate_skills ∩ required_skills);
           required_skills_total := size required_skills;
           preferred_skills_met := size (candidate_skills ∩ preferred_skills);
           relevant_projects := relevant_projects;
           relevant_certifications := relevant_certs;
           missing_required_skills := set_order missing_required;
           missing_preferred_skills := set_order missing_preferred;
           readiness_level := _determine_readiness total_score;
           recommendations :=
             _generate_match_recommendations total_score missing_required
               missing_preferred relevant_projects;
           category_info := category_info |}
  end.

(** One entry of the list [find_best_matches] builds. *)
Record Match := {
  m_category : string;
  m_match_score : Q;
  m_readiness : string;
  m_analysis : MatchResult
}.

(** the body of the loop over [INTERNSHIP_CATEGORIES.keys()]; reading
    ['readiness_level'] raises on the error mapping *)
Definition match_entry (candidate_profile : Profile.t) (category : string)
  : option Match :=
  let match_analysis := calculate_match_score candidate_profile category in
  readiness ← result_readiness_level match_analysis;
  Some {| m_category := category;
          m_match_score := result_match_score match_analysis;
          m_readiness := readiness;
          m_analysis := match_analysis |}.

(** [find_best_matches]; [None] where the Python would raise.  The
    default of [top_n] is [5]. *)
Definition find_best_matches (candidate_profile : Profile.t) (top_n : Z)
  : option (list Match) :=
  matches ← mapM (match_entry candidate_profile) category_names;
  (* sort by match score *)
  let matches := Py.sorted_desc m_match_score matches in
  Some (Py.slice_to top_n matches).

(** One milestone of a roadmap; [skills] and [target] are the keys only
    some milestones have. *)
Record Milestone := {
  ms_title : string;
  ms_priority : string;
  ms_skills : option (list string);
  ms_target : option Py.fstring;
  ms_estimated_time : string
}.

Record Roadmap := {
  current_score : Q;
  target_score : Q;
  estimated_timeline : string;
  current_phase : string;
  milestones : list Milestone;
  action_items : list string;
  resources : list string
}.

(** [generate_internship_roadmap]; [None] where the Python would raise:
    the error mapping of an unknown category has no
    ['missing_required_skills'] key. *)
Definition generate_internship_roadmap
    (candidate_profile : Profile.t) (target_category : string) : option Roadmap :=
  let match_analysis := calculate_match_score candidate_profile target_category in
  let current_score := result_match_score match_analysis in
  (* timeline based on current readiness *)
  let '(timeline, phase) :=
    if Py.geb current_score 75 then ("1-2 weeks", "Application Ready")
    else if Py.geb current_score 60 then ("2-4 weeks", "Final Preparation")
    else if Py.geb current_score 40 then ("1-2 months", "Skill Building")
    else ("2-4 months", "Foundation Building") in
  match match_analysis with
  | MatchError _ _ => None
  | MatchOk analysis =>
      (* milestones *)
      let m1 :=
        match missing_required_skills analysis with
        | [] => []
        | missing =>
            [{| ms_title := "Master Required Skills";
                ms_priority := "High";
                ms_skills := Some (Py.take_first 3 missing);
                ms_target := None;
                ms_estimated_time := "2-4 weeks" |}]
        end in
      let m2 :=
        if (relevant_projects analysis <? 2)%nat
        then [{| ms_title := "Build Domain Projects";
                 ms_priority := "High";
                 ms_skills := None;
                 ms_target :=
                   Some [Py.FStr "Create ";
                         Py.FInt (2 - Z.of_nat (relevant_projects analysis));
                         Py.FStr " relevant projects"];
                 ms_estimated_time := "3-6 weeks" |}]
        else [] in
      let m3 :=
        match missing_preferred_skills analysis with
        | [] => []
        | missing =>
            [{| ms_title := "Add Preferred Skills";
                ms_priority := "Medium";
                ms_skills := Some (Py.take_first 3 missing);
                ms_target := None;
                ms_estimated_time := "2-3 weeks" |}]
        end in
      (* action items *)
      let action_items :=
        (((λ skill, "✓ Learn " +:+ skill)
            <$> Py.take_first 3 (missing_required_skills analysis))
         ++ ["✓ Build a portfolio project showcasing your skills";
             "✓ Earn a relevant certification";
             "✓ Update resume with new skills and projects";
             "✓ Prepare for technical interviews"])%list in
      (* resources *)
      let resources :=
        ["Recommended courses for " +:+ target_category;
         "Project ideas and tutorials";
         "Interview preparation guides";
         "Resume templates for internships"] in
      Some {| current_score := current_score;
              target_score := 80;
              estimated_timeline := timeline;
              current_phase := phase;
              milestones := (m1 ++ m2 ++ m3)%list;
              action_items := action_items;
              resources := resources |}
  end.

End SetOrder.

End InternshipMatcher.

(* ===================================================================== *)
(** ** src/holistic_score.py                                              *)
(* ===================================================================== *)

Module HolisticScore.
Import Profile.
Local Open Scope string_scope.

(** The keys of [SCORE_COMPONENTS], which are also the keys of the
    [component_scores] dict, in insertion order.  Three of them carry the
    suffix [_c], their plain names being keys of the profile; the source's
    spelling is [component_key]. *)
Inductive Component :=
| resume_quality
| skills_portfolio
| project_portfolio
| certifications_c
| extracurricular_c
| github_activity
| learning_progress_c
| interview_readiness.

Definition component_key (c : Component) : string :=
  match c with
  | resume_quality => "resume_quality"
  | skills_portfolio => "skills_portfolio"
  | project_portfolio => "project_portfolio"
  | certifications_c => "certifications"
  | extracurricular_c => "extracurricular"
  | github_activity => "github_activity"
  | learning_progress_c => "learning_progress"
  | interview_readiness => "interview_readiness"
  end.

Record ComponentInfo := {
  weight : Q;
  max_points : Q;
  description : string
}.

Definition SCORE_COMPONENTS (c : Component) : ComponentInfo :=
  match c with
  | resume_quality =>
      {| weight := 15 # 100; max_points := 1275 # 10;
         description := "Resume content, formatting, and ATS compatibility" |}
  | skills_portfolio =>
      {| weight := 20 # 100; max_points := 170;
         description := "Technical and soft skills breadth and depth" |}
  | project_portfolio =>
      {| weight := 18 # 100; max_points := 153;
         description := "Quality, diversity, and impact of projects" |}
  | certifications_c =>
      {| weight := 12 # 100; max_points := 102;
         description := "Professional certifications and courses" |}
  | extracurricular_c =>
      {| weight := 10 # 100; max_points := 85;
         description := "Hackathons, clubs, volunteering, leadership" |}
  | github_activity =>
      {| weight := 10 # 100; max_points := 85;
         description := "Open source contributions and code quality" |}
  | learning_progress_c =>
      {| weight := 8 # 100; max_points := 68;
         description := "Continuous learning and skill development" |}
  | interview_readiness =>
      {| weight := 7 # 100; max_points := 595 # 10;
         description := "Interview preparation and practice" |}
  end.

Record ScoreInfo := {
  rating : string;
  emoji : string;
  color : string;
  info_description : string;
  opportunities : string
}.

(** [SCORE_RANGES]: the keys are the pairs [(min_score, max_score)], in
    insertion order. *)
Definition SCORE_RANGES : list ((Q * Q) * ScoreInfo) := [
  ((750%Q, 850%Q),
   {| rating := "Exceptional"; emoji := "ðŸŒŸ"; color := "#00C853";
      info_description := "Outstanding career readiness - Top tier candidate";
      opportunities := "Eligible for top companies, leadership roles, premium internships" |});
  ((650%Q, 749%Q),
   {| rating := "Excellent"; emoji := "â­"; color := "#64DD17";
      info_description := "Strong career profile - Highly competitive";
      opportunities := "Competitive for most positions, good internship prospects" |});
  ((550%Q, 649%Q),
   {| rating := "Good"; emoji := "âœ¨"; color := "#FFD600";
      info_description := "Solid foundation - Ready for entry-level roles";
      opportunities := "Suitable for entry-level positions and internships" |});
  ((450%Q, 549%Q),
   {| rating := "Fair"; emoji := "ðŸ“ˆ"; color := "#FF6F00";
      info_description := "Developing profile - Needs improvement";
      opportunities := "May qualify for some internships, needs skill building" |});
  ((0%Q, 449%Q),
   {| rating := "Building"; emoji := "ðŸš€"; color := "#FF5252";
      info_description := "Early stage - Focus on fundamentals";
      opportunities := "Focus on learning, projects, and skill development" |})
].

(** A category score as the scorers return it. *)
Record ScoreData := {
  percentage : Q;
  details : Py.fstring
}.

(** The same dict after the weighting loop has added its two keys. *)
Record WeightedScoreData := {
  w_percentage : Q;
  w_details : Py.fstring;
  weighted_score : Q;
  w_max_points : Q
}.

(** *** Category scorers *)

Definition _score_resume (resume_analysis : gmap string Q) : ScoreData :=
  let score := 0%Q in
  (* ATS score component (40%) *)
  let ats_score := Py.get resume_analysis "ats_score" 0%Q in
  let score := (score + (ats_score / 100) * 40)%Q in
  (* content quality (30%) *)
  let has_summary := Py.get resume_analysis "has_summary" (Py.Qbool false) in
  let has_quantifiable :=
    Py.get resume_analysis "has_quantifiable_achievements" (Py.Qbool false) in
  let has_keywords :=
    Py.Qbool (Py.gtb (Py.get resume_analysis "keyword_density" 0%Q) (5 # 10)) in
  let content_score :=
    (Py.sum [has_summary; has_quantifiable; has_keywords] / 3 * 30)%Q in
  let score := (score + content_score)%Q in
  (* formatting (20%) *)
  let formatting_score := Py.get resume_analysis "formatting_score" 70%Q in
  let score := (score + (formatting_score / 100) * 20)%Q in
  (* completeness (10%) *)
  let sections := Py.get resume_analysis "sections_count" 0%Q in
  let completeness := (Py.min (sections / 5) 1 * 10)%Q in
  let score := (score + completeness)%Q in
  {| percentage := Py.min score 100;
     details := [Py.FStr "Resume quality and ATS compatibility"] |}.

Definition tech_keywords : list string :=
  ["python"; "java"; "javascript"; "sql"; "react"].
Definition soft_keywords : list string :=
  ["communication"; "leadership"; "teamwork"].

(** [any(any(kw in skill.lower() for kw in kws) for skill in skills)] *)
Definition has_keyword (kws : list string) (skills : list string) : bool :=
  Py.any (λ skill, Py.any (λ kw, Py.contains kw (Py.lower skill)) kws) skills.

(** [d.values()] *)
Definition dict_values (d : gmap string Q) : list Q := (map_to_list d).*2.

Definition _score_skills (skills : list string) (proficiency : gmap string Q)
  : ScoreData :=
  let score := 0%Q in
  (* skill count (30%) *)
  let skill_count := length skills in
  let count_score := (Py.min (Py.Qnat skill_count / 15) 1 * 30)%Q in
  let score := (score + count_score)%Q in
  (* skill diversity (30%) *)
  let has_tech := has_keyword tech_keywords skills in
  let has_soft := has_keyword soft_keywords skills in
  let diversity_score := ((Py.Qbool has_tech + Py.Qbool has_soft) / 2 * 30)%Q in
  let score := (score + diversity_score)%Q in
  (* proficiency levels (40%) *)
  let score :=
    if negb (Py.dict_falsy proficiency) then
      let avg_proficiency :=
        (Py.sum (dict_values proficiency) / Py.Qnat (size proficiency))%Q in
      let proficiency_score := ((avg_proficiency / 100) * 40)%Q in
      (score + proficiency_score)%Q
    else (score + 20)%Q in
  {| percentage := Py.min score 100;
     details := [Py.FInt (Z.of_nat skill_count);
                 Py.FStr " skills with varying proficiency"] |}.

(** the body of the [for project in projects] loop: one quality score *)
Definition project_quality (project : Project) : Q :=
  let proj_score := 0%Q in
  let proj_score :=
    if Py.truthy_opt (proj_description project) then (proj_score + 20)%Q else proj_score in
  let proj_score :=
    if Py.truthy_opt (proj_github_url project) then (proj_score + 20)%Q else proj_score in
  let proj_score :=
    if Py.truthy_opt (proj_demo_url project) then (proj_score + 20)%Q else proj_score in
  let stars := get (proj_stars project) 0%Q in
  let proj_score :=
    if Py.gtb stars 0 then (proj_score + Py.min (stars * 5) 20)%Q else proj_score in
  let proj_score :=
    if Py.contains "complex" (Py.lower (get (proj_description project) ""))
    then (proj_score + 20)%Q else proj_score in
  Py.min proj_score 100.

(** [set(p.get('language', 'Unknown') for p in projects)] *)
Definition project_languages (projects : list Project) : gset string :=
  list_to_set ((λ p, get (proj_language p) "Unknown") <$> projects).

Definition _score_projects (projects : list Project) : ScoreData :=
  let score := 0%Q in
  match projects with
  | [] => {| percentage := 0; details := [Py.FStr "No projects found"] |}
  | _ =>
      (* project count (25%) *)
      let count_score := (Py.min (Py.Qnat (length projects) / 8) 1 * 25)%Q in
      let score := (score + count_score)%Q in
      (* project quality (50%) *)
      let quality_scores := project_quality <$> projects in
      let avg_quality :=
        (Py.sum quality_scores / Py.Qnat (length quality_scores))%Q in
      let score := (score + (avg_quality / 100) * 50)%Q in
      (* diversity (25%) *)
      let languages := project_languages projects in
      let diversity_score := (Py.min (Py.Qnat (size languages) / 4) 1 * 25)%Q in
      let score := (score + diversity_score)%Q in
      {| percentage := Py.min score 100;
         details := [Py.FInt (Z.of_nat (length projects));
                     Py.FStr " projects across ";
                     Py.FInt (Z.of_nat (size languages));
                     Py.FStr " technologies"] |}
  end.

Definition trusted_providers : list string :=
  ["google"; "microsoft"; "aws"; "ibm"; "coursera"; "edx"].

(** [any(provider in cert.get('provider', '').lower() for provider in trusted_providers)] *)
Definition is_trusted (cert : Certification) : bool :=
  Py.any (λ provider, Py.contains provider (Py.lower (get (cert_provider cert) "")))
         trusted_providers.

(** One round of the recency loop: the certificate counts when its
    [date] is truthy, its first four characters parse as an integer
    [year], and [current_year - year <= 2].  A date that does not parse
    raises inside the [try] and is passed over. *)
Definition is_recent (current_year : Z) (cert : Certification) : bool :=
  match cert_date cert with
  | Some date =>
      if Py.truthy date then
        match Py.int_of_string (Py.str_prefix 4 date) with
        | Some year => (current_year - year <=? 2)%Z
        | None => false
        end
      else false
  | None => false
  end.

Definition count_where {A} (f : A → bool) (xs : list A) : nat :=
  length (filter (λ x, Is_true (f x)) xs).

(** [current_year] is [datetime.now().year], read from the clock on each
    call. *)
Definition _score_certifications (current_year : Z)
    (certifications : list Certification) : ScoreData :=
  let score := 0%Q in
  match certifications with
  | [] => {| percentage := 0; details := [Py.FStr "No certifications"] |}
  | _ =>
      let n := Py.Qnat (length certifications) in
      (* count (30%) *)
      let count_score := (Py.min (n / 8) 1 * 30)%Q in
      let score := (score + count_score)%Q in
      (* quality/trust (50%) *)
      let trusted_count := count_where is_trusted certifications in
      let quality_score :=
        (Py.min (Py.Qnat trusted_count / Py.max n 1) 1 * 50)%Q in
      let score := (score + quality_score)%Q in
      (* recency (20%) *)
      let recent_count := count_where (is_recent current_year) certifications in
      let recency_score :=
        (Py.min (Py.Qnat recent_count / Py.max n 1) 1 * 20)%Q in
      let score := (score + recency_score)%Q in
      {| percentage := Py.min score 100;
         details := [Py.FInt (Z.of_nat (length certifications));
                     Py.FStr " certifications, ";
                     Py.FInt (Z.of_nat trusted_count);
                     Py.FStr " from top providers"] |}
  end.

Definition leadership_keywords : list string :=
  ["president"; "lead"; "founder"; "organizer"; "captain"].

Definition is_leadership (activity : Activity) : bool :=
  Py.any (λ kw, Py.contains kw (Py.lower (get (act_role activity) "")))
         leadership_keywords.

(** [activity.get('achievements') or activity.get('impact')], as a truth
    value *)
Definition has_impact (activity : Activity) : bool :=
  match act_achievements activity with
  | Some (_ :: _) => true
  | _ => Py.truthy_opt (act_impact activity)
  end.

Definition _score_extracurricular (activities : list Activity) : ScoreData :=
  let score := 0%Q in
  match activities with
  | [] => {| percentage := 0; details := [Py.FStr "No extracurricular activities"] |}
  | _ =>
      let n := Py.Qnat (length activities) in
      (* count (30%) *)
      let count_score := (Py.min (n / 6) 1 * 30)%Q in
      let score := (score + count_score)%Q in
      (* leadership (40%) *)
      let leadership_count := count_where is_leadership activities in
      let leadership_score :=
        (Py.min (Py.Qnat leadership_count / Py.max n 1) 1 * 40)%Q in
      let score := (score + leadership_score)%Q in
      (* impact (30%) *)
      let impact_count := count_where has_impact activities in
      let impact_score :=
        (Py.min (Py.Qnat impact_count / Py.max n 1) 1 * 30)%Q in
      let score := (score + impact_score)%Q in
      {| percentage := Py.min score 100;
         details := [Py.FInt (Z.of_nat (length activities));
                     Py.FStr " activities, ";
                     Py.FInt (Z.of_nat leadership_count);
                     Py.FStr " leadership roles"] |}
  end.

Definition _score_github (github_stats : gmap string Q) : ScoreData :=
  let score := 0%Q in
  if Py.dict_falsy github_stats then
    {| percentage := 0; details := [Py.FStr "No GitHub activity"] |}
  else
    (* repository count (25%) *)
    let repos := Py.get github_stats "public_repos" 0%Q in
    let repo_score := (Py.min (repos / 15) 1 * 25)%Q in
    let score := (score + repo_score)%Q in
    (* contributions (35%) *)
    let contributions := Py.get github_stats "total_contributions" 0%Q in
    let contrib_score := (Py.min (contributions / 500) 1 * 35)%Q in
    let score := (score + contrib_score)%Q in
    (* stars received (20%) *)
    let stars := Py.get github_stats "total_stars" 0%Q in
    let star_score := (Py.min (stars / 50) 1 * 20)%Q in
    let score := (score + star_score)%Q in
    (* consistency (20%) *)
    let streak := Py.get github_stats "longest_streak" 0%Q in
    let consistency_score := (Py.min (streak / 30) 1 * 20)%Q in
    let score := (score + consistency_score)%Q in
    {| percentage := Py.min score 100;
       details := [Py.FNum repos; Py.FStr " repos, ";
                   Py.FNum contributions; Py.FStr " contributions, ";
                   Py.FNum stars; Py.FStr " stars"] |}.

Definition _score_learning (learning_progress : gmap string Q) : ScoreData :=
  let score := 0%Q in
  if Py.dict_falsy learning_progress then
    {| percentage := 50; details := [Py.FStr "No learning data"] |}
  else
    (* courses completed (40%) *)
    let completed := Py.get learning_progress "completed_courses" 0%Q in
    let completion_score := (Py.min (completed / 10) 1 * 40)%Q in
    let score := (score + completion_score)%Q in
    (* in progress (30%) *)
    let in_progress := Py.get learning_progress "in_progress_courses" 0%Q in
    let progress_score := (Py.min (in_progress / 5) 1 * 30)%Q in
    let score := (score + progress_score)%Q in
    (* learning consistency (30%) *)
    let hours := Py.get learning_progress "total_hours" 0%Q in
    let hours_score := (Py.min (hours / 100) 1 * 30)%Q in
    let score := (score + hours_score)%Q in
    {| percentage := Py.min score 100;
       details := [Py.FNum completed; Py.FStr " completed, ";
                   Py.FNum in_progress; Py.FStr " in progress"] |}.

Definition _score_interview_prep (interview_scores : gmap string Q) : ScoreData :=
  let score := 0%Q in
  if Py.dict_falsy interview_scores then
    {| percentage := 40; details := [Py.FStr "No interview practice data"] |}
  else
    (* practice count (30%) *)
    let practice_count := Py.get interview_scores "questions_practiced" 0%Q in
    let practice_score := (Py.min (practice_count / 50) 1 * 30)%Q in
    let score := (score + practice_score)%Q in
    (* average performance (50%) *)
    let avg_score := Py.get interview_scores "average_score" 0%Q in
    let performance_score := ((avg_score / 100) * 50)%Q in
    let score := (score + performance_score)%Q in
    (* improvement trend (20%) *)
    let improvement := Py.get interview_scores "improvement_rate" 0%Q in
    let trend_score := (Py.min (improvement / 20) 1 * 20)%Q in
    let score := (score + trend_score)%Q in
    {| percentage := Py.min score 100;
       details := [Py.FNum practice_count; Py.FStr " questions practiced, ";
                   Py.FNum avg_score; Py.FStr "% avg score"] |}.

(** *** Rating, insights and percentile *)

(** the loop of [_get_score_info]: the first range that contains the
    score, if any *)
Fixpoint find_range (score : Q) (ranges : list ((Q * Q) * ScoreInfo))
  : option ScoreInfo :=
  match ranges with
  | [] => None
  | ((min_score, max_score), info) :: rest =>
      if Py.leb min_score score && Py.leb score max_score then Some info
      else find_range score rest
  end.

(** [SCORE_RANGES[(0, 449)]] *)
Definition building_info : ScoreInfo :=
  {| rating := "Building"; emoji := "ðŸš€"; color := "#FF5252";
     info_description := "Early stage - Focus on fundamentals";
     opportunities := "Focus on learning, projects, and skill development" |}.

Definition _get_score_info (score : Q) : ScoreInfo :=
  match find_range score SCORE_RANGES with
  | Some info => info
  | None => building_info
  end.

(** [component.replace('_', ' ').title()] *)
Definition component_name (c : Component) : string :=
  Py.title (Py.replace_char "_" " " (component_key c)).

Definition _identify_strengths (component_scores : list (Component * WeightedScoreData))
  : list Py.fstring :=
  let sorted_components :=
    Py.sorted_desc (λ x, w_percentage x.2) component_scores in
  let strengths :=
    omap (λ '(component, score_data),
            if Py.geb (w_percentage score_data) 70
            then Some [Py.FStr "âœ… "; Py.FStr (component_name component);
                       Py.FStr ": "; Py.FFix1 (w_percentage score_data);
                       Py.FStr "%"]
            else None)
         (Py.take_first 3 sorted_components) in
  match strengths with
  | [] => [[Py.FStr "ðŸŒ± Building foundation across all areas"]]
  | _ => strengths
  end.

Definition _identify_weaknesses (component_scores : list (Component * WeightedScoreData))
  : list Py.fstring :=
  let sorted_components :=
    Py.sorted_asc (λ x, w_percentage x.2) component_scores in
  let weaknesses :=
    omap (λ '(component, score_data),
            if Py.ltb (w_percentage score_data) 60
            then Some [Py.FStr "âš ï¸ "; Py.FStr (component_name component);
                       Py.FStr ": "; Py.FFix1 (w_percentage score_data);
                       Py.FStr "%"]
            else None)
         (Py.take_first 3 sorted_components) in
  match weaknesses with
  | [] => [[Py.FStr "âœ¨ All areas performing well"]]
  | _ => weaknesses
  end.

(** [None] stands for the [ValueError] of [min] on an empty mapping. *)
Definition _generate_recommendations
    (component_scores : list (Component * WeightedScoreData)) (total_score : Q)
  : option (list Py.fstring) :=
  lowest ← Py.min_by (λ x, w_percentage x.2) component_scores;
  let component_name := component_name lowest.1 in
  let first :=
    [Py.FStr "ðŸŽ¯ Priority: Improve "; Py.FStr component_name;
     Py.FStr " (currently "; Py.FFix1 (w_percentage lowest.2); Py.FStr "%)"] in
  let rest :=
    if Py.ltb total_score 450 then
      [[Py.FStr "ðŸ“š Focus on building foundational skills and completing 2-3 projects"];
       [Py.FStr "ðŸŽ“ Earn 2-3 beginner certifications to validate your learning"]]
    else if Py.ltb total_score 550 then
      [[Py.FStr "ðŸ’¼ Build a strong portfolio with 4-5 quality projects"];
       [Py.FStr "ðŸ† Participate in hackathons or coding competitions"]]
    else if Py.ltb total_score 650 then
      [[Py.FStr "ðŸš€ Focus on advanced skills and specialized certifications"];
       [Py.FStr "ðŸ‘¥ Take on leadership roles in projects or communities"]]
    else if Py.ltb total_score 750 then
      [[Py.FStr "â­ Contribute to open source projects to showcase expertise"];
       [Py.FStr "ðŸ“ˆ Mentor others and share knowledge through blogs/talks"]]
    else
      [[Py.FStr "ðŸŒŸ Maintain excellence and explore cutting-edge technologies"];
       [Py.FStr "ðŸŽ¤ Build your personal brand through speaking and writing"]] in
  Some (first :: rest).

Record BreakdownRow := {
  b_component : string;
  b_percentage : Q;
  b_weighted_score : Q;
  b_max_points : Q;
  b_details : Py.fstring
}.

Definition _create_score_breakdown
    (component_scores : list (Component * WeightedScoreData)) : list BreakdownRow :=
  let breakdown :=
    (λ '(component, score_data),
       {| b_component := component_name component;
          b_percentage := w_percentage score_data;
          b_weighted_score := weighted_score score_data;
          b_max_points := w_max_points score_data;
          b_details := w_details score_data |}) <$> component_scores in
  (* sort by weighted score *)
  Py.sorted_desc b_weighted_score breakdown.

Record ImprovementPotential := {
  total_potential_gain : Q;
  best_improvement_area : string;
  potential_points_from_best_area : Q;
  percentage_to_max : Q
}.

(** [None] stands for the [ValueError] of [max] on an empty mapping. *)
Definition _calculate_improvement_potential
    (component_scores : list (Component * WeightedScoreData))
  : option ImprovementPotential :=
  let current_total := Py.sum (weighted_score <$> component_scores.*2) in
  let max_total := 850%Q in
  let potential_gain := (max_total - current_total)%Q in
  max_gain_component ←
    Py.max_by (λ x, ((100 - w_percentage x.2) * weight (SCORE_COMPONENTS x.1))%Q)
              component_scores;
  let component_name := component_name max_gain_component.1 in
  let potential_points :=
    ((100 - w_percentage max_gain_component.2) / 100
     * w_max_points max_gain_component.2)%Q in
  Some {| total_potential_gain := Py.round1 potential_gain;
          best_improvement_area := component_name;
          potential_points_from_best_area := Py.round1 potential_points;
          percentage_to_max := Py.round1 ((current_total / max_total) * 100) |}.

Definition _calculate_percentile (score : Q) : Z :=
  if Py.geb score 750 then (95 + Py.int ((score - 750) / 10))%Z
  else if Py.geb score 650 then (75 + Py.int ((score - 650) / 5))%Z
  else if Py.geb score 550 then (50 + Py.int ((score - 550) / 4))%Z
  else if Py.geb score 450 then (25 + Py.int ((score - 450) / 4))%Z
  else Py.int (score / 18).

(** *** The composite score *)

(** the eight entries of [component_scores], in the order the function
    fills the dict *)
Definition score_components (current_year : Z) (profile_data : Profile.t)
  : list (Component * ScoreData) :=
  [ (resume_quality,
     _score_resume (get (resume_analysis profile_data) ∅));
    (skills_portfolio,
     _score_skills (get (skills profile_data) [])
                   (get (skill_proficiency profile_data) ∅));
    (project_portfolio,
     _score_projects (get (projects profile_data) []));
    (certifications_c,
     _score_certifications current_year (get (certifications profile_data) []));
    (extracurricular_c,
     _score_extracurricular (get (extracurricular profile_data) []));
    (github_activity,
     _score_github (get (github_stats profile_data) ∅));
    (learning_progress_c,
     _score_learning (get (learning_progress profile_data) ∅));
    (interview_readiness,
     _score_interview_prep (get (interview_scores profile_data) ∅)) ].

(** one round of the weighting loop: the dict gains [weighted_score] and
    [max_points] *)
Definition weigh (entry : Component * ScoreData) : Component * WeightedScoreData :=
  let '(component, score_data) := entry in
  let max_points := max_points (SCORE_COMPONENTS component) in
  let weighted_score := ((percentage score_data / 100) * max_points)%Q in
  (component,
   {| w_percentage := percentage score_data;
      w_details := details score_data;
      weighted_score := weighted_score;
      w_max_points := max_points |}).

(** the weighting loop: [total_score] starts at [0] and grows by each
    [weighted_score] in turn *)
Definition weighted_components (component_scores : list (Component * ScoreData))
  : list (Component * WeightedScoreData) :=
  weigh <$> component_scores.

Definition total_of (weighted : list (Component * WeightedScoreData)) : Q :=
  fold_left (λ total_score x, (total_score + weighted_score x.2)%Q) weighted 0%Q.

(** the local [total_score] of [calculate_comprehensive_score], before
    rounding *)
Definition total_score (current_year : Z) (profile_data : Profile.t) : Q :=
  total_of (weighted_components (score_components current_year profile_data)).

Record ComprehensiveScore := {
  r_total_score : Q;
  r_max_score : Q;
  r_rating : string;
  r_emoji : string;
  r_color : string;
  r_description : string;
  r_opportunities : string;
  r_percentile : Z;
  r_component_scores : list (Component * WeightedScoreData);
  r_strengths : list Py.fstring;
  r_weaknesses : list Py.fstring;
  r_recommendations : list Py.fstring;
  r_score_breakdown : list BreakdownRow;
  r_improvement_potential : ImprovementPotential
}.

(** [calculate_comprehensive_score]; the result is [None] where the
    Python would raise. *)
Definition calculate_comprehensive_score (current_year : Z)
    (profile_data : Profile.t) : option ComprehensiveScore :=
  let component_scores :=
    weighted_components (score_components current_year profile_data) in
  let total_score := total_of component_scores in
  (* score range and rating *)
  let score_info := _get_score_info total_score in
  (* insights and recommendations *)
  let strengths := _identify_strengths component_scores in
  let weaknesses := _identify_weaknesses component_scores in
  recommendations ← _generate_recommendations component_scores total_score;
  (* percentile (simulated based on score) *)
  let percentile := _calculate_percentile total_score in
  improvement_potential ← _calculate_improvement_potential component_scores;
  Some {| r_total_score := Py.round1 total_score;
          r_max_score := 850;
          r_rating := rating score_info;
          r_emoji := emoji score_info;
          r_color := color score_info;
          r_description := info_description score_info;
          r_opportunities := opportunities score_info;
          r_percentile := percentile;
          r_component_scores := component_scores;
          r_strengths := strengths;
          r_weaknesses := weaknesses;
          r_recommendations := recommendations;
          r_score_breakdown := _create_score_breakdown component_scores;
          r_improvement_potential := improvement_potential |}.

(** *** Vocabulary of the statements about the scores *)

(** the keys each scorer of a numeric dict reads as amounts *)
Definition resume_keys : list string :=
  ["ats_score"; "has_summary"; "has_quantifiable_achievements";
   "formatting_score"; "sections_count"].
Definition github_keys : list string :=
  ["public_repos"; "total_contributions"; "total_stars"; "longest_streak"].
Definition learning_keys : list string :=
  ["completed_courses"; "in_progress_courses"; "total_hours"].
Definition interview_keys : list string :=
  ["questions_practiced"; "average_score"; "improvement_rate"].

(** the largest finite float, [(2^53 - 1) * 2^971] *)
Definition max_float : Q := inject_Z ((2 ^ 53 - 1) * 2 ^ 971).

(** The numbers of a mapping are numbers Python's float arithmetic
    takes in: added up in absolute value they stay within the largest
    float.  So none of them is [nan] or an infinity (no comparison with
    [nan] holds), none is an integer beyond the floats, and no sum of
    them is: on such a mapping the scorers neither raise nor compute
    with [nan]. *)
Definition float_sized (d : gmap string Q) : Prop :=
  (Py.sum (Qabs <$> dict_values d) <= max_float)%Q.

(** every numeric mapping of the profile is [float_sized] *)
Definition float_sized_profile (profile_data : Profile.t) : Prop :=
  float_sized (get (resume_analysis profile_data) ∅)
  ∧ float_sized (get (skill_proficiency profile_data) ∅)
  ∧ float_sized (get (github_stats profile_data) ∅)
  ∧ float_sized (get (learning_progress profile_data) ∅)
  ∧ float_sized (get (interview_scores profile_data) ∅).

(** no amount the scorers read from the profile is negative *)
Definition nonneg_profile (profile_data : Profile.t) : Prop :=
  Py.nonneg_at resume_keys (get (resume_analysis profile_data) ∅)
  ∧ Py.nonneg_values (get (skill_proficiency profile_data) ∅)
  ∧ Py.nonneg_at github_keys (get (github_stats profile_data) ∅)
  ∧ Py.nonneg_at learning_keys (get (learning_progress profile_data) ∅)
  ∧ Py.nonneg_at interview_keys (get (interview_scores profile_data) ∅).



End HolisticScore.

(* ===================================================================== *)
(** ** src/certificate_validator.py: validation and analysis              *)
(* ===================================================================== *)

Module CertificateValidator.
Import Profile.
Local Open Scope string_scope.

(** *** Regular expressions, as far as the provider patterns use them *)

Inductive regex :=
| Void
| Eps
| Sym (accept : ascii → bool)
| Cat (r1 r2 : regex)
| Alt (r1 r2 : regex)
| Star (r : regex).

Fixpoint nullable (r : regex) : bool :=
  match r with
  | Void => false
  | Eps => true
  | Sym _ => false
  | Cat r1 r2 => nullable r1 && nullable r2
  | Alt r1 r2 => nullable r1 || nullable r2
  | Star _ => true
  end.

(** what is left of [r] after reading the character [c] *)
Fixpoint deriv (c : ascii) (r : regex) : regex :=
  match r with
  | Void => Void
  | Eps => Void
  | Sym accept => if accept c then Eps else Void
  | Cat r1 r2 =>
      if nullable r1 then Alt (Cat (deriv c r1) r2) (deriv c r2)
      else Cat (deriv c r1) r2
  | Alt r1 r2 => Alt (deriv c r1) (deriv c r2)
  | Star r' => Cat (deriv c r') (Star r')
  end.

(** [r] matches the whole of [s] *)
Fixpoint matches (r : regex) (s : string) : bool :=
  match s with
  | EmptyString => nullable r
  | String c s' => matches (deriv c r) s'
  end.

(** [re.search(pattern, s)] as a truth value: [pattern] matches some
    stretch of [s] *)
Definition re_search (pattern : regex) (s : string) : bool :=
  let anything := Star (Sym (λ _, true)) in
  matches (Cat anything (Cat pattern anything)) s.

(** The patterns are compiled with [re.IGNORECASE]: a character of the
    pattern accepts both of its cases. *)
Definition same_letter (a b : ascii) : bool :=
  Ascii.eqb (Py.lower_ascii a) (Py.lower_ascii b).

(** a literal stretch of a pattern, such as [coursera\.org/verify/] *)
Fixpoint lit (s : string) : regex :=
  match s with
  | EmptyString => Eps
  | String c s' => Cat (Sym (same_letter c)) (lit s')
  end.

(** [.]: any character but a line break *)
Definition dot : regex := Sym (λ c, negb (Ascii.eqb c "010")).

(** [.*] *)
Definition dot_star : regex := Star dot.

Definition in_span (lo hi c : ascii) : bool :=
  (nat_of_ascii lo <=? nat_of_ascii c)%nat && (nat_of_ascii c <=? nat_of_ascii hi)%nat.

(** a character class [[a-bc-d...]], given by its spans *)
Definition class (spans : list (ascii * ascii)) : regex :=
  Sym (λ c, existsb (λ '(lo, hi), in_span lo hi (Py.lower_ascii c)
                                  || in_span lo hi (Py.upper_ascii c)) spans).

(** [r+] *)
Definition plus (r : regex) : regex := Cat r (Star r).

(** [[A-Z0-9]+] and [[a-f0-9-]+] *)
Definition upper_or_digit : regex := plus (class [("A", "Z"); ("0", "9")]%char).
Definition hex_or_dash : regex := plus (class [("a", "f"); ("0", "9"); ("-", "-")]%char).

Record Provider := {
  pattern : regex;
  domains : list string;
  provider_trust_score : Q
}.

(** [CERT_PROVIDERS], in the insertion order of the dict literal *)
Definition CERT_PROVIDERS : list (string * Provider) := [
  ("Coursera",
   {| pattern := Cat (lit "coursera.org/verify/") upper_or_digit;
      domains := ["coursera.org"]; provider_trust_score := 95 |});
  ("edX",
   {| pattern := Cat (lit "credentials.edx.org/credentials/") hex_or_dash;
      domains := ["edx.org"; "credentials.edx.org"]; provider_trust_score := 95 |});
  ("Udemy",
   {| pattern := Cat (lit "udemy.com/certificate/") upper_or_digit;
      domains := ["udemy.com"]; provider_trust_score := 85 |});
  ("LinkedIn Learning",
   {| pattern := Cat (lit "linkedin.com/learning/certificates/") hex_or_dash;
      domains := ["linkedin.com"]; provider_trust_score := 90 |});
  ("Google",
   {| pattern := Alt (Cat (lit "google.com/") (Cat dot_star (lit "certificate")))
                     (Cat (lit "coursera.org/") (Cat dot_star (lit "google")));
      domains := ["google.com"; "grow.google"]; provider_trust_score := 98 |});
  ("Microsoft",
   {| pattern := Alt (Cat (lit "microsoft.com/") (Cat dot_star (lit "certification")))
                     (lit "learn.microsoft");
      domains := ["microsoft.com"; "learn.microsoft.com"];
      provider_trust_score := 98 |});
  ("AWS",
   {| pattern := Alt (lit "aws.amazon.com/certification") (lit "aws.training");
      domains := ["aws.amazon.com"; "aws.training"]; provider_trust_score := 98 |});
  ("IBM",
   {| pattern := Alt (Cat (lit "ibm.com/") (Cat dot_star (lit "badge")))
                     (Cat (lit "credly.com/") (Cat dot_star (lit "ibm")));
      domains := ["ibm.com"; "yourlearning.ibm.com"]; provider_trust_score := 95 |});
  ("Oracle",
   {| pattern := Alt (Cat (lit "oracle.com/") (Cat dot_star (lit "certification")))
                     (lit "education.oracle");
      domains := ["oracle.com"; "education.oracle.com"];
      provider_trust_score := 95 |});
  ("Cisco",
   {| pattern := Alt (Cat (lit "cisco.com/") (Cat dot_star (lit "certification")))
                     (lit "learningnetwork.cisco");
      domains := ["cisco.com"]; provider_trust_score := 95 |});
  ("CompTIA",
   {| pattern := lit "comptia.org";
      domains := ["comptia.org"; "certmaster.comptia.org"];
      provider_trust_score := 92 |});
  ("freeCodeCamp",
   {| pattern := lit "freecodecamp.org/certification";
      domains := ["freecodecamp.org"]; provider_trust_score := 88 |});
  ("Udacity",
   {| pattern := lit "udacity.com/certificate";
      domains := ["udacity.com"]; provider_trust_score := 90 |});
  ("Pluralsight",
   {| pattern := lit "pluralsight.com";
      domains := ["pluralsight.com"]; provider_trust_score := 88 |});
  ("DataCamp",
   {| pattern := lit "datacamp.com/certificate";
      domains := ["datacamp.com"]; provider_trust_score := 87 |});
  ("HackerRank",
   {| pattern := lit "hackerrank.com/certificates";
      domains := ["hackerrank.com"]; provider_trust_score := 85 |});
  ("Credly",
   {| pattern := lit "credly.com/badges";
      domains := ["credly.com"]; provider_trust_score := 90 |})
].

(** *** Dates *)

(** A [datetime]: the day as its proleptic Gregorian ordinal (day 1 is
    1 January of year 1) and the microseconds elapsed in that day. *)
Record datetime := {
  ordinal : Z;
  microsecond_of_day : Z
}.

Definition is_leap (year : Z) : bool :=
  ((year mod 4 =? 0) && (negb (year mod 100 =? 0) || (year mod 400 =? 0)))%Z.

Definition days_in_month (year month : Z) : Z :=
  match month with
  | 2 => if is_leap year then 29 else 28
  | 4 | 6 | 9 | 11 => 30
  | _ => 31
  end%Z.

(** the number of days of the year before the first of the month *)
Definition days_before_month (year month : Z) : Z :=
  fold_left (λ acc m, acc + days_in_month year (Z.of_nat m))%Z
            (seq 1 (Z.to_nat month - 1)) 0%Z.

Definition days_before_year (year : Z) : Z :=
  let y := (year - 1)%Z in
  (y * 365 + y / 4 - y / 100 + y / 400)%Z.

(** [datetime(year, month, day)], at midnight; [None] for the
    [ValueError] of a date that does not exist *)
Definition make_date (year month day : Z) : option datetime :=
  if ((1 <=? year) && (year <=? 9999) && (1 <=? month) && (month <=? 12)
      && (1 <=? day) && (day <=? days_in_month year month))%Z
  then Some {| ordinal := days_before_year year + days_before_month year month + day;
               microsecond_of_day := 0 |}
  else None.

(** [a < b] on datetimes *)
Definition datetime_lt (a b : datetime) : bool :=
  ((ordinal a <? ordinal b)
   || ((ordinal a =? ordinal b) && (microsecond_of_day a <? microsecond_of_day b)))%Z.

(** [(a - b).days]: the whole days of the difference, rounded down *)
Definition days_between (a b : datetime) : Z :=
  (((ordinal a - ordinal b) * 86400000000
    + (microsecond_of_day a - microsecond_of_day b)) / 86400000000)%Z.

(** the digits at the head of [s] that a directive takes, and the rest *)
Definition two_digits (s : string) : option (Z * string) :=
  match s with
  | String a (String b rest) =>
      if Py.is_digit a && Py.is_digit b
      then Some ((Py.digit_value a * 10 + Py.digit_value b)%Z, rest)
      else None
  | _ => None
  end.

(** [%m]: [1[0-2]|0[1-9]|[1-9]], the alternatives tried in this order,
    the next character of the format being ["-"] *)
Definition parse_month (s : string) : option (Z * string) :=
  match two_digits s with
  | Some (m, String "-" rest) =>
      if ((1 <=? m) && (m <=? 12))%Z then Some (m, String "-" rest) else None
  | _ =>
      match s with
      | String a rest =>
          if Py.is_digit a && negb (Ascii.eqb a "0")
          then Some (Py.digit_value a, rest) else None
      | _ => None
      end
  end.

(** [%d]: [3[01]|[12]\d|0[1-9]|[1-9]| [1-9]], at the end of the format *)
Definition parse_day (s : string) : option (Z * string) :=
  match two_digits s with
  | Some (d, rest) =>
      if ((1 <=? d) && (d <=? 31))%Z then Some (d, rest)
      else
        match s with
        | String a rest' =>
            if Py.is_digit a && negb (Ascii.eqb a "0")
            then Some (Py.digit_value a, rest') else None
        | _ => None
        end
  | None =>
      match s with
      | String " " (String a rest) =>
          if Py.is_digit a && negb (Ascii.eqb a "0")
          then Some (Py.digit_value a, rest) else None
      | String a rest =>
          if Py.is_digit a && negb (Ascii.eqb a "0")
          then Some (Py.digit_value a, rest) else None
      | _ => None
      end
  end.

(** [datetime.strptime(s, '%Y-%m-%d')]; [None] for the [ValueError] *)
Definition strptime_ymd (s : string) : option datetime :=
  '(y1, s) ← two_digits s;
  '(y2, s) ← two_digits s;
  match s with
  | String "-" s =>
      '(month, s) ← parse_month s;
      match s with
      | String "-" s =>
          '(day, s) ← parse_day s;
          match s with
          | EmptyString => make_date (y1 * 100 + y2) month day
          | _ => None
          end
      | _ => None
      end
  | _ => None
  end.

(** *** [validate_certificate] *)

Record Validation := {
  valid : bool;
  trust_score : Q;
  provider_verified : bool;
  url_verified : bool;
  warnings : list string;
  recommendations : list string;
  verified_provider : option string
}.

(** the first loop: the first provider whose lowered name occurs in the
    certificate's provider or name *)
Definition find_named_provider (provider cert_name : string)
  : option (string * Provider) :=
  List.find (λ '(known_provider, _),
               Py.contains (Py.lower known_provider) provider
               || Py.contains (Py.lower known_provider) cert_name)
            CERT_PROVIDERS.

(** the second loop: the first provider whose pattern is found in the URL *)
Definition find_url_provider (url : string) : option (string * Provider) :=
  List.find (λ '(_, info), re_search (pattern info) url) CERT_PROVIDERS.

(** what the expiry check finds: the certificate has expired, expires
    within 90 days, or neither (also when there is no expiry date or it
    does not parse).  The clock is read once for the first comparison
    and, when that fails, once more for the second. *)
Inductive ExpiryStatus := Expired | ExpiresSoon | NoWarning.

Definition expiry_status (now_first now_second : datetime) (cert_data : Certification)
  : ExpiryStatus :=
  match cert_expiry cert_data with
  | Some expiry =>
      if Py.truthy expiry then
        match strptime_ymd expiry with
        | Some expiry_date =>
            if datetime_lt expiry_date now_first then Expired
            else if (days_between expiry_date now_second <? 90)%Z then ExpiresSoon
            else NoWarning
        | None => NoWarning
        end
      else NoWarning
  | None => NoWarning
  end.

(** [now_first] and [now_second] are the two values [datetime.now()]
    returns during the call. *)
Definition validate_certificate (now_first now_second : datetime)
    (cert_data : Certification) : Validation :=
  let cert_name := Py.lower (get (cert_name cert_data) "") in
  let provider := Py.lower (get (cert_provider cert_data) "") in
  let url := get (cert_url cert_data) "" in
  (* verify provider *)
  let '(provider_verified, trust_score, verified_provider) :=
    match find_named_provider provider cert_name with
    | Some (known_provider, info) =>
        (true, provider_trust_score info, Some known_provider)
    | None => (false, 0%Q, None)
    end in
  (* verify URL if provided *)
  let '(url_verified, provider_verified, trust_score, verified_provider) :=
    if Py.truthy url then
      match find_url_provider url with
      | Some (known_provider, info) =>
          if negb provider_verified
          then (true, true, provider_trust_score info, Some known_provider)
          else (true, provider_verified, trust_score, verified_provider)
      | None => (false, provider_verified, trust_score, verified_provider)
      end
    else (false, provider_verified, trust_score, verified_provider) in
  (* check for expiry *)
  let '(warnings, trust_score) :=
    match expiry_status now_first now_second cert_data with
    | Expired => (["Certificate has expired"], (trust_score * (5 # 10))%Q)
    | ExpiresSoon => (["Certificate expires soon"], trust_score)
    | NoWarning => ([], trust_score)
    end in
  (* overall validation *)
  let '(valid, warnings, trust_score) :=
    if provider_verified || url_verified then (true, warnings, trust_score)
    else (false,
          (warnings ++ ["Provider not recognized - manual verification recommended"])%list,
          50%Q) in
  (* recommendations *)
  let recommendations :=
    ((if negb (Py.truthy url) then ["Add certificate URL for verification"] else [])
     ++ (if negb (Py.truthy_opt (cert_date cert_data))
         then ["Add issue date for better tracking"] else []))%list in
  {| valid := valid;
     trust_score := trust_score;
     provider_verified := provider_verified;
     url_verified := url_verified;
     warnings := warnings;
     recommendations := recommendations;
     verified_provider := verified_provider |}.

(** *** The analysis of a list of certificates *)

Record CertCategory := {
  cat_keywords : list string;
  cat_skills : list string;
  cat_weight : Q
}.

(** [CERT_CATEGORIES], in the insertion order of the dict literal *)
Definition CERT_CATEGORIES : list (string * CertCategory) := [
  ("Cloud Computing",
   {| cat_keywords := ["aws"; "azure"; "gcp"; "cloud"; "kubernetes"; "docker"; "devops"];
      cat_skills := ["Cloud Architecture"; "Infrastructure"; "DevOps"; "Containerization"];
      cat_weight := 12 # 10 |});
  ("Data Science",
   {| cat_keywords := ["data science"; "machine learning"; "ai"; "deep learning"; "analytics"; "statistics"];
      cat_skills := ["Python"; "R"; "Machine Learning"; "Statistics"; "Data Analysis"];
      cat_weight := 13 # 10 |});
  ("Web Development",
   {| cat_keywords := ["web"; "frontend"; "backend"; "fullstack"; "javascript"; "react"; "node"];
      cat_skills := ["JavaScript"; "HTML"; "CSS"; "React"; "Node.js"; "Web Development"];
      cat_weight := 11 # 10 |});
  ("Cybersecurity",
   {| cat_keywords := ["security"; "cybersecurity"; "ethical hacking"; "penetration"; "cissp"; "ceh"];
      cat_skills := ["Network Security"; "Ethical Hacking"; "Security Analysis"; "Risk Management"];
      cat_weight := 13 # 10 |});
  ("Database",
   {| cat_keywords := ["sql"; "database"; "mongodb"; "postgresql"; "mysql"; "nosql"];
      cat_skills := ["SQL"; "Database Design"; "Data Modeling"; "Query Optimization"];
      cat_weight := 11 # 10 |});
  ("Project Management",
   {| cat_keywords := ["pmp"; "agile"; "scrum"; "project management"; "prince2"];
      cat_skills := ["Project Management"; "Agile"; "Scrum"; "Leadership"];
      cat_weight := 10 # 10 |});
  ("Programming",
   {| cat_keywords := ["python"; "java"; "c++"; "programming"; "coding"; "software"];
      cat_skills := ["Programming"; "Problem Solving"; "Algorithms"; "Data Structures"];
      cat_weight := 12 # 10 |});
  ("Business Analytics",
   {| cat_keywords := ["business analytics"; "bi"; "tableau"; "power bi"; "excel"];
      cat_skills := ["Business Intelligence"; "Data Visualization"; "Excel"; "Analytics"];
      cat_weight := 10 # 10 |});
  ("Mobile Development",
   {| cat_keywords := ["android"; "ios"; "mobile"; "flutter"; "react native"; "swift"];
      cat_skills := ["Mobile Development"; "iOS"; "Android"; "Cross-platform"];
      cat_weight := 11 # 10 |});
  ("AI/ML",
   {| cat_keywords := ["artificial intelligence"; "neural network"; "nlp"; "computer vision"; "tensorflow"];
      cat_skills := ["AI"; "Neural Networks"; "NLP"; "Computer Vision"; "TensorFlow"];
      cat_weight := 14 # 10 |})
].

(** A certificate as [analyze_certificates] reads it: the keys
    [validate_certificate] reads, and ['description']. *)
Record Certificate := {
  cert_data : Certification;
  cert_description : option string
}.

(** A [defaultdict] with default [dflt], as the list of its items in
    insertion order; [dict_update k dflt f d] is [d[k] = f(d[k])]. *)
Fixpoint dict_update {V} (k : string) (dflt : V) (f : V → V)
    (d : list (string * V)) : list (string * V) :=
  match d with
  | [] => [(k, f dflt)]
  | (k', v) :: rest =>
      if String.eqb k' k then (k', f v) :: rest
      else (k', v) :: dict_update k dflt f rest
  end.

Record TimelineEntry := {
  tl_date : string;
  tl_name : option string;
  tl_provider : string
}.

Record CertDetail := {
  cd_name : string;
  cd_provider : string;
  cd_validation : Validation;
  cd_categories : list string
}.

Record Analysis := {
  total_certificates : nat;
  verified_count : nat;
  trust_score_avg : Q;
  categories : list (string * list (option string));
  skills_gained : list (string * Q);
  providers : list (string * nat);
  timeline : list TimelineEntry;
  analysis_warnings : list string;
  analysis_recommendations : list Py.fstring;
  certificate_details : list CertDetail
}.

(** the loop over [CERT_CATEGORIES] for one certificate: the categories
    one of whose keywords occurs in the text get the certificate's name,
    their skills gain the category's weight *)
Definition categorize (name : option string) (combined_text : string)
    (categories : list (string * list (option string)))
    (skills_gained : list (string * Q))
  : list (string * list (option string)) * list (string * Q) * list string :=
  fold_left
    (λ '(categories, skills_gained, matched_categories)
       '((category, info) : string * CertCategory),
       if Py.any (λ keyword, Py.contains keyword combined_text) (cat_keywords info)
       then (dict_update category [] (λ names, (names ++ [name])%list) categories,
             fold_left (λ skills_gained skill,
                          dict_update skill 0%Q (λ n, (n + cat_weight info)%Q)
                                      skills_gained)
                       (cat_skills info) skills_gained,
             (matched_categories ++ [category])%list)
       else (categories, skills_gained, matched_categories))
    CERT_CATEGORIES (categories, skills_gained, []).

(** what the loop of [analyze_certificates] changes: the counters and
    collections of [analysis], and [total_trust] *)
Record LoopState := {
  st_verified_count : nat;
  st_total_trust : Q;
  st_categories : list (string * list (option string));
  st_skills_gained : list (string * Q);
  st_providers : list (string * nat);
  st_timeline : list TimelineEntry;
  st_warnings : list string;
  st_details : list CertDetail
}.

Definition initial_state : LoopState :=
  {| st_verified_count := 0; st_total_trust := 0; st_categories := [];
     st_skills_gained := []; st_providers := []; st_timeline := [];
     st_warnings := []; st_details := [] |}.

(** [list.sort(key=lambda x: x['date'], reverse=True)]: stable,
    descending in the order of strings *)
Fixpoint insert_by_date (x : TimelineEntry) (l : list TimelineEntry)
  : list TimelineEntry :=
  match l with
  | [] => [x]
  | y :: l' => if String.ltb (tl_date x) (tl_date y) then y :: insert_by_date x l'
               else x :: y :: l'
  end.

Definition sort_by_date_desc (xs : list TimelineEntry) : list TimelineEntry :=
  foldr insert_by_date [] xs.

(** [_generate_cert_recommendations]; the one line with a number is
    filled by [str.format] with [int(verification_rate)] *)
Definition _generate_cert_recommendations (analysis : Analysis) : list Py.fstring :=
  let total := total_certificates analysis in
  (* certificate count *)
  let recommendations :=
    if (total <? 3)%nat
    then [[Py.FStr "🎯 Consider earning more certifications to strengthen your profile (aim for 5-10 relevant certificates)"]]
    else if (20 <? total)%nat
    then [[Py.FStr "📋 Focus on quality over quantity - highlight your most relevant and recent certifications"]]
    else [] in
  (* verification rate *)
  let verification_rate :=
    if (0 <? total)%nat
    then (Py.Qnat (verified_count analysis) / Py.Qnat total * 100)%Q
    else 0%Q in
  let recommendations :=
    if Py.ltb verification_rate 70
    then (recommendations ++
          [[Py.FStr "🔍 Add certificate URLs for better verification (currently ";
            Py.FInt (Py.int verification_rate);
            Py.FStr "% verified)"]])%list
    else recommendations in
  (* category diversity *)
  let recommendations :=
    if (length (categories analysis) <? 2)%nat
    then (recommendations ++
          [[Py.FStr "🌟 Diversify your certifications across multiple domains for a well-rounded profile"]])%list
    else recommendations in
  (* high-value certifications *)
  let has_cloud := Py.any (λ cat, Py.contains "Cloud" cat) (categories analysis).*1 in
  let has_ai :=
    Py.any (λ cat, Py.contains "AI" cat || Py.contains "Data Science" cat)
           (categories analysis).*1 in
  let recommendations :=
    if negb has_cloud
    then (recommendations ++
          [[Py.FStr "☁️ Consider cloud certifications (AWS/Azure/GCP) - highly valued in the current market"]])%list
    else recommendations in
  let recommendations :=
    if negb has_ai
    then (recommendations ++
          [[Py.FStr "🤖 AI/ML certifications are in high demand - consider adding them to your portfolio"]])%list
    else recommendations in
  (* expired certificates *)
  let recommendations :=
    if Py.any (λ w, Py.contains "expired" (Py.lower w)) (analysis_warnings analysis)
    then (recommendations ++
          [[Py.FStr "🔄 Renew expired certifications or replace them with current ones"]])%list
    else recommendations in
  (* provider diversity *)
  if (length (providers analysis) <? 2)%nat
  then (recommendations ++
        [[Py.FStr "🏢 Earn certifications from multiple providers for broader recognition"]])%list
  else recommendations.

(** [analysis['recommendations'] = recommendations] *)
Definition with_recommendations (analysis : Analysis)
    (recommendations : list Py.fstring) : Analysis :=
  {| total_certificates := total_certificates analysis;
     verified_count := verified_count analysis;
     trust_score_avg := trust_score_avg analysis;
     categories := categories analysis;
     skills_gained := skills_gained analysis;
     providers := providers analysis;
     timeline := timeline analysis;
     analysis_warnings := analysis_warnings analysis;
     analysis_recommendations := recommendations;
     certificate_details := certificate_details analysis |}.

Section Clock.

(** [clock i] holds the two values [datetime.now()] returns while the
    certificate at position [i] of the list is validated. *)
Variable clock : nat → datetime * datetime.

(** one round of the loop of [analyze_certificates], for the certificate
    at position [i] *)
Definition analyze_step (i : nat) (st : LoopState) (cert : Certificate)
  : LoopState :=
  (* validate certificate *)
  let validation :=
    validate_certificate (clock i).1 (clock i).2 (cert_data cert) in
  let verified_count :=
    if valid validation then S (st_verified_count st) else st_verified_count st in
  let total_trust := (st_total_trust st + trust_score validation)%Q in
  (* categorize certificate *)
  let cert_name := Py.lower (get (cert_name (cert_data cert)) "") in
  let cert_desc := Py.lower (get (cert_description cert) "") in
  let combined_text := cert_name +:+ " " +:+ cert_desc in
  let '(categories, skills_gained, matched_categories) :=
    categorize (Profile.cert_name (cert_data cert)) combined_text
               (st_categories st) (st_skills_gained st) in
  let cert_detail :=
    {| cd_name := get (Profile.cert_name (cert_data cert)) "Unknown";
       cd_provider := get (cert_provider (cert_data cert)) "Unknown";
       cd_validation := validation;
       cd_categories := matched_categories |} in
  (* track provider *)
  let provider :=
    default (get (cert_provider (cert_data cert)) "Other")
            (verified_provider validation) in
  let providers := dict_update provider 0%nat S (st_providers st) in
  (* add to timeline *)
  let timeline :=
    match cert_date (cert_data cert) with
    | Some date =>
        if Py.truthy date then
          match strptime_ymd date with
          | Some issue_date =>
              (st_timeline st ++
               [{| tl_date := date;
                   tl_name := Profile.cert_name (cert_data cert);
                   tl_provider := provider |}])%list
          | None => st_timeline st
          end
        else st_timeline st
    | None => st_timeline st
    end in
  {| st_verified_count := verified_count;
     st_total_trust := total_trust;
     st_categories := categories;
     st_skills_gained := skills_gained;
     st_providers := providers;
     st_timeline := timeline;
     (* collect warnings *)
     st_warnings := (st_warnings st ++ warnings validation)%list;
     st_details := (st_details st ++ [cert_detail])%list |}.

(** the loop, from position [i] on *)
Fixpoint analyze_loop (i : nat) (certificates : list Certificate) (st : LoopState)
  : LoopState :=
  match certificates with
  | [] => st
  | cert :: rest => analyze_loop (S i) rest (analyze_step i st cert)
  end.

Definition analyze_certificates (certificates : list Certificate) : Analysis :=
  let st := analyze_loop 0 certificates initial_state in
  let analysis :=
    {| total_certificates := length certificates;
       verified_count := st_verified_count st;
       (* averages *)
       trust_score_avg :=
         match certificates with
         | [] => 0%Q
         | _ => (st_total_trust st / Py.Qnat (length certificates))%Q
         end;
       categories := st_categories st;
       skills_gained := st_skills_gained st;
       providers := st_providers st;
       (* sort timeline *)
       timeline := sort_by_date_desc (st_timeline st);
       analysis_warnings := st_warnings st;
       analysis_recommendations := [];
       certificate_details := st_details st |} in
  with_recommendations analysis (_generate_cert_recommendations analysis).

(** [get_certificate_value_score] *)
Definition get_certificate_value_score (certificates : list Certificate) : Q :=
  match certificates with
  | [] => 0%Q
  | _ =>
      let analysis := analyze_certificates certificates in
      (* scoring components *)
      let quantity_score := Py.min (Py.Qnat (length certificates) * 5) 30 in
      let quality_score := ((trust_score_avg analysis / 100) * 40)%Q in
      let diversity_score :=
        Py.min (Py.Qnat (length (categories analysis)) * 5) 20 in
      let recency_score := 10%Q in
      let total_score :=
        (quantity_score + quality_score + diversity_score + recency_score)%Q in
      Py.min total_score 100
  end.

End Clock.

(** *** Vocabulary of the statements about the analysis *)

(** the text in which [analyze_certificates] looks for keywords: the
    lowered name and description of the certificate *)
Definition combined_text (cert : Certificate) : string :=
  Py.lower (get (cert_name (cert_data cert)) "") +:+ " "
  +:+ Py.lower (get (cert_description cert) "").

(** the categories one of whose keywords occurs in a text, in the order
    of the table *)
Definition matching_categories (text : string) : list string :=
  (filter (λ x : string * CertCategory,
             Py.any (λ keyword, Py.contains keyword text) (cat_keywords x.2) = true)
          CERT_CATEGORIES).*1.

(** the date under which a certificate enters the timeline: there,
    non-empty and of the form [%Y-%m-%d] *)
Definition timeline_date (cert : Certificate) : option string :=
  date ← cert_date (cert_data cert);
  if Py.truthy date && bool_decide (is_Some (strptime_ymd date)) then Some date
  else None.

(** no entry is followed by one with a greater date *)
Definition newest_first (entries : list TimelineEntry) : Prop :=
  StronglySorted (λ e1 e2, String.ltb (tl_date e1) (tl_date e2) = false) entries.

End CertificateValidator.

(* ===================================================================== *)
(** ** src/openrouter_llm.py: the text generators                         *)
(* ===================================================================== *)

Module OpenRouterLLM.
Local Open Scope string_scope.

(** [_truncate(text, limit)] *)
Definition _truncate (text : string) (limit : nat) : string :=
  if negb (Py.truthy text) then ""
  else if (String.length text <=? limit)%nat then text
  else Py.str_prefix limit text +:+ Py.nl +:+ Py.nl +:+ "...[truncated]".

(** *** The local fallback of the resume enhancer *)

(** [list(dict.fromkeys(xs))]: the distinct elements, each at its first
    occurrence *)
Fixpoint unique (xs : list string) : list string :=
  match xs with
  | [] => []
  | x :: rest => x :: filter (λ y, y ≠ x) (unique rest)
  end.

Definition is_letter (c : ascii) : bool := Py.is_upper c || Py.is_lower c.

(** a word character of the regular-expression engine *)
Definition is_word_char (c : ascii) : bool :=
  is_letter c || Py.is_digit c || Ascii.eqb c "_".

Fixpoint all_chars (f : ascii → bool) (s : string) : bool :=
  match s with
  | EmptyString => true
  | String c s' => f c && all_chars f s'
  end.

(** the maximal runs of word characters of a text, in order; [cur] is the
    run being read *)
Fixpoint word_runs (cur : string) (text : string) : list string :=
  match text with
  | EmptyString => if Py.truthy cur then [cur] else []
  | String c text' =>
      if is_word_char c then word_runs (cur +:+ String c EmptyString) text'
      else ((if Py.truthy cur then [cur] else []) ++ word_runs "" text')%list
  end.

(** [re.findall(r'\b[A-Za-z]{3,}\b', text)]: a match starts and ends at
    a word boundary, so it is a maximal run of word characters made of at
    least three letters and nothing else. *)
Definition findall_words (text : string) : list string :=
  filter (λ run, Is_true (all_chars is_letter run && (3 <=? String.length run)%nat))
         (word_runs "" text).
Definition common_buzzwords : list string :=
  ["experience"; "skills"; "required"; "preferred"; "years"; "team"; "work"].

(** *** What the generators send to the provider *)

Definition enhance_system_message : string := "You are an expert resume writer and career coach with 15+ years of experience helping candidates land their dream jobs.".

Definition enhance_prompt (resume_text jd_text : string)
    (missing_skills : list string) : string :=
    "Analyze the resume and job description below, then provide specific, actionable recommendations to improve the resume."
    +:+ Py.nl
    +:+ Py.nl
    +:+ "CURRENT RESUME:"
    +:+ Py.nl
    +:+ _truncate resume_text 2000
    +:+ Py.nl
    +:+ Py.nl
    +:+ "JOB DESCRIPTION:"
    +:+ Py.nl
    +:+ _truncate jd_text 2000
    +:+ Py.nl
    +:+ Py.nl
    +:+ "MISSING SKILLS TO ADDRESS:"
    +:+ Py.nl
    +:+ Py.join ", " (Py.take_first 10 missing_skills)
    +:+ Py.nl
    +:+ Py.nl
    +:+ "Provide 5-8 specific resume improvements in this format:"
    +:+ Py.nl
    +:+ "• [Section]: [Specific improvement with example]"
    +:+ Py.nl
    +:+ Py.nl
    +:+ "Focus on:"
    +:+ Py.nl
    +:+ "1. Adding relevant keywords from the job description"
    +:+ Py.nl
    +:+ "2. Quantifying achievements with numbers/percentages"
    +:+ Py.nl
    +:+ "3. Highlighting transferable skills"
    +:+ Py.nl
    +:+ "4. Addressing missing skills through existing experience"
    +:+ Py.nl
    +:+ "5. Improving action verbs and impact statements"
    +:+ Py.nl
    +:+ Py.nl
    +:+ "Resume Improvements:".

Definition project_ideas_system_message : string := "You are a senior career coach and staff-level engineer who crafts standout portfolio projects that demonstrate real-world impact and hiring signals.".

Definition project_ideas_prompt (resume_text : string) (skills : list string)
  : string :=
  let skills_joined := Py.join ", " skills in
    "Propose 3-5 high-impact, realistic project ideas tailored to the candidate."
    +:+ Py.nl
    +:+ Py.nl
    +:+ "Candidate Background:"
    +:+ Py.nl
    +:+ "RESUME TEXT:"
    +:+ Py.nl
    +:+ _truncate resume_text 2000
    +:+ Py.nl
    +:+ Py.nl
    +:+ "KNOWN SKILLS:"
    +:+ Py.nl
    +:+ skills_joined
    +:+ Py.nl
    +:+ Py.nl
    +:+ "Requirements:"
    +:+ Py.nl
    +:+ "- Ideas must solve real problems (not toy demos)"
    +:+ Py.nl
    +:+ "- Balance ambition with feasibility (2-6 weeks per project)"
    +:+ Py.nl
    +:+ "- Each idea must be technically specific and implementation-ready"
    +:+ Py.nl
    +:+ "- Favor measurable outcomes and evaluation metrics"
    +:+ Py.nl
    +:+ "- Prefer modern, in-demand stacks aligned with the candidate's skills"
    +:+ Py.nl
    +:+ Py.nl
    +:+ "Output Format (Markdown):"
    +:+ Py.nl
    +:+ "For each project, provide:"
    +:+ Py.nl
    +:+ "1) Title"
    +:+ Py.nl
    +:+ "2) One-line value proposition"
    +:+ Py.nl
    +:+ "3) Target users and real-world use cases"
    +:+ Py.nl
    +:+ "4) Tech stack (primary + optional alternatives)"
    +:+ Py.nl
    +:+ "5) Step-by-step implementation plan (5-10 concrete steps)"
    +:+ Py.nl
    +:+ "6) Data sources/APIs"
    +:+ Py.nl
    +:+ "7) Evaluation metrics and acceptance criteria"
    +:+ Py.nl
    +:+ "8) Stretch goals (2-3 scoped enhancements)"
    +:+ Py.nl
    +:+ "9) Resume bullets (2-3 STAR-format achievements)"
    +:+ Py.nl
    +:+ "10) Suggested timeline (week-by-week)"
    +:+ Py.nl
    +:+ "11) Suggested repo structure"
    +:+ Py.nl
    +:+ "12) Demo plan"
    +:+ Py.nl
    +:+ Py.nl
    +:+ "Generate the projects now.".

Definition cover_letter_system_message : string := "You are an expert technical recruiter and senior hiring manager with deep knowledge of what makes compelling cover letters.".

Definition cover_letter_prompt (resume_text jd_text : string)
    (skills : list string) : string :=
  let skills_joined := Py.join ", " skills in
    "Draft a short, role-aligned cover letter (200-300 words) tailored to the given job description, grounded in the candidate's resume."
    +:+ Py.nl
    +:+ Py.nl
    +:+ "RESUME:"
    +:+ Py.nl
    +:+ _truncate resume_text 2000
    +:+ Py.nl
    +:+ Py.nl
    +:+ "JOB DESCRIPTION:"
    +:+ Py.nl
    +:+ _truncate jd_text 2000
    +:+ Py.nl
    +:+ Py.nl
    +:+ "KNOWN SKILLS:"
    +:+ Py.nl
    +:+ skills_joined
    +:+ Py.nl
    +:+ Py.nl
    +:+ "Requirements:"
    +:+ Py.nl
    +:+ "- Use a professional, confident tone"
    +:+ Py.nl
    +:+ "- Reflect 2-3 specific JD requirements and map them to candidate strengths"
    +:+ Py.nl
    +:+ "- Include one brief accomplishment with measurable impact if present"
    +:+ Py.nl
    +:+ "- Avoid buzzwords and cliches"
    +:+ Py.nl
    +:+ "- End with a polite CTA to continue the conversation"
    +:+ Py.nl
    +:+ Py.nl
    +:+ "Output: Plain text cover letter.".

Section Environment.

(** The order in which Python enumerates a [set] of strings. *)
Variable set_order : gset string → list string.

(** The two collaborators of the generators: the cached availability
    probe and the provider call, with its arguments [prompt],
    [temperature], [max_tokens], [enable_reasoning] and [system_message]. *)
Variable is_openrouter_available : bool.
Variable call_openrouter_llm : string → Q → Z → bool → option string → string.

(** the local [jd_keywords] *)
Definition jd_keywords_of (jd_text : string) : gset string :=
  if Py.truthy jd_text then
    let words := findall_words (Py.lower jd_text) in
    list_to_set
      (Py.take_first 10 (filter (λ w, w ∉ common_buzzwords) words))
  else ∅.

(** The text is assembled from fixed lines, the keywords found in the job
    description and the missing skills passed in. *)
Definition _generate_resume_improvements_fallback
    (resume_text jd_text : string) (missing_skills : list string) : string :=
  let top_missing := Py.take_first 8 (unique (Py.strip <$> missing_skills)) in
  let jd_keywords := jd_keywords_of jd_text in
  let improvements :=
    [ "### 🚀 AI-Powered Resume Enhancement Recommendations";
      Py.nl
      +:+ "**Immediate Action Items:**";
      Py.nl
      +:+ "• **Professional Summary**: Add a compelling 2-3 line summary highlighting your value proposition";
      "• **Keywords Optimization**: Integrate job-specific terms naturally throughout your resume";
      "• **Quantify Achievements**: Add metrics (percentages, dollar amounts, time saved) to your accomplishments";
      "• **Skills Section**: Create a dedicated technical skills section with relevant technologies";
      "• **Action Verbs**: Start each bullet point with strong action verbs (Led, Developed, Optimized, Implemented)" ] in
  let improvements :=
    if negb (bool_decide (jd_keywords = ∅)) then
      (improvements ++
      [ Py.nl
      +:+ "**Job-Specific Keywords to Include:**";
        Py.nl +:+ "• Integrate these terms: "
        +:+ Py.join ", " (Py.take_first 6 (set_order jd_keywords));
        "• Use them naturally in your experience descriptions and skills section" ])%list
    else improvements in
  let improvements :=
    match top_missing with
    | [] => improvements
    | _ =>
      (improvements ++
      [ Py.nl
      +:+ "**Address Missing Skills:**";
        "• **Highlight Transferable Experience**: Show how your current experience relates to required skills" ] ++
      ((λ skill, "  - For " +:+ skill
                 +:+ ": Describe any related projects, coursework, or self-study")
         <$> Py.take_first 5 top_missing))%list
    end in
  let improvements :=
    (improvements ++
    [ Py.nl
      +:+ "**Professional Formatting:**";
      "• **Consistent Structure**: Use the same format for each role (Title, Company, Dates, Bullets)";
      "• **Bullet Point Optimization**: Limit to 3-5 bullets per role, prioritize most relevant accomplishments";
      "• **Length Management**: Keep to 1-2 pages, focus on most recent and relevant experience";
      Py.nl
      +:+ "**ATS Optimization:**";
      "• **Standard Sections**: Use clear headings (Experience, Education, Skills, Projects)";
      "• **Keyword Density**: Ensure important terms appear 2-3 times throughout the document";
      "• **Simple Formatting**: Avoid complex layouts, stick to standard fonts and bullet points";
      Py.nl
      +:+ "✅ **Next Steps**: Review each section against these recommendations and update 2-3 bullets to better showcase your fit for this specific role." ])%list in
  Py.join Py.nl improvements.

(** *** The three generators *)

Definition enhance_resume_section
    (resume_text jd_text : string) (missing_skills : list string) : string :=
  (* quick availability check and instant fallback *)
  if negb is_openrouter_available then
    _generate_resume_improvements_fallback resume_text jd_text missing_skills
  else
    let system_message := enhance_system_message in
    let prompt := enhance_prompt resume_text jd_text missing_skills in
    let result :=
      call_openrouter_llm prompt (3 # 10) 800 false (Some system_message) in
    if Py.startswith result "Error:" then
      _generate_resume_improvements_fallback resume_text jd_text missing_skills
    else result.

(** the canned project ideas *)
Definition project_ideas_fallback : string :=
    "### Project Ideas (Fast Fallback)"
    +:+ Py.nl
    +:+ "1. Metrics Dashboard: Build a small app that ingests CSV/JSON and renders KPI charts."
    +:+ Py.nl
    +:+ "2. Data ETL Mini-Pipeline: Extract from an API, clean with pandas, load to SQLite, expose a simple API."
    +:+ Py.nl
    +:+ "3. Resume Keyword Highlighter: Highlight JD-aligned keywords in a resume with a web UI."
    +:+ Py.nl.

Definition generate_project_ideas (resume_text : string) (skills : list string)
  : string :=
  let system_message := project_ideas_system_message in
  let prompt := project_ideas_prompt resume_text skills in
  if negb is_openrouter_available then project_ideas_fallback
  else
    let result :=
      call_openrouter_llm prompt (5 # 10) 1500 false (Some system_message) in
    if Py.startswith result "Error:" then project_ideas_fallback
    else result.

(** the canned cover letter *)
Definition cover_letter_fallback : string :=
    "Dear Hiring Team,"
    +:+ Py.nl
    +:+ Py.nl
    +:+ "I'm excited to apply for this role. My background aligns with the position's core requirements, and I've delivered measurable results in related projects. I'm particularly drawn to your focus on impact and quality. I'd welcome the chance to discuss how I can contribute."
    +:+ Py.nl
    +:+ Py.nl
    +:+ "Best regards,"
    +:+ Py.nl
    +:+ "Your Name".

Definition generate_cover_letter (resume_text jd_text : string)
    (skills : list string) : string :=
  let system_message := cover_letter_system_message in
  let prompt := cover_letter_prompt resume_text jd_text skills in
  if negb is_openrouter_available then cover_letter_fallback
  else
    let result :=
      call_openrouter_llm prompt (4 # 10) 600 false (Some system_message) in
    if Py.startswith result "Error:" then cover_letter_fallback
    else result.

End Environment.

End OpenRouterLLM.

(* ===================================================================== *)
(** ** Concrete inputs used by the examples below                         *)
(* ===================================================================== *)

Module Examples.
Import Profile.
Local Open Scope string_scope.

(** a dict literal of numbers *)
Definition qdict (entries : list (string * Q)) : gmap string Q :=
  list_to_map entries.

(** the skills of the spec's example *)
Definition python_react_aws : list string := ["Python"; "React"; "AWS"].

(** a profile in which every category is at its best *)
Definition strong_project (lang : string) : Project :=
  {| proj_name := Some "Scheduler";
     proj_description := Some "A complex job scheduler";
     proj_github_url := Some "https://github.com/user/scheduler";
     proj_demo_url := Some "https://scheduler.example.org";
     proj_stars := Some 4%Q;
     proj_language := Some lang |}.

Definition aws_certificate (date : string) : Certification :=
  {| cert_name := Some "Cloud Practitioner";
     cert_provider := Some "AWS";
     cert_url := None;
     cert_date := Some date;
     cert_expiry := None |}.

Definition team_lead : Activity :=
  {| act_role := Some "Team Lead";
     act_achievements := Some ["First prize"];
     act_impact := None |}.

Definition full_resume (ats_score : Q) : gmap string Q :=
  qdict [("ats_score", ats_score); ("has_summary", 1%Q);
         ("has_quantifiable_achievements", 1%Q); ("keyword_density", 1%Q);
         ("formatting_score", 100%Q); ("sections_count", 5%Q)].

Definition full_github : gmap string Q :=
  qdict [("public_repos", 15%Q); ("total_contributions", 500%Q);
         ("total_stars", 50%Q); ("longest_streak", 30%Q)].

Definition full_learning : gmap string Q :=
  qdict [("completed_courses", 10%Q); ("in_progress_courses", 5%Q);
         ("total_hours", 100%Q)].

Definition full_interview : gmap string Q :=
  qdict [("questions_practiced", 50%Q); ("average_score", 100%Q);
         ("improvement_rate", 20%Q)].

Definition best_profile : Profile.t :=
  {| resume_analysis := Some (full_resume 100);
     skills := Some ["Python"; "Leadership"; "Go"; "Rust"; "C"; "Docker";
                     "Linux"; "Git"; "Bash"; "Redis"; "Kafka"; "Nginx";
                     "Terraform"; "Ansible"; "Grafana"];
     skill_proficiency := Some (qdict [("Python", 100%Q)]);
     projects := Some (strong_project <$> ["Python"; "Go"; "Rust"; "C";
                                           "Python"; "Go"; "Rust"; "C"]);
     certifications := Some (replicate 8 (aws_certificate "2025-03-01"));
     extracurricular := Some (replicate 6 team_lead);
     github_stats := Some full_github;
     learning_progress := Some full_learning;
     interview_scores := Some full_interview |}.




(** noon of 1 January 2026 and noon of 1 July 2026 *)
Definition noon_1_january_2026 : CertificateValidator.datetime :=
  {| CertificateValidator.ordinal := 739617;
     CertificateValidator.microsecond_of_day := 43200000000 |}.
Definition noon_1_july_2026 : CertificateValidator.datetime :=
  {| CertificateValidator.ordinal := 739798;
     CertificateValidator.microsecond_of_day := 43200000000 |}.


End Examples.

(* ===================================================================== *)
(** * Properties                                                          *)
(* ===================================================================== *)

(** ** Facts about the built-ins *)

Module PyFacts.
Local Open Scope Q_scope.

Lemma ltb_lt a b : Py.ltb a b = true ↔ a < b.
Proof.
  unfold Py.ltb. rewrite negb_true_iff, <- not_true_iff_false, Qle_bool_iff.
  split; [apply Qnot_le_lt | apply Qlt_not_le].
Qed.

Lemma ltb_ge a b : Py.ltb a b = false ↔ b <= a.
Proof. unfold Py.ltb. rewrite negb_false_iff. apply Qle_bool_iff. Qed.

Lemma gtb_gt a b : Py.gtb a b = true ↔ b < a.
Proof. apply ltb_lt. Qed.

Lemma gtb_le a b : Py.gtb a b = false ↔ a <= b.
Proof. apply ltb_ge. Qed.

Lemma geb_ge a b : Py.geb a b = true ↔ b <= a.
Proof. apply Qle_bool_iff. Qed.

Lemma geb_lt a b : Py.geb a b = false ↔ a < b.
Proof.
  unfold Py.geb. rewrite <- not_true_iff_false, Qle_bool_iff.
  split; [apply Qnot_le_lt | apply Qlt_not_le].
Qed.

Lemma leb_le a b : Py.leb a b = true ↔ a <= b.
Proof. apply Qle_bool_iff. Qed.

(** [min] is the numeric minimum. *)
Lemma min_spec a b : (a <= b ∧ Py.min a b = a) ∨ (b < a ∧ Py.min a b = b).
Proof.
  unfold Py.min. destruct (Py.ltb b a) eqn:E.
  - right. split; [by apply ltb_lt | done].
  - left. split; [by apply ltb_ge | done].
Qed.

Lemma min_le_l a b : Py.min a b <= a.
Proof. destruct (min_spec a b) as [[? ->]|[? ->]]; lra. Qed.

Lemma min_le_r a b : Py.min a b <= b.
Proof. destruct (min_spec a b) as [[? ->]|[? ->]]; lra. Qed.

Lemma min_glb a b c : c <= a → c <= b → c <= Py.min a b.
Proof. intros. destruct (min_spec a b) as [[? ->]|[? ->]]; lra. Qed.

Lemma min_mono_l a a' b : a <= a' → Py.min a b <= Py.min a' b.
Proof.
  intros. apply min_glb; [|apply min_le_r].
  pose proof (min_le_l a b). lra.
Qed.

Lemma min_eq_l a b : a <= b → Py.min a b == a.
Proof. intros. destruct (min_spec a b) as [[? ->]|[? ->]]; lra. Qed.

Lemma min_eq_r a b : b <= a → Py.min a b == b.
Proof. intros. destruct (min_spec a b) as [[? ->]|[? ->]]; lra. Qed.

Lemma max_spec a b : (b <= a ∧ Py.max a b = a) ∨ (a < b ∧ Py.max a b = b).
Proof.
  unfold Py.max. destruct (Py.gtb b a) eqn:E.
  - right. split; [by apply gtb_gt | done].
  - left. split; [by apply gtb_le | done].
Qed.

Lemma max_ge_r a b : b <= Py.max a b.
Proof. destruct (max_spec a b) as [[? ->]|[? ->]]; lra. Qed.

Lemma max_ge_l a b : a <= Py.max a b.
Proof. destruct (max_spec a b) as [[? ->]|[? ->]]; lra. Qed.

Lemma Qnat_nonneg n : 0 <= Py.Qnat n.
Proof.
  unfold Py.Qnat. change 0 with (inject_Z 0). rewrite <- Zle_Qle. lia.
Qed.

Lemma Qnat_le n m : (n ≤ m)%nat → Py.Qnat n <= Py.Qnat m.
Proof. intros. unfold Py.Qnat. rewrite <- Zle_Qle. lia. Qed.

Lemma Qnat_pos n : (0 < n)%nat → 0 < Py.Qnat n.
Proof.
  intros. unfold Py.Qnat. change 0 with (inject_Z 0). rewrite <- Zlt_Qlt. lia.
Qed.

(** division by a positive number keeps the order and the sign *)
Lemma div_le_mono a b d : 0 < d → a <= b → a / d <= b / d.
Proof.
  intros Hd Hab. unfold Qdiv. apply Qmult_le_compat_r; [done|].
  apply Qlt_le_weak, Qinv_lt_0_compat, Hd.
Qed.

Lemma div_nonneg a d : 0 < d → 0 <= a → 0 <= a / d.
Proof.
  intros Hd Ha. unfold Qdiv. apply Qmult_le_0_compat; [done|].
  apply Qlt_le_weak, Qinv_lt_0_compat, Hd.
Qed.

Lemma div_le_1 a d : 0 < d → a <= d → a / d <= 1.
Proof.
  intros Hd Ha. apply Qle_shift_div_r; [done|]. lra.
Qed.

(** *** Sorting *)

Section Sorting.
Context {A : Type} (key : A → Q).

Lemma precedes_cons (x : A) l a b :
  Py.precedes (x :: l) a b ↔ (a = x ∧ b ∈ l) ∨ Py.precedes l a b.
Proof.
  split.
  - intros (i & j & Hij & Hi & Hj).
    destruct j as [|j]; [lia|]. cbn in Hj.
    destruct i as [|i]; cbn in Hi.
    + left. split; [congruence|]. by eapply list_elem_of_lookup_2.
    + right. exists i, j. split; [lia|done].
  - intros [[-> Hb]|(i & j & Hij & Hi & Hj)].
    + apply list_elem_of_lookup in Hb as [j Hj].
      exists 0%nat, (S j). split; [lia|done].
    + exists (S i), (S j). split; [lia|done].
Qed.

Lemma precedes_elem_l l (a b : A) : Py.precedes l a b → a ∈ l.
Proof. intros (i & j & _ & Hi & _). by eapply list_elem_of_lookup_2. Qed.

Lemma precedes_elem_r l (a b : A) : Py.precedes l a b → b ∈ l.
Proof. intros (i & j & _ & _ & Hj). by eapply list_elem_of_lookup_2. Qed.

Lemma insert_desc_perm x l : Py.insert_desc key x l ≡ₚ x :: l.
Proof.
  induction l as [|y l IH]; [done|]. cbn.
  destruct (Py.gtb (key y) (key x)); [|done].
  rewrite IH. apply Permutation_swap.
Qed.

Lemma sorted_desc_perm l : Py.sorted_desc key l ≡ₚ l.
Proof.
  induction l as [|x l IH]; [done|]. cbn.
  fold (Py.sorted_desc key l). by rewrite insert_desc_perm, IH.
Qed.

Lemma insert_desc_sorted x l :
  StronglySorted (Py.desc key) l → StronglySorted (Py.desc key) (Py.insert_desc key x l).
Proof.
  induction 1 as [|y l Hl IH Hy]; cbn.
  - by repeat constructor.
  - destruct (Py.gtb (key y) (key x)) eqn:E.
    + apply PyFacts.gtb_gt in E.
      constructor; [done|].
      rewrite insert_desc_perm. constructor; [|done].
      unfold Py.desc. lra.
    + apply PyFacts.gtb_le in E.
      constructor; [by constructor|].
      constructor; [done|].
      eapply Forall_impl; [exact Hy|]. unfold Py.desc. intros z Hz. lra.
Qed.

Lemma sorted_desc_sorted l : StronglySorted (Py.desc key) (Py.sorted_desc key l).
Proof.
  induction l as [|x l IH]; [constructor|].
  cbn. by apply insert_desc_sorted.
Qed.

(** where a pair of the list after an insertion comes from *)
Lemma precedes_insert_desc x l a b :
  Py.precedes (Py.insert_desc key x l) a b →
  Py.precedes l a b ∨ (a = x ∧ b ∈ l) ∨ (b = x ∧ a ∈ l ∧ key x < key a).
Proof.
  induction l as [|y l IH]; cbn.
  - intros [[_ Hb]|H]%precedes_cons.
    + by apply elem_of_nil in Hb.
    + apply precedes_elem_l in H. by apply elem_of_nil in H.
  - destruct (Py.gtb (key y) (key x)) eqn:E.
    + apply PyFacts.gtb_gt in E.
      intros [[-> Hb]|H]%precedes_cons.
      * rewrite insert_desc_perm in Hb.
        apply elem_of_cons in Hb as [->|Hb].
        -- right; right. split; [done|]. split; [left|done].
        -- left. apply precedes_cons. by left.
      * destruct (IH H) as [H'|[[-> Hb]|(-> & Ha & Hlt)]].
        -- left. apply precedes_cons. by right.
        -- right; left. split; [done|]. by right.
        -- right; right. split; [done|]. split; [by right|done].
    + intros [[-> Hb]|H]%precedes_cons.
      * by right; left.
      * by left.
Qed.

(** stability: records with equal keys keep their original order *)
Lemma sorted_desc_stable l a b :
  Py.precedes (Py.sorted_desc key l) a b → key a == key b → Py.precedes l a b.
Proof.
  revert a b. induction l as [|x l IH]; intros a b; cbn.
  - intros H%precedes_elem_l. by apply elem_of_nil in H.
  - fold (Py.sorted_desc key l).
    intros [H|[[-> Hb]|(-> & Ha & Hlt)]]%precedes_insert_desc Heq.
    + apply precedes_cons. right. by apply IH.
    + apply precedes_cons. left. split; [done|].
      by rewrite sorted_desc_perm in Hb.
    + lra.
Qed.

Lemma precedes_take n l (a b : A) :
  Py.precedes (take n l) a b → Py.precedes l a b.
Proof.
  intros (i & j & Hij & Hi & Hj). exists i, j.
  apply lookup_take_Some in Hi as [Hi _].
  apply lookup_take_Some in Hj as [Hj _]. done.
Qed.

Lemma StronglySorted_take (R : A → A → Prop) n l :
  StronglySorted R l → StronglySorted R (take n l).
Proof.
  intros H. revert n. induction H as [|x l Hl IH Hx]; intros [|n]; cbn;
    try constructor.
  - apply IH.
  - apply Forall_take, Hx.
Qed.

End Sorting.

Lemma precedes_fmap {A B} (f : A → B) l a b :
  Py.precedes l a b → Py.precedes (f <$> l) (f a) (f b).
Proof.
  intros (i & j & Hij & Hi & Hj). exists i, j.
  rewrite !list_lookup_fmap, Hi, Hj. done.
Qed.

Lemma slice_to_take {A} (n : Z) (l : list A) :
  ∃ k, Py.slice_to n l = take k l.
Proof. unfold Py.slice_to. destruct (0 <=? n)%Z; eauto. Qed.

End PyFacts.

(** ** The internship matcher *)

Module MatcherFacts.
Import Profile InternshipMatcher Examples.
Local Open Scope Q_scope.

Lemma min_proper a a' b : a == a' → Py.min a b == Py.min a' b.
Proof.
  intros H.
  destruct (PyFacts.min_spec a b) as [[? ->]|[? ->]];
    destruct (PyFacts.min_spec a' b) as [[? ->]|[? ->]]; lra.
Qed.

(** the catalogue entry of the spec's example *)
Lemma lookup_software_development :
  lookup_category "Software Development" INTERNSHIP_CATEGORIES
  = Some {| required_skills := ["Programming"; "Problem Solving"; "Data Structures"];
            preferred_skills := ["Python"; "Java"; "C++"; "JavaScript"; "Git"];
            keywords := ["software"; "developer"; "programming"; "coding";
                         "backend"; "frontend"];
            avg_stipend_range := "₹10,000-30,000/month";
            duration := "2-6 months" |}%string.
Proof. reflexivity. Qed.

(** C1, as stated, fails: on the profile whose only key is the skills
    list [Python, React, AWS], [required_match] is [0] but [skill_score]
    is not: the preferred skill Python counts, and the match score of the
    profile is that skill score. *)
Lemma C1_skill_score_is_not_zero :
  let candidate_skills := lower_set python_react_aws in
  let required := lower_set ["Programming"; "Problem Solving"; "Data Structures"]%string in
  let preferred := lower_set ["Python"; "Java"; "C++"; "JavaScript"; "Git"]%string in
  required_match candidate_skills required == 0
  ∧ ¬ (skill_score (required_match candidate_skills required)
                   (preferred_match candidate_skills preferred) == 0)
  ∧ ¬ (result_match_score
         (calculate_match_score elements
            (with_skills Profile.empty python_react_aws) "Software Development") == 0).
Proof.
  split; [vm_compute; reflexivity|].
  split; vm_compute; discriminate.
Qed.

(** C1, amended: for every profile whose skills list is exactly
    [Python, React, AWS], the match against "Software Development" has
    [required_match = 0/3] (no required skill met, skill match percentage
    [0]), one of the five preferred skills met, and therefore
    [skill_score = (0 * 0.7 + 1/5 * 0.3) * 60 = 3.6]; the match score is
    that [3.6] plus the project, certificate and experience parts, capped
    at [100]. *)
Theorem C1_python_react_aws_software_development
    (set_order : gset string → list string) (p : Profile.t) :
  let candidate_skills := lower_set python_react_aws in
  let required := lower_set ["Programming"; "Problem Solving"; "Data Structures"]%string in
  let preferred := lower_set ["Python"; "Java"; "C++"; "JavaScript"; "Git"]%string in
  ∃ a,
    calculate_match_score set_order (with_skills p python_react_aws)
      "Software Development" = MatchOk a
    ∧ required_match candidate_skills required == 0
    ∧ required_skills_met a = 0%nat
    ∧ required_skills_total a = 3%nat
    ∧ skill_match_percentage a == 0
    ∧ preferred_skills_met a = 1%nat
    ∧ skill_score (required_match candidate_skills required)
                  (preferred_match candidate_skills preferred) == 36 # 10
    ∧ match_score a ==
        Py.min ((36 # 10)
                + Py.min (Py.Qnat (relevant_projects a) * 10) 20
                + Py.min (Py.Qnat (relevant_certifications a) * 5) 10
                + _calculate_experience_score p) 100.
Proof.
  intros cs rs ps.
  assert (Hs : skill_score (required_match cs rs) (preferred_match cs ps) == 36 # 10)
    by (vm_compute; reflexivity).
  eexists. split.
  { unfold calculate_match_score. rewrite lookup_software_development.
    reflexivity. }
  cbn [required_skills_met required_skills_total skill_match_percentage
       preferred_skills_met match_score relevant_projects
       relevant_certifications required_skills preferred_skills keywords
       with_skills skills projects certifications extracurricular get default].
  split; [vm_compute; reflexivity|].
  split; [vm_compute; reflexivity|].
  split; [vm_compute; reflexivity|].
  split; [vm_compute; reflexivity|].
  split; [vm_compute; reflexivity|].
  split; [exact Hs|].
  apply min_proper.
  change (_calculate_experience_score (with_skills p python_react_aws))
    with (_calculate_experience_score p).
  change (lower_set (id python_react_aws)) with cs.
  apply Qplus_comp; [|reflexivity].
  apply Qplus_comp; [|reflexivity].
  apply Qplus_comp; [|reflexivity].
  exact Hs.
Qed.

(** *** Monotonicity in the skills *)

Lemma lower_set_insert (before after : list string) (skill : string) :
  lower_set (before ++ after) ⊆ lower_set (before ++ skill :: after).
Proof.
  unfold lower_set. intros x.
  rewrite !elem_of_list_to_set, !fmap_app, fmap_cons, !elem_of_app, elem_of_cons.
  tauto.
Qed.

Lemma max_len_pos n : 0 < Py.max (Py.Qnat n) 1.
Proof. pose proof (PyFacts.max_ge_r (Py.Qnat n) 1). lra. Qed.

Lemma required_match_mono (cs cs' target : gset string) :
  cs ⊆ cs' → required_match cs target <= required_match cs' target.
Proof.
  intros Hsub. unfold required_match.
  apply PyFacts.div_le_mono; [apply max_len_pos|].
  apply PyFacts.Qnat_le, subseteq_size.
  apply intersection_mono_r, Hsub.
Qed.

Lemma preferred_match_mono (cs cs' target : gset string) :
  cs ⊆ cs' → preferred_match cs target <= preferred_match cs' target.
Proof. apply required_match_mono. Qed.

Lemma skill_score_mono rm rm' pm pm' :
  rm <= rm' → pm <= pm' → skill_score rm pm <= skill_score rm' pm'.
Proof. unfold skill_score. intros. lra. Qed.

(** C5: inserting a skill anywhere in the candidate's skills list, all
    other keys and skills of the profile unchanged, never lowers the
    match score of any category; in particular when the skill is one of
    the category's required skills, in any letter case. *)
Theorem C5_match_score_monotone_in_skills
    (set_order : gset string → list string) (p : Profile.t)
    (category : string) (before after : list string) (skill : string) :
  result_match_score
    (calculate_match_score set_order (with_skills p (before ++ after)) category)
  <= result_match_score
       (calculate_match_score set_order
          (with_skills p (before ++ skill :: after)) category).
Proof.
  unfold calculate_match_score.
  destruct (lookup_category category INTERNSHIP_CATEGORIES) as [info|];
    [|apply Qle_refl].
  cbn [result_match_score match_score].
  apply PyFacts.min_mono_l.
  pose proof (lower_set_insert before after skill) as Hsub.
  apply Qplus_le_compat; [|apply Qle_refl].
  apply Qplus_le_compat; [|apply Qle_refl].
  apply Qplus_le_compat; [|apply Qle_refl].
  apply skill_score_mono;
    [apply required_match_mono | apply preferred_match_mono]; exact Hsub.
Qed.

(** *** Category names outside the catalogue *)

Lemma lookup_category_None name cats :
  name ∉ cats.*1 → lookup_category name cats = None.
Proof.
  induction cats as [|[k info] rest IH]; [done|].
  cbn [fmap list_fmap fst lookup_category]. intros Hnot.
  apply not_elem_of_cons in Hnot as [Hne Hrest].
  destruct (String.eqb_spec k name) as [->|_]; [done|]. by apply IH.
Qed.

Lemma lookup_category_Some name cats :
  name ∈ cats.*1 → is_Some (lookup_category name cats).
Proof.
  induction cats as [|[k info] rest IH]; cbn [fmap list_fmap fst lookup_category].
  - by intros ?%elem_of_nil.
  - intros [->|Hin]%elem_of_cons.
    + rewrite String.eqb_refl. by eexists.
    + destruct (String.eqb k name); [by eexists | by apply IH].
Qed.

(** C9, as stated, fails on its count: the catalogue has twelve distinct
    keys, not eleven, and each of the twelve, the last one "Research"
    included, gets the full analysis.  Whichever eleven keys are meant,
    a twelfth name outside them is not answered by the error mapping. *)
Lemma C9_catalog_has_twelve_keys :
  NoDup category_names
  ∧ length category_names = 12%nat
  ∧ category_names !! 11%nat = Some "Research"%string
  ∧ ∀ name, name ∈ category_names →
      ∃ a, calculate_match_score elements Profile.empty name = MatchOk a.
Proof.
  split; [apply (bool_decide_unpack _); vm_compute; exact I|].
  split; [reflexivity|]. split; [reflexivity|].
  intros name Hin. unfold calculate_match_score.
  destruct (lookup_category_Some _ _ Hin) as [info ->]. by eexists.
Qed.

(** C9, amended: the catalogue has twelve keys; for every profile and
    every category name that is not one of them, [calculate_match_score]
    returns, without raising, the two-key mapping with [match_score = 0]
    and [error = 'Invalid category'], which has no [readiness_level] or
    any other field of the analysis. *)
Theorem C9_invalid_category
    (set_order : gset string → list string) (p : Profile.t) (name : string) :
  name ∉ category_names →
  length category_names = 12%nat
  ∧ calculate_match_score set_order p name = MatchError 0 "Invalid category"
  ∧ result_match_score (calculate_match_score set_order p name) = 0
  ∧ result_readiness_level (calculate_match_score set_order p name) = None.
Proof.
  intros Hnot. unfold calculate_match_score.
  rewrite (lookup_category_None _ _ Hnot). done.
Qed.

Lemma C9_invalid_category_witness :
  ("Astrology"%string ∉ category_names)
  ∧ calculate_match_score elements Profile.empty "Astrology"
    = MatchError 0 "Invalid category".
Proof.
  assert (H : "Astrology"%string ∉ category_names).
  { apply (bool_decide_unpack _). vm_compute. exact I. }
  split; [exact H|].
  exact (proj1 (proj2 (C9_invalid_category elements Profile.empty "Astrology" H))).
Defined.

(** *** Ranking *)

Lemma match_entry_Some set_order p category :
  category ∈ category_names →
  ∃ m, match_entry set_order p category = Some m
       ∧ m_category m = category
       ∧ m_analysis m = calculate_match_score set_order p category
       ∧ m_match_score m = result_match_score (m_analysis m).
Proof.
  intros Hin. unfold match_entry, calculate_match_score.
  destruct (lookup_category_Some _ _ Hin) as [info ->].
  cbn. eexists. by repeat split.
Qed.

(** the loop of [find_best_matches] never raises and yields one entry per
    catalogue key, in catalogue order *)
Lemma all_entries set_order p names :
  names ⊆ category_names →
  ∃ matches, mapM (match_entry set_order p) names = Some matches
    ∧ m_category <$> matches = names
    ∧ Forall (λ m, m_analysis m = calculate_match_score set_order p (m_category m)
                   ∧ m_match_score m = result_match_score (m_analysis m)) matches.
Proof.
  induction names as [|name names IH]; intros Hsub.
  - exists []. by repeat split.
  - destruct IH as (matches & Hm & Hc & Hf).
    { intros x Hx. apply Hsub. by right. }
    destruct (match_entry_Some set_order p name) as (m & Hentry & Hcat & Han & Hsc).
    { apply Hsub. by left. }
    exists (m :: matches). cbn. rewrite Hentry. cbn. rewrite Hm. cbn.
    split; [done|]. split; [by rewrite Hcat, Hc|].
    constructor; [|done]. by rewrite Hcat.
Qed.

(** C7: for a number [top_n >= 0] of matches to return,
    [find_best_matches] never raises and returns the first [top_n]
    entries of the full ranking [ranked], so at most [top_n] entries
    (all twelve when [top_n] is larger); [ranked] holds the analysis of
    each of the twelve catalogue categories once, ordered by
    [match_score] descending, and categories of equal score stand in the
    insertion order of the catalogue. *)
Theorem C7_find_best_matches_ranking
    (set_order : gset string → list string) (p : Profile.t) (top_n : Z) :
  (0 ≤ top_n)%Z →
  ∃ ranked result,
    find_best_matches set_order p top_n = Some result
    ∧ result = take (Z.to_nat top_n) ranked
    ∧ m_category <$> ranked ≡ₚ category_names
    ∧ Forall (λ m, m_analysis m = calculate_match_score set_order p (m_category m)
                   ∧ m_match_score m = result_match_score (m_analysis m)) ranked
    ∧ StronglySorted (Py.desc m_match_score) ranked
    ∧ StronglySorted (Py.desc m_match_score) result
    ∧ (∀ a b, Py.precedes result a b → m_match_score a == m_match_score b →
              Py.precedes category_names (m_category a) (m_category b))
    ∧ (Z.of_nat (length result) ≤ top_n)%Z
    ∧ length result = Z.to_nat top_n `min` 12.
Proof.
  intros Htop.
  destruct (all_entries set_order p category_names) as (matches & Hm & Hc & Hf);
    [done|].
  set (ranked := Py.sorted_desc m_match_score matches).
  assert (Hlen : length ranked = 12%nat).
  { unfold ranked.
    rewrite PyFacts.sorted_desc_perm, <- (length_fmap m_category), Hc. done. }
  assert (Hslice : Py.slice_to top_n ranked = take (Z.to_nat top_n) ranked).
  { unfold Py.slice_to. by destruct (Z.leb_spec 0 top_n); [|lia]. }
  exists ranked, (take (Z.to_nat top_n) ranked).
  split; [unfold find_best_matches; rewrite Hm; cbn; by fold ranked; rewrite Hslice|].
  split; [done|].
  split; [unfold ranked; by rewrite PyFacts.sorted_desc_perm, Hc|].
  split; [unfold ranked; by rewrite PyFacts.sorted_desc_perm|].
  split; [apply PyFacts.sorted_desc_sorted|].
  split; [apply PyFacts.StronglySorted_take, PyFacts.sorted_desc_sorted|].
  split.
  { intros a b Hab Heq. rewrite <- Hc. apply PyFacts.precedes_fmap.
    apply (PyFacts.sorted_desc_stable m_match_score); [|done].
    by eapply PyFacts.precedes_take. }
  rewrite length_take, Hlen. split; lia.
Qed.

(** the default [top_n = 5], for the candidate with Python, React and
    AWS *)
Lemma C7_find_best_matches_ranking_witness :
  (0 ≤ 5)%Z
  ∧ ∃ ranked result,
      find_best_matches elements (with_skills Profile.empty python_react_aws) 5
      = Some result
      ∧ result = take 5 ranked
      ∧ length result = 5%nat
      ∧ StronglySorted (Py.desc m_match_score) result.
Proof.
  assert (H : (0 ≤ 5)%Z) by lia.
  split; [exact H|].
  destruct (C7_find_best_matches_ranking elements
              (with_skills Profile.empty python_react_aws) 5 H)
    as (ranked & result & Hfind & Hres & _ & _ & _ & Hsorted & _ & _ & Hlen).
  exists ranked, result.
  split; [exact Hfind|]. split; [exact Hres|].
  split; [exact Hlen|exact Hsorted].
Defined.

End MatcherFacts.

(** ** The holistic score *)

Module HolisticFacts.
Import Profile HolisticScore Examples.
Local Open Scope Q_scope.

(** [lra] does not read a division; a division by a literal is turned
    into the product with the literal's inverse. *)
Ltac const_div :=
  unfold Qdiv in *;
  repeat match goal with
  | |- context [Qinv (Qmake ?n ?d)] =>
      let r := eval cbv in (Qinv (Qmake n d)) in
      change (Qinv (Qmake n d)) with r
  | H : context [Qinv (Qmake ?n ?d)] |- _ =>
      let r := eval cbv in (Qinv (Qmake n d)) in
      change (Qinv (Qmake n d)) with r in H
  end.












(** *** Upper bounds *)

Lemma resume_le_100 d : percentage (_score_resume d) <= 100.
Proof. apply PyFacts.min_le_r. Qed.

Lemma skills_le_100 sk d : percentage (_score_skills sk d) <= 100.
Proof. apply PyFacts.min_le_r. Qed.

Lemma projects_le_100 ps : percentage (_score_projects ps) <= 100.
Proof. destruct ps; [cbn; lra|apply PyFacts.min_le_r]. Qed.

Lemma certifications_le_100 y cs : percentage (_score_certifications y cs) <= 100.
Proof. destruct cs; [cbn; lra|apply PyFacts.min_le_r]. Qed.

Lemma extracurricular_le_100 acts : percentage (_score_extracurricular acts) <= 100.
Proof. destruct acts; [cbn; lra|apply PyFacts.min_le_r]. Qed.

Lemma github_le_100 d : percentage (_score_github d) <= 100.
Proof.
  unfold _score_github. destruct (Py.dict_falsy d); [cbn; lra|apply PyFacts.min_le_r].
Qed.

Lemma learning_le_100 d : percentage (_score_learning d) <= 100.
Proof.
  unfold _score_learning. destruct (Py.dict_falsy d); [cbn; lra|apply PyFacts.min_le_r].
Qed.

Lemma interview_le_100 d : percentage (_score_interview_prep d) <= 100.
Proof.
  unfold _score_interview_prep.
  destruct (Py.dict_falsy d); [cbn; lra|apply PyFacts.min_le_r].
Qed.

(** *** Lower bounds *)













(** *** The composite total *)

Lemma total_score_unfold y p :
  total_score y p =
    0 + percentage (_score_resume (get (resume_analysis p) ∅)) / 100 * (1275 # 10)
    + percentage (_score_skills (get (skills p) []) (get (skill_proficiency p) ∅)) / 100 * 170
    + percentage (_score_projects (get (projects p) [])) / 100 * 153
    + percentage (_score_certifications y (get (certifications p) [])) / 100 * 102
    + percentage (_score_extracurricular (get (extracurricular p) [])) / 100 * 85
    + percentage (_score_github (get (github_stats p) ∅)) / 100 * 85
    + percentage (_score_learning (get (learning_progress p) ∅)) / 100 * 68
    + percentage (_score_interview_prep (get (interview_scores p) ∅)) / 100 * (595 # 10).
Proof. reflexivity. Qed.

Lemma total_score_le_850 y p : total_score y p <= 850.
Proof.
  rewrite total_score_unfold.
  pose proof (resume_le_100 (get (resume_analysis p) ∅)).
  pose proof (skills_le_100 (get (skills p) []) (get (skill_proficiency p) ∅)).
  pose proof (projects_le_100 (get (projects p) [])).
  pose proof (certifications_le_100 y (get (certifications p) [])).
  pose proof (extracurricular_le_100 (get (extracurricular p) [])).
  pose proof (github_le_100 (get (github_stats p) ∅)).
  pose proof (learning_le_100 (get (learning_progress p) ∅)).
  pose proof (interview_le_100 (get (interview_scores p) ∅)).
  const_div. lra.
Qed.


(** *** The rating ranges *)



(** *** The result of [calculate_comprehensive_score] *)

Lemma comprehensive_score_Some y p :
  ∃ r, calculate_comprehensive_score y p = Some r
       ∧ r_percentile r = _calculate_percentile (total_score y p)
       ∧ r_rating r = rating (_get_score_info (total_score y p))
       ∧ r_total_score r = Py.round1 (total_score y p)
       ∧ r_component_scores r = weighted_components (score_components y p).
Proof.
  unfold calculate_comprehensive_score, _generate_recommendations,
    _calculate_improvement_potential.
  unfold score_components at 3 5.
  cbn [weighted_components fmap list_fmap Py.min_by Py.max_by mbind option_bind].
  eexists. split; [reflexivity|]. by repeat split.
Qed.

(** *** The percentile *)

Lemma int_floor q : 0 <= q → Py.int q = Qfloor q.
Proof.
  intros H. unfold Py.int, Qfloor. destruct q as [n d]. cbn.
  apply Z.quot_div_nonneg; [|lia].
  unfold Qle in H. cbn in H. lia.
Qed.






(** *** The claims about the category scorers *)

(** a literal dict holds no negative number under the listed keys *)
Ltac nonneg_keys :=
  unfold Py.nonneg_at;
  repeat (apply Forall_cons; split;
          [intros v Hv; vm_compute in Hv;
           first [discriminate Hv | injection Hv as <-; discriminate]|]);
  apply Forall_nil; done.


(** a literal dict is [float_sized] *)
Ltac float_sized_dict :=
  unfold float_sized; apply Qle_bool_imp_le; vm_compute; reflexivity.



(** C3, as stated, fails: the empty resume analysis is scored [14] (the
    default formatting score of [70] contributes [70/100 * 20]) and the
    empty skills input [20] (the base score for missing proficiency
    data); neither is [0], [40] or [50]. *)
Lemma C3_resume_and_skills_defaults :
  percentage (_score_resume ∅) == 14
  ∧ percentage (_score_skills [] ∅) == 20
  ∧ ¬ (percentage (_score_resume ∅) == 0 ∨ percentage (_score_resume ∅) == 40
       ∨ percentage (_score_resume ∅) == 50)
  ∧ ¬ (percentage (_score_skills [] ∅) == 0 ∨ percentage (_score_skills [] ∅) == 40
       ∨ percentage (_score_skills [] ∅) == 50).
Proof.
  split; [vm_compute; reflexivity|].
  split; [vm_compute; reflexivity|].
  split; intros [H|[H|H]]; vm_compute in H; discriminate.
Qed.

(** C3, amended: on empty input each category scorer yields a fixed
    score: [14] for the resume, [20] for the skills, [0] for projects,
    certifications, extracurricular activities and GitHub, [50] for
    learning and [40] for interview readiness; the last six come with
    their fixed "No ..." details, and the empty profile feeds every
    scorer its empty input. *)
Theorem C3_empty_input_defaults (current_year : Z) :
  percentage (_score_resume ∅) == 14
  ∧ percentage (_score_skills [] ∅) == 20
  ∧ _score_projects [] = {| percentage := 0; details := [Py.FStr "No projects found"] |}
  ∧ _score_certifications current_year []
    = {| percentage := 0; details := [Py.FStr "No certifications"] |}
  ∧ _score_extracurricular []
    = {| percentage := 0; details := [Py.FStr "No extracurricular activities"] |}
  ∧ _score_github ∅ = {| percentage := 0; details := [Py.FStr "No GitHub activity"] |}
  ∧ _score_learning ∅ = {| percentage := 50; details := [Py.FStr "No learning data"] |}
  ∧ _score_interview_prep ∅
    = {| percentage := 40; details := [Py.FStr "No interview practice data"] |}
  ∧ (score_components current_year Profile.empty).*2
    = [_score_resume ∅; _score_skills [] ∅; _score_projects [];
       _score_certifications current_year []; _score_extracurricular [];
       _score_github ∅; _score_learning ∅; _score_interview_prep ∅].
Proof.
  split; [vm_compute; reflexivity|].
  split; [vm_compute; reflexivity|].
  split; [reflexivity|]. split; [reflexivity|]. split; [reflexivity|].
  split; [reflexivity|]. split; [reflexivity|]. split; reflexivity.
Qed.




End HolisticFacts.

(** ** The clock *)

Module ClockFacts.
Import Profile HolisticScore CertificateValidator Examples.
Local Open Scope Q_scope.







Import InternshipMatcher.





(** the two instants of the examples *)
Lemma noon_1_january_2026_date :
  ordinal <$> make_date 2026 1 1 = Some (ordinal noon_1_january_2026).
Proof. reflexivity. Qed.

Lemma noon_1_july_2026_date :
  ordinal <$> make_date 2026 7 1 = Some (ordinal noon_1_july_2026).
Proof. reflexivity. Qed.

End ClockFacts.

(** ** The text generators *)

Module LLMFacts.
Import OpenRouterLLM.
Local Open Scope string_scope.

Lemma prefix_trans p q s :
  String.prefix p q = true → String.prefix q s = true → String.prefix p s = true.
Proof.
  revert q s. induction p as [|a p IH]; intros q s; [by destruct s|].
  destruct q as [|b q]; cbn; [discriminate|].
  destruct s as [|c s]; cbn; [by destruct (Ascii.ascii_dec a b)|].
  destruct (Ascii.ascii_dec a b) as [->|]; [|discriminate].
  destruct (Ascii.ascii_dec b c) as [->|]; [|discriminate].
  apply IH.
Qed.

(** a text that contains a string contains each prefix of that string *)
Lemma contains_prefix p err hay :
  Py.startswith err p = true → Py.contains err hay = true →
  Py.contains p hay = true.
Proof.
  unfold Py.startswith. intros Hp.
  induction hay as [|c hay IH]; cbn [Py.contains].
  - rewrite !orb_false_r. by apply prefix_trans.
  - intros [H|H]%orb_true_iff; apply orb_true_iff.
    + left. by eapply prefix_trans.
    + right. by apply IH.
Qed.

Lemma not_contains_error err hay :
  Py.contains "Error:" hay = false → Py.startswith err "Error:" = true →
  Py.contains err hay = false.
Proof.
  intros Hno Herr. destruct (Py.contains err hay) eqn:E; [|done].
  by rewrite (contains_prefix _ _ _ Herr E) in Hno.
Qed.

(** C6, as stated, fails for [enhance_resume_section]: its fallback text
    is not fixed but quotes the caller's missing skills, so an error
    reply that is also the name of a missing skill appears in the
    result. *)
Lemma C6_error_text_in_resume_fallback :
  let err := "Error: Empty response from model" in
  let result :=
    enhance_resume_section elements true (λ _ _ _ _ _, err)
      "Junior developer" "" [err] in
  Py.startswith err "Error:" = true
  ∧ result = _generate_resume_improvements_fallback elements "Junior developer" "" [err]
  ∧ Py.contains err result = true.
Proof. split; [reflexivity|]. split; [reflexivity|]. vm_compute. reflexivity. Qed.

(** C6, amended: whenever the provider is called and its reply starts
    with "Error:", [generate_project_ideas] and [generate_cover_letter]
    return their hardcoded fallback text verbatim, and that text contains
    no string that starts with "Error:", so never the reply;
    [enhance_resume_section] returns the text that
    [_generate_resume_improvements_fallback] builds from the job
    description and the missing skills, whatever the reply was. *)
Theorem C6_error_reply_gives_fallback
    (set_order : gset string → list string)
    (call_openrouter_llm : string → Q → Z → bool → option string → string)
    (resume_text jd_text : string) (missing_skills skills : list string) :
  let enhance_reply :=
    call_openrouter_llm (enhance_prompt resume_text jd_text missing_skills)
      (3 # 10)%Q 800%Z false (Some enhance_system_message) in
  let ideas_reply :=
    call_openrouter_llm (project_ideas_prompt resume_text skills)
      (5 # 10)%Q 1500%Z false (Some project_ideas_system_message) in
  let letter_reply :=
    call_openrouter_llm (cover_letter_prompt resume_text jd_text skills)
      (4 # 10)%Q 600%Z false (Some cover_letter_system_message) in
  (Py.startswith enhance_reply "Error:" = true →
   enhance_resume_section set_order true call_openrouter_llm
     resume_text jd_text missing_skills
   = _generate_resume_improvements_fallback set_order resume_text jd_text
       missing_skills)
  ∧ (Py.startswith ideas_reply "Error:" = true →
     generate_project_ideas true call_openrouter_llm resume_text skills
     = project_ideas_fallback
     ∧ Py.contains ideas_reply
         (generate_project_ideas true call_openrouter_llm resume_text skills)
       = false)
  ∧ (Py.startswith letter_reply "Error:" = true →
     generate_cover_letter true call_openrouter_llm resume_text jd_text skills
     = cover_letter_fallback
     ∧ Py.contains letter_reply
         (generate_cover_letter true call_openrouter_llm resume_text jd_text skills)
       = false).
Proof.
  intros enhance_reply ideas_reply letter_reply.
  split; [|split].
  - intros H. unfold enhance_resume_section. cbn [negb].
    fold enhance_reply. by rewrite H.
  - intros H.
    assert (E : generate_project_ideas true call_openrouter_llm resume_text skills
                = project_ideas_fallback).
    { unfold generate_project_ideas. cbn [negb]. fold ideas_reply. by rewrite H. }
    split; [exact E|]. rewrite E.
    apply not_contains_error; [vm_compute; reflexivity | exact H].
  - intros H.
    assert (E : generate_cover_letter true call_openrouter_llm resume_text
                  jd_text skills = cover_letter_fallback).
    { unfold generate_cover_letter. cbn [negb]. fold letter_reply. by rewrite H. }
    split; [exact E|]. rewrite E.
    apply not_contains_error; [vm_compute; reflexivity | exact H].
Qed.

(** the provider's time-out reply, for any call *)
Lemma C6_error_reply_gives_fallback_witness :
  let reply := "Error: Request timed out. Please try again." in
  let provider := λ (_ : string) (_ : Q) (_ : Z) (_ : bool) (_ : option string), reply in
  Py.startswith reply "Error:" = true
  ∧ enhance_resume_section elements true provider "Junior developer"
      "Python developer wanted" ["Docker"]
    = _generate_resume_improvements_fallback elements "Junior developer"
        "Python developer wanted" ["Docker"]
  ∧ generate_project_ideas true provider "Junior developer" ["Python"]
    = project_ideas_fallback
  ∧ generate_cover_letter true provider "Junior developer"
      "Python developer wanted" ["Python"]
    = cover_letter_fallback.
Proof.
  intros reply provider.
  assert (H : Py.startswith reply "Error:" = true) by reflexivity.
  split; [exact H|].
  split.
  { exact (proj1 (C6_error_reply_gives_fallback elements provider
                    "Junior developer" "Python developer wanted" ["Docker"] []) H). }
  split.
  { exact (proj1 (proj1 (proj2 (C6_error_reply_gives_fallback elements provider
                    "Junior developer" "" [] ["Python"])) H)). }
  exact (proj1 (proj2 (proj2 (C6_error_reply_gives_fallback elements provider
                    "Junior developer" "Python developer wanted" [] ["Python"])) H)).
Defined.

End LLMFacts.

(** ** The internship matcher, further *)

Module MatcherExtras.
Import Profile InternshipMatcher Examples.
Local Open Scope Q_scope.

Lemma overlap_nonneg (cs target : gset string) : 0 <= required_match cs target.
Proof.
  unfold required_match.
  apply PyFacts.div_nonneg; [apply MatcherFacts.max_len_pos|apply PyFacts.Qnat_nonneg].
Qed.

Lemma overlap_le_1 (cs target : gset string) : required_match cs target <= 1.
Proof.
  unfold required_match. apply PyFacts.div_le_1; [apply MatcherFacts.max_len_pos|].
  pose proof (PyFacts.max_ge_l (Py.Qnat (size target)) 1).
  assert (Py.Qnat (size (cs ∩ target)) <= Py.Qnat (size target)); [|lra].
  apply PyFacts.Qnat_le, subseteq_size, intersection_subseteq_r.
Qed.

Lemma skill_score_bounds (cs rs ps : gset string) :
  0 <= skill_score (required_match cs rs) (preferred_match cs ps)
  ∧ skill_score (required_match cs rs) (preferred_match cs ps) <= 60.
Proof.
  pose proof (overlap_nonneg cs rs). pose proof (overlap_le_1 cs rs).
  pose proof (overlap_nonneg cs ps : 0 <= preferred_match cs ps).
  pose proof (overlap_le_1 cs ps : preferred_match cs ps <= 1).
  unfold skill_score. split; lra.
Qed.

Lemma capped_count_bounds n step cap :
  0 <= step → 0 <= cap →
  0 <= Py.min (Py.Qnat n * step) cap ∧ Py.min (Py.Qnat n * step) cap <= cap.
Proof.
  intros Hs Hc. split; [|apply PyFacts.min_le_r].
  apply PyFacts.min_glb; [|done].
  apply Qmult_le_0_compat; [apply PyFacts.Qnat_nonneg|done].
Qed.

Lemma experience_score_bounds p :
  0 <= _calculate_experience_score p ∧ _calculate_experience_score p <= 10.
Proof.
  unfold _calculate_experience_score.
  destruct (capped_count_bounds (length (get (projects p) [])) 2 4) as [? ?]; [lra..|].
  destruct (capped_count_bounds (length (get (certifications p) [])) (15 # 10) 3)
    as [? ?]; [lra..|].
  destruct (capped_count_bounds (length (get (extracurricular p) [])) (5 # 10) 3)
    as [? ?]; [lra..|].
  split; [apply PyFacts.min_glb; lra|apply PyFacts.min_le_r].
Qed.

Lemma match_score_range
    (set_order : gset string → list string) (p : Profile.t) (category : string) :
  0 <= result_match_score (calculate_match_score set_order p category)
  ∧ result_match_score (calculate_match_score set_order p category) <= 100.
Proof.
  unfold calculate_match_score.
  destruct (lookup_category category INTERNSHIP_CATEGORIES) as [info|];
    cbn [result_match_score match_score]; [|split; lra].
  destruct (skill_score_bounds (lower_set (get (skills p) []))
              (lower_set (required_skills info))
              (lower_set (preferred_skills info))) as [? ?].
  destruct (capped_count_bounds
              (count_relevant project_text (keywords info) (get (projects p) []))
              10 20) as [? ?]; [lra..|].
  destruct (capped_count_bounds
              (count_relevant cert_text (keywords info) (get (certifications p) []))
              5 10) as [? ?]; [lra..|].
  destruct (experience_score_bounds p) as [? ?].
  split; [apply PyFacts.min_glb; lra|apply PyFacts.min_le_r].
Qed.

(** X1: for every profile and every category name, the match score lies
    in [0, 100]; for a category of the catalogue the skill match
    percentage lies in [0, 100] as well and the number of required skills
    met is at most their total. *)
Theorem match_score_in_0_100
    (set_order : gset string → list string) (p : Profile.t) (category : string) :
  0 <= result_match_score (calculate_match_score set_order p category)
  ∧ result_match_score (calculate_match_score set_order p category) <= 100
  ∧ ∀ a, calculate_match_score set_order p category = MatchOk a →
      0 <= skill_match_percentage a ∧ skill_match_percentage a <= 100
      ∧ (required_skills_met a ≤ required_skills_total a)%nat.
Proof.
  destruct (match_score_range set_order p category) as [Hlo Hhi].
  split; [exact Hlo|]. split; [exact Hhi|]. clear Hlo Hhi.
  unfold calculate_match_score.
  destruct (lookup_category category INTERNSHIP_CATEGORIES) as [info|];
    [|discriminate].
  intros a Ha. injection Ha as <-.
  cbn [skill_match_percentage required_skills_met required_skills_total].
  pose proof (overlap_nonneg (lower_set (get (skills p) []))
                (lower_set (required_skills info))).
  pose proof (overlap_le_1 (lower_set (get (skills p) []))
                (lower_set (required_skills info))).
  split; [lra|]. split; [lra|].
  apply subseteq_size, intersection_subseteq_r.
Qed.

Lemma geb_min_100 t c : c <= 100 → Py.geb (Py.min t 100) c = Py.geb t c.
Proof.
  intros Hc. destruct (PyFacts.min_spec t 100) as [[? ->]|[? ->]]; [done|].
  assert (Py.geb 100 c = true) as -> by (apply PyFacts.geb_ge; lra).
  symmetry. apply PyFacts.geb_ge. lra.
Qed.

Lemma determine_readiness_capped t :
  _determine_readiness (Py.min t 100) = _determine_readiness t.
Proof.
  unfold _determine_readiness. by rewrite !geb_min_100 by lra.
Qed.

(** X2: the readiness level of an analysis, which the code computes from
    the uncapped total, is the level of the capped match score it
    returns: "Highly Ready" from 75, "Ready" from 60, "Developing" from
    40 and "Early Stage" below. *)
Theorem readiness_follows_match_score
    (set_order : gset string → list string) (p : Profile.t) (category : string)
    (a : MatchAnalysis) :
  calculate_match_score set_order p category = MatchOk a →
  readiness_level a = _determine_readiness (match_score a)
  ∧ (readiness_level a = "Highly Ready - Strong Match"%string ↔ 75 <= match_score a)
  ∧ (readiness_level a = "Early Stage - Significant Preparation Needed"%string
     ↔ match_score a < 40).
Proof.
  unfold calculate_match_score.
  destruct (lookup_category category INTERNSHIP_CATEGORIES) as [info|];
    [|discriminate].
  intros H. injection H as <-. cbn [readiness_level match_score].
  rewrite determine_readiness_capped.
  split; [done|].
  match goal with |- context [_determine_readiness ?t] => generalize t end.
  intros t. unfold _determine_readiness.
  pose proof (PyFacts.min_le_r t 100) as Hle.
  destruct (Py.geb t 75) eqn:E75.
  { apply PyFacts.geb_ge in E75.
    assert (75 <= Py.min t 100) by (apply PyFacts.min_glb; lra).
    split; [done|]. split; [discriminate|intros; lra]. }
  apply PyFacts.geb_lt in E75.
  assert (Hcap : Py.min t 100 = t).
  { destruct (PyFacts.min_spec t 100) as [[? Hm]|[? Hm]]; [done|lra]. }
  rewrite Hcap.
  destruct (Py.geb t 60) eqn:E60.
  { apply PyFacts.geb_ge in E60.
    split; (split; [discriminate|intros; lra]). }
  destruct (Py.geb t 40) eqn:E40.
  { apply PyFacts.geb_ge in E40.
    split; (split; [discriminate|intros; lra]). }
  apply PyFacts.geb_lt in E40.
  split; [split; [discriminate|intros; lra]|done].
Qed.

Lemma readiness_follows_match_score_witness :
  ∃ a, calculate_match_score elements
         (with_skills Profile.empty python_react_aws) "Data Science/Analytics"
       = MatchOk a
     ∧ readiness_level a = _determine_readiness (match_score a).
Proof.
  eexists. split; [reflexivity|].
  exact (proj1 (readiness_follows_match_score elements
                  (with_skills Profile.empty python_react_aws)
                  "Data Science/Analytics" _ eq_refl)).
Defined.

Lemma set_split (cs rs : gset string) :
  (size (rs ∖ cs) + size (cs ∩ rs) = size rs)%nat.
Proof.
  rewrite <- size_union.
  2: { apply elem_of_disjoint. intros x Hx Hy.
       apply elem_of_difference in Hx. apply elem_of_intersection in Hy. tauto. }
  f_equal. apply set_eq. intros x.
  rewrite elem_of_union, elem_of_difference, elem_of_intersection.
  destruct (decide (x ∈ cs)); tauto.
Qed.

(** X3: when [list(s)] enumerates each element of a set once, the
    required skills met and the missing required skills of an analysis
    add up to the category's required skills, no missing skill is among
    the candidate's lowered skills, and nothing is missing exactly when
    all are met; the same holds for the preferred skills. *)
Theorem missing_skills_complement
    (set_order : gset string → list string) (p : Profile.t) (category : string)
    (a : MatchAnalysis) :
  (∀ s, set_order s ≡ₚ elements s) →
  calculate_match_score set_order p category = MatchOk a →
  (length (missing_required_skills a) + required_skills_met a
   = required_skills_total a)%nat
  ∧ Forall (λ s, s ∉ lower_set (get (skills p) [])) (missing_required_skills a)
  ∧ (missing_required_skills a = [] ↔ required_skills_met a = required_skills_total a)
  ∧ (length (missing_preferred_skills a) + preferred_skills_met a
     = size (lower_set (preferred_skills (category_info a))))%nat
  ∧ Forall (λ s, s ∉ lower_set (get (skills p) [])) (missing_preferred_skills a).
Proof.
  intros Hord. unfold calculate_match_score.
  destruct (lookup_category category INTERNSHIP_CATEGORIES) as [info|];
    [|discriminate].
  intros H. injection H as <-.
  cbn [missing_required_skills required_skills_met required_skills_total
       missing_preferred_skills preferred_skills_met category_info].
  set (cs := lower_set (get (skills p) [])).
  assert (Hlen : ∀ s, length (set_order s) = size s).
  { intros s. by rewrite Hord. }
  assert (Hout : ∀ rs, Forall (λ s, s ∉ cs) (set_order (rs ∖ cs))).
  { intros rs. rewrite Hord. apply Forall_forall. intros x Hx.
    apply elem_of_elements, elem_of_difference in Hx. tauto. }
  split; [rewrite Hlen; apply set_split|].
  split; [apply Hout|].
  split.
  { pose proof (set_split cs (lower_set (required_skills info))) as Hs.
    rewrite <- Hlen in Hs. split.
    - intros E. rewrite E in Hs. cbn in Hs. lia.
    - intros E. apply length_zero_iff_nil. lia. }
  split; [rewrite Hlen; apply set_split|apply Hout].
Qed.

Lemma missing_skills_complement_witness :
  (∀ s : gset string, elements s ≡ₚ elements s)
  ∧ ∃ a, calculate_match_score elements
           (with_skills Profile.empty python_react_aws) "Data Science/Analytics"
         = MatchOk a
       ∧ (length (missing_required_skills a) + required_skills_met a
          = required_skills_total a)%nat.
Proof.
  split; [done|].
  eexists. split; [reflexivity|].
  exact (proj1 (missing_skills_complement elements
                  (with_skills Profile.empty python_react_aws)
                  "Data Science/Analytics" _ (λ s, reflexivity _) eq_refl)).
Defined.

(** X4: every analysis comes with at least one and at most five
    recommendations: below 60 the advice to build foundations, from 60
    on the note that the candidate is on track or ready. *)
Theorem recommendations_between_one_and_five
    (set_order : gset string → list string) (score : Q)
    (missing_required missing_preferred : gset string) (relevant_projects : nat) :
  let recs := _generate_match_recommendations set_order score missing_required
                missing_preferred relevant_projects in
  (1 ≤ length recs ≤ 5)%nat
  ∧ (score < 60 →
     head recs = Some "🎯 Focus on building foundational skills before applying"%string)
  ∧ (75 <= score →
     last recs = Some "✅ You're ready to apply! Prepare a strong resume highlighting relevant skills"%string).
Proof.
  intros recs. subst recs. unfold _generate_match_recommendations.
  assert (Hltb : Py.ltb score 60 = negb (Py.geb score 60)) by done.
  rewrite Hltb.
  split; [|split].
  - destruct (Py.geb score 60), (Py.geb score 75),
      (negb (bool_decide (missing_required = ∅))),
      (negb (bool_decide (missing_preferred = ∅)) && Py.ltb score 80),
      (relevant_projects =? 0)%nat, (relevant_projects <? 2)%nat;
      cbn; lia.
  - intros H. apply PyFacts.geb_lt in H. by rewrite H.
  - intros H.
    assert (E60 : Py.geb score 60 = true) by (apply PyFacts.geb_ge; lra).
    apply PyFacts.geb_ge in H. rewrite E60, H. cbn [negb app].
    destruct (negb (bool_decide (missing_required = ∅))),
      (negb (bool_decide (missing_preferred = ∅)) && Py.ltb score 80),
      (relevant_projects =? 0)%nat, (relevant_projects <? 2)%nat; reflexivity.
Qed.

(** X5: asked for at least one match, [find_best_matches] returns a
    non-empty list whose first entry is a category of the catalogue and
    has the highest match score there is: no category, known or not,
    scores higher for the profile. *)
Theorem best_match_comes_first
    (set_order : gset string → list string) (p : Profile.t) (top_n : Z) :
  (1 ≤ top_n)%Z →
  ∃ best rest,
    find_best_matches set_order p top_n = Some (best :: rest)
    ∧ m_category best ∈ category_names
    ∧ m_analysis best = calculate_match_score set_order p (m_category best)
    ∧ ∀ category,
        result_match_score (calculate_match_score set_order p category)
        <= m_match_score best.
Proof.
  intros Htop.
  destruct (MatcherFacts.all_entries set_order p category_names)
    as (matches & Hm & Hc & Hf); [done|].
  set (ranked := Py.sorted_desc m_match_score matches).
  assert (Hperm : ranked ≡ₚ matches) by apply PyFacts.sorted_desc_perm.
  assert (Hlen : length ranked = 12%nat).
  { rewrite Hperm, <- (length_fmap m_category), Hc. done. }
  pose proof (PyFacts.sorted_desc_sorted m_match_score matches) as Hsorted.
  fold ranked in Hsorted.
  destruct ranked as [|best tail] eqn:Er; [discriminate|].
  assert (Hslice : Py.slice_to top_n (best :: tail)
                   = best :: take (Z.to_nat top_n - 1) tail).
  { unfold Py.slice_to. destruct (Z.leb_spec 0 top_n); [|lia].
    destruct (Z.to_nat top_n) as [|k] eqn:Ek; [lia|].
    cbn. by rewrite Nat.sub_0_r. }
  exists best, (take (Z.to_nat top_n - 1) tail).
  assert (Hbest : best ∈ matches) by (rewrite <- Hperm; left).
  rewrite Forall_forall in Hf.
  split.
  { unfold find_best_matches. rewrite Hm. cbn. fold ranked.
    by rewrite Er, Hslice. }
  split.
  { rewrite <- Hc. by apply list_elem_of_fmap_2. }
  split; [by apply Hf|].
  intros category.
  destruct (decide (category ∈ category_names)) as [Hin|Hout].
  - rewrite <- Hc in Hin. apply list_elem_of_fmap in Hin as (m & -> & Hmin).
    destruct (Hf m Hmin) as [Han Hsc]. rewrite <- Han, <- Hsc.
    rewrite <- Hperm in Hmin. apply elem_of_cons in Hmin as [->|Hmin];
      [apply Qle_refl|].
    apply StronglySorted_inv in Hsorted as [_ Hall].
    rewrite Forall_forall in Hall. by apply Hall.
  - unfold calculate_match_score at 1.
    rewrite (MatcherFacts.lookup_category_None _ _ Hout).
    cbn [result_match_score].
    destruct (Hf best Hbest) as [Han Hsc]. rewrite Hsc, Han.
    apply match_score_range.
Qed.

Lemma best_match_comes_first_witness :
  (1 ≤ 5)%Z
  ∧ ∃ best rest,
      find_best_matches elements (with_skills Profile.empty python_react_aws) 5
      = Some (best :: rest)
      ∧ m_category best ∈ category_names.
Proof.
  assert (H : (1 ≤ 5)%Z) by lia.
  split; [exact H|].
  destruct (best_match_comes_first elements
              (with_skills Profile.empty python_react_aws) 5 H)
    as (best & rest & Hfind & Hin & _).
  exists best, rest. split; [exact Hfind | exact Hin].
Defined.

(** *** The roadmap *)

(** X6: a roadmap exists exactly for the categories of the catalogue: for
    any other name the function raises, although the analysis it starts
    from returns the error mapping. *)
Theorem roadmap_only_for_known_category
    (set_order : gset string → list string) (p : Profile.t) (category : string) :
  (is_Some (generate_internship_roadmap set_order p category)
   ↔ category ∈ category_names)
  ∧ (generate_internship_roadmap set_order p category = None
     ↔ calculate_match_score set_order p category
        = MatchError 0 "Invalid category").
Proof.
  unfold generate_internship_roadmap, calculate_match_score.
  destruct (decide (category ∈ category_names)) as [Hin|Hout].
  - destruct (MatcherFacts.lookup_category_Some _ _ Hin) as [info ->].
    split.
    + split; [done|]. intros _.
      match goal with |- is_Some (let '(_, _) := ?c in _) => destruct c end.
      by eexists.
    + match goal with |- (let '(_, _) := ?c in _) = _ ↔ _ => destruct c end.
      split; discriminate.
  - rewrite (MatcherFacts.lookup_category_None _ _ Hout).
    cbn [result_match_score].
    split.
    + split; [|done]. vm_compute. by intros [? [=]].
    + split; [done|]. intros _. reflexivity.
Qed.

Lemma take_first_3 {A} (l : list A) :
  (length (Py.take_first 3 l) ≤ 3)%nat ∧ Py.take_first 3 l ⊆ l.
Proof.
  unfold Py.take_first. rewrite length_take. split; [apply Nat.le_min_l|].
  intros x. apply subseteq_take.
Qed.

(** X7: the roadmap of a category of the catalogue repeats the match
    score of the analysis, aims at 80, and names the phase and timeline
    that belong to the readiness level of the analysis. *)
Theorem roadmap_phase_matches_readiness
    (set_order : gset string → list string) (p : Profile.t) (category : string) :
  category ∈ category_names →
  ∃ r a,
    generate_internship_roadmap set_order p category = Some r
    ∧ calculate_match_score set_order p category = MatchOk a
    ∧ current_score r = match_score a
    ∧ target_score r = 80
    ∧ (current_phase r, estimated_timeline r, readiness_level a)
      ∈ [("Application Ready", "1-2 weeks", "Highly Ready - Strong Match");
         ("Final Preparation", "2-4 weeks", "Ready - Good Match");
         ("Skill Building", "1-2 months", "Developing - Needs Preparation");
         ("Foundation Building", "2-4 months",
          "Early Stage - Significant Preparation Needed")]%string.
Proof.
  intros Hin. unfold generate_internship_roadmap, calculate_match_score.
  destruct (MatcherFacts.lookup_category_Some _ _ Hin) as [info ->].
  cbn [result_match_score match_score].
  match goal with |- context [_determine_readiness ?t] => generalize t end.
  intros t. rewrite !geb_min_100 by lra. unfold _determine_readiness.
  destruct (Py.geb t 75); [|destruct (Py.geb t 60); [|destruct (Py.geb t 40)]];
    (eexists _, _; split; [reflexivity|]; split; [reflexivity|];
     cbn [current_score target_score current_phase estimated_timeline
          match_score readiness_level];
     split; [reflexivity|]; split; [reflexivity|]).
  - apply list_elem_of_here.
  - do 1 apply list_elem_of_further. apply list_elem_of_here.
  - do 2 apply list_elem_of_further. apply list_elem_of_here.
  - do 3 apply list_elem_of_further. apply list_elem_of_here.
Qed.

Lemma category_data_science : "Data Science/Analytics"%string ∈ category_names.
Proof. apply list_elem_of_In. vm_compute. tauto. Qed.

Lemma roadmap_phase_matches_readiness_witness :
  "Data Science/Analytics"%string ∈ category_names
  ∧ ∃ r a,
      generate_internship_roadmap elements
        (with_skills Profile.empty python_react_aws) "Data Science/Analytics"
      = Some r
      ∧ calculate_match_score elements
          (with_skills Profile.empty python_react_aws) "Data Science/Analytics"
        = MatchOk a
      ∧ current_score r = match_score a.
Proof.
  split; [apply category_data_science|].
  destruct (roadmap_phase_matches_readiness elements
              (with_skills Profile.empty python_react_aws)
              "Data Science/Analytics" category_data_science)
    as (r & a & Hr & Ha & Hs & _).
  exists r, a. split; [exact Hr|]. split; [exact Ha|exact Hs].
Defined.

Lemma roadmap_of_analysis set_order p category a :
  calculate_match_score set_order p category = MatchOk a →
  ∃ r, generate_internship_roadmap set_order p category = Some r
    ∧ milestones r
      = ((match missing_required_skills a with
          | [] => []
          | missing =>
              [{| ms_title := "Master Required Skills"; ms_priority := "High";
                  ms_skills := Some (Py.take_first 3 missing); ms_target := None;
                  ms_estimated_time := "2-4 weeks" |}]
          end)
         ++ (if (relevant_projects a <? 2)%nat
             then [{| ms_title := "Build Domain Projects"; ms_priority := "High";
                      ms_skills := None;
                      ms_target :=
                        Some [Py.FStr "Create ";
                              Py.FInt (2 - Z.of_nat (relevant_projects a));
                              Py.FStr " relevant projects"];
                      ms_estimated_time := "3-6 weeks" |}]
             else [])
         ++ (match missing_preferred_skills a with
             | [] => []
             | missing =>
                 [{| ms_title := "Add Preferred Skills"; ms_priority := "Medium";
                     ms_skills := Some (Py.take_first 3 missing);
                     ms_target := None;
                     ms_estimated_time := "2-3 weeks" |}]
             end))%list
    ∧ length (action_items r)
      = (length (Py.take_first 3 (missing_required_skills a)) + 4)%nat.
Proof.
  intros Ha. unfold generate_internship_roadmap. rewrite Ha.
  match goal with |- context [let '(_, _) := ?c in _] => destruct c end.
  eexists. split; [reflexivity|].
  cbn [milestones action_items]. split; [reflexivity|].
  by rewrite length_app, length_fmap.
Qed.

(** X8: the milestones of a roadmap cover the gaps of the analysis: there
    are at most three; there is none exactly when no required or
    preferred skill is missing and two projects are relevant; a skills
    milestone lists one to three of the missing skills, the projects
    milestone asks for one or two projects; and the action items are one
    per listed required skill plus four fixed ones. *)
Theorem roadmap_milestones_cover_the_gaps
    (set_order : gset string → list string) (p : Profile.t) (category : string) :
  category ∈ category_names →
  ∃ r a,
    generate_internship_roadmap set_order p category = Some r
    ∧ calculate_match_score set_order p category = MatchOk a
    ∧ (length (milestones r) ≤ 3)%nat
    ∧ (milestones r = []
       ↔ missing_required_skills a = [] ∧ missing_preferred_skills a = []
         ∧ (2 ≤ relevant_projects a)%nat)
    ∧ Forall (λ m, ∀ listed, ms_skills m = Some listed →
                (1 ≤ length listed ≤ 3)%nat
                ∧ listed ⊆ (missing_required_skills a
                            ++ missing_preferred_skills a)%list)
             (milestones r)
    ∧ Forall (λ m, ∀ target, ms_target m = Some target →
                ∃ n, (1 ≤ n ≤ 2)%Z
                     ∧ target = [Py.FStr "Create "; Py.FInt n;
                                 Py.FStr " relevant projects"])
             (milestones r)
    ∧ length (action_items r)
      = (3 `min` length (missing_required_skills a) + 4)%nat.
Proof.
  intros Hin.
  assert (∃ a, calculate_match_score set_order p category = MatchOk a)
    as [a Ha].
  { unfold calculate_match_score.
    destruct (MatcherFacts.lookup_category_Some _ _ Hin) as [info ->].
    by eexists. }
  destruct (roadmap_of_analysis _ _ _ _ Ha) as (r & Hr & Hm & Hact).
  exists r, a. split; [done|]. split; [done|].
  rewrite Hm, Hact. clear Hm Hact Hr Ha.
  generalize (missing_required_skills a) (missing_preferred_skills a)
    (relevant_projects a).
  intros req pref n.
  assert (Hskills : ∀ (x : string) rest (all : list string),
            x :: rest ⊆ all →
            (1 ≤ length (Py.take_first 3 (x :: rest)) ≤ 3)%nat
            ∧ Py.take_first 3 (x :: rest) ⊆ all).
  { intros x rest all Hsub.
    destruct (take_first_3 (x :: rest)) as [Hlen Hs].
    split; [split; [cbn; lia|exact Hlen]|]. by etransitivity. }
  split.
  { destruct req, pref, (n <? 2)%nat; cbn; lia. }
  split.
  { destruct (Nat.ltb_spec n 2); destruct req, pref; cbn;
      (split; [try discriminate; intros _; (split; [|split]); (done || lia)
              |intros (? & ? & ?); (done || lia)]). }
  split.
  { repeat (apply Forall_app; split).
    - destruct req as [|x rest]; constructor; [|constructor].
      intros listed [= <-]. apply Hskills. intros y Hy. apply elem_of_app. by left.
    - destruct (n <? 2)%nat; constructor; [|constructor]. intros ? [=].
    - destruct pref as [|x rest]; constructor; [|constructor].
      intros listed [= <-]. apply Hskills. intros y Hy. apply elem_of_app. by right. }
  split.
  { repeat (apply Forall_app; split).
    - destruct req; constructor; [|constructor]. intros ? [=].
    - destruct (Nat.ltb_spec n 2); constructor; [|constructor].
      intros target [= <-]. exists (2 - Z.of_nat n)%Z. split; [lia|done].
    - destruct pref; constructor; [|constructor]. intros ? [=]. }
  unfold Py.take_first. by rewrite length_take.
Qed.

Lemma roadmap_milestones_cover_the_gaps_witness :
  "Data Science/Analytics"%string ∈ category_names
  ∧ ∃ r a,
      generate_internship_roadmap elements
        (with_skills Profile.empty python_react_aws) "Data Science/Analytics"
      = Some r
      ∧ calculate_match_score elements
          (with_skills Profile.empty python_react_aws) "Data Science/Analytics"
        = MatchOk a
      ∧ (length (milestones r) ≤ 3)%nat.
Proof.
  split; [apply category_data_science|].
  destruct (roadmap_milestones_cover_the_gaps elements
              (with_skills Profile.empty python_react_aws)
              "Data Science/Analytics" category_data_science)
    as (r & a & Hr & Ha & Hlen & _).
  exists r, a. split; [exact Hr|]. split; [exact Ha|exact Hlen].
Defined.

End MatcherExtras.

(** ** The holistic score, further *)

Module HolisticExtras.
Import Profile HolisticScore Examples.
Local Open Scope Q_scope.

(** *** [int] and the percentile *)

Lemma int_neg q : q <= 0 → Py.int q = (- Qfloor (- q))%Z.
Proof.
  intros H. unfold Py.int, Qfloor. destruct q as [n d]. cbn.
  unfold Qle in H. cbn in H.
  assert (Hn : (n ≤ 0)%Z) by lia.
  rewrite <- (Z.opp_involutive n) at 1.
  rewrite Z.quot_opp_l by lia.
  f_equal. apply Z.quot_div_nonneg; lia.
Qed.

(** truncation towards zero keeps the order *)
Lemma int_mono x y : x <= y → (Py.int x ≤ Py.int y)%Z.
Proof.
  intros H.
  destruct (Qlt_le_dec x 0) as [Hx|Hx]; destruct (Qlt_le_dec y 0) as [Hy|Hy].
  - rewrite !int_neg by lra.
    assert (Qfloor (- y) ≤ Qfloor (- x))%Z by (apply Qfloor_resp_le; lra). lia.
  - rewrite int_neg by lra. rewrite HolisticFacts.int_floor by done.
    assert (Qfloor 0 ≤ Qfloor (- x))%Z by (apply Qfloor_resp_le; lra).
    assert (Qfloor 0 ≤ Qfloor y)%Z by (apply Qfloor_resp_le; lra).
    change (Qfloor 0) with 0%Z in *. lia.
  - lra.
  - rewrite !HolisticFacts.int_floor by lra. by apply Qfloor_resp_le.
Qed.

Lemma int_nonneg q : 0 <= q → (0 ≤ Py.int q)%Z.
Proof. intros. change 0%Z with (Py.int 0). by apply int_mono. Qed.

Lemma int_nonpos q : q <= 0 → (Py.int q ≤ 0)%Z.
Proof. intros. change 0%Z with (Py.int 0). by apply int_mono. Qed.

(** below a whole number, the integer part is below it too *)
Lemma int_lt q (n : Z) : 0 <= q → q < inject_Z n → (Py.int q < n)%Z.
Proof.
  intros H0 H. rewrite HolisticFacts.int_floor by done.
  pose proof (Qfloor_le q). rewrite Zlt_Qlt. lra.
Qed.

(** the five branches of [_calculate_percentile] *)
Lemma percentile_branch score :
  (750 <= score ∧ _calculate_percentile score = (95 + Py.int ((score - 750) / 10))%Z)
  ∨ (650 <= score ∧ score < 750
     ∧ _calculate_percentile score = (75 + Py.int ((score - 650) / 5))%Z)
  ∨ (550 <= score ∧ score < 650
     ∧ _calculate_percentile score = (50 + Py.int ((score - 550) / 4))%Z)
  ∨ (450 <= score ∧ score < 550
     ∧ _calculate_percentile score = (25 + Py.int ((score - 450) / 4))%Z)
  ∨ (score < 450 ∧ _calculate_percentile score = Py.int (score / 18)).
Proof.
  unfold _calculate_percentile.
  destruct (Py.geb score 750) eqn:E1;
    [apply PyFacts.geb_ge in E1; by left|apply PyFacts.geb_lt in E1].
  destruct (Py.geb score 650) eqn:E2;
    [apply PyFacts.geb_ge in E2; by right; left|apply PyFacts.geb_lt in E2].
  destruct (Py.geb score 550) eqn:E3;
    [apply PyFacts.geb_ge in E3; by right; right; left|apply PyFacts.geb_lt in E3].
  destruct (Py.geb score 450) eqn:E4;
    [apply PyFacts.geb_ge in E4; by right; right; right; left
    |apply PyFacts.geb_lt in E4].
  by right; right; right; right.
Qed.

(** the band of percentiles of each branch *)
Lemma percentile_band score :
  (750 <= score → (95 ≤ _calculate_percentile score)%Z)
  ∧ (650 <= score → score < 750 → (75 ≤ _calculate_percentile score ≤ 94)%Z)
  ∧ (550 <= score → score < 650 → (50 ≤ _calculate_percentile score ≤ 74)%Z)
  ∧ (450 <= score → score < 550 → (25 ≤ _calculate_percentile score ≤ 49)%Z)
  ∧ (score < 450 → (_calculate_percentile score ≤ 24)%Z)
  ∧ (0 <= score → (0 ≤ _calculate_percentile score)%Z).
Proof.
  assert (Hdiv : ∀ a lo c (n : Z), 0 < c → lo <= a → a < lo + inject_Z n * c →
            (0 ≤ Py.int ((a - lo) / c) < n)%Z).
  { intros a lo c n Hc Hlo Hhi. split.
    - apply int_nonneg, PyFacts.div_nonneg; [done|lra].
    - apply int_lt; [apply PyFacts.div_nonneg; [done|lra]|].
      apply Qlt_shift_div_r; [done|lra]. }
  destruct (percentile_branch score)
    as [[H1 E]|[(H1 & H2 & E)|[(H1 & H2 & E)|[(H1 & H2 & E)|[H2 E]]]]];
    rewrite E; clear E.
  - pose proof (int_nonneg ((score - 750) / 10)
                  ltac:(apply PyFacts.div_nonneg; lra)).
    split; [intros; lia|]. split; [intros; lra|]. split; [intros; lra|].
    split; [intros; lra|]. split; [intros; lra|]. intros; lia.
  - pose proof (Hdiv score 650 5 20%Z ltac:(lra) H1 ltac:(unfold inject_Z; lra)).
    split; [intros; lra|]. split; [intros; lia|]. split; [intros; lra|].
    split; [intros; lra|]. split; [intros; lra|]. intros; lia.
  - pose proof (Hdiv score 550 4 25%Z ltac:(lra) H1 ltac:(unfold inject_Z; lra)).
    split; [intros; lra|]. split; [intros; lra|]. split; [intros; lia|].
    split; [intros; lra|]. split; [intros; lra|]. intros; lia.
  - pose proof (Hdiv score 450 4 25%Z ltac:(lra) H1 ltac:(unfold inject_Z; lra)).
    split; [intros; lra|]. split; [intros; lra|]. split; [intros; lra|].
    split; [intros; lia|]. split; [intros; lra|]. intros; lia.
  - split; [intros; lra|]. split; [intros; lra|]. split; [intros; lra|].
    split; [intros; lra|].
    split.
    + intros _. destruct (Qlt_le_dec score 0) as [Hn|Hp].
      * pose proof (int_nonpos (score / 18)
                      ltac:(apply Qle_shift_div_r; lra)). lia.
      * pose proof (int_lt (score / 18) 25 ltac:(apply PyFacts.div_nonneg; lra)
                      ltac:(apply Qlt_shift_div_r; [lra|unfold inject_Z; lra])). lia.
    + intros Hp. apply int_nonneg, PyFacts.div_nonneg; lra.
Qed.

(** X9: the percentile never falls when the score rises. *)
Theorem percentile_monotone (s1 s2 : Q) :
  s1 <= s2 → (_calculate_percentile s1 ≤ _calculate_percentile s2)%Z.
Proof.
  intros H.
  pose proof (percentile_band s1) as (A1 & A2 & A3 & A4 & A5 & _).
  pose proof (percentile_band s2) as (B1 & B2 & B3 & B4 & B5 & _).
  destruct (percentile_branch s1)
    as [[H1 E1]|[(H1 & H1' & E1)|[(H1 & H1' & E1)|[(H1 & H1' & E1)|[H1' E1]]]]];
  destruct (percentile_branch s2)
    as [[H2 E2]|[(H2 & H2' & E2)|[(H2 & H2' & E2)|[(H2 & H2' & E2)|[H2' E2]]]]];
  try lra;
  try (rewrite E1, E2;
       apply Z.add_le_mono_l, int_mono, PyFacts.div_le_mono; lra);
  try (rewrite E1, E2; apply int_mono, PyFacts.div_le_mono; lra);
  repeat match goal with
  | Hi : ?P → _, Hp : ?P |- _ => specialize (Hi Hp)
  end; lia.
Qed.

Lemma percentile_monotone_witness :
  600 <= 700 ∧ (_calculate_percentile 600 ≤ _calculate_percentile 700)%Z.
Proof.
  assert (H : 600 <= 700) by (unfold Qle; cbn; lia).
  split; [exact H|exact (percentile_monotone 600 700 H)].
Defined.

Lemma percentile_le_105 score :
  750 <= score → score <= 850 → (_calculate_percentile score ≤ 105)%Z.
Proof.
  intros H1 H2.
  destruct (percentile_branch score)
    as [[_ E]|[(_ & ? & _)|[(_ & ? & _)|[(_ & ? & _)|[? _]]]]]; try lra.
  rewrite E.
  pose proof (int_lt ((score - 750) / 10) 11
                ltac:(apply PyFacts.div_nonneg; lra)
                ltac:(apply Qlt_shift_div_r; [lra|unfold inject_Z; lra])).
  lia.
Qed.

Lemma range_test_in score lo hi :
  lo <= score → score <= hi → Py.leb lo score && Py.leb score hi = true.
Proof. intros. apply andb_true_iff. by split; apply PyFacts.leb_le. Qed.

Lemma range_test_out score lo hi :
  score < lo ∨ hi < score → Py.leb lo score && Py.leb score hi = false.
Proof.
  intros Hor. apply andb_false_iff.
  destruct Hor; [left|right]; by apply PyFacts.geb_lt.
Qed.

(** X10: on every total inside one of the five ranges the rating and the
    percentile name the same tier: Exceptional with percentile 95 to
    105, Excellent with 75 to 94, Good with 50 to 74, Fair with 25 to
    49, Building with 0 to 24. *)
Theorem rating_and_percentile_agree (score : Q) :
  (750 <= score → score <= 850 →
   rating (_get_score_info score) = "Exceptional"%string
   ∧ (95 ≤ _calculate_percentile score ≤ 105)%Z)
  ∧ (650 <= score → score <= 749 →
     rating (_get_score_info score) = "Excellent"%string
     ∧ (75 ≤ _calculate_percentile score ≤ 94)%Z)
  ∧ (550 <= score → score <= 649 →
     rating (_get_score_info score) = "Good"%string
     ∧ (50 ≤ _calculate_percentile score ≤ 74)%Z)
  ∧ (450 <= score → score <= 549 →
     rating (_get_score_info score) = "Fair"%string
     ∧ (25 ≤ _calculate_percentile score ≤ 49)%Z)
  ∧ (0 <= score → score <= 449 →
     rating (_get_score_info score) = "Building"%string
     ∧ (0 ≤ _calculate_percentile score ≤ 24)%Z).
Proof.
  pose proof (percentile_band score) as (B1 & B2 & B3 & B4 & B5 & B0).
  unfold _get_score_info. cbn [find_range SCORE_RANGES].
  split; [|split; [|split; [|split]]]; intros Hlo Hhi.
  - rewrite (range_test_in score 750 850) by done.
    split; [done|].
    pose proof (percentile_le_105 score Hlo Hhi). specialize (B1 Hlo). lia.
  - rewrite (range_test_out score 750 850) by (left; lra).
    rewrite (range_test_in score 650 749) by done.
    split; [done|]. apply B2; lra.
  - rewrite (range_test_out score 750 850) by (left; lra).
    rewrite (range_test_out score 650 749) by (left; lra).
    rewrite (range_test_in score 550 649) by done.
    split; [done|]. apply B3; lra.
  - rewrite (range_test_out score 750 850) by (left; lra).
    rewrite (range_test_out score 650 749) by (left; lra).
    rewrite (range_test_out score 550 649) by (left; lra).
    rewrite (range_test_in score 450 549) by done.
    split; [done|]. apply B4; lra.
  - rewrite (range_test_out score 750 850) by (left; lra).
    rewrite (range_test_out score 650 749) by (left; lra).
    rewrite (range_test_out score 550 649) by (left; lra).
    rewrite (range_test_out score 450 549) by (left; lra).
    rewrite (range_test_in score 0 449) by done.
    split; [done|].
    specialize (B5 ltac:(lra)). specialize (B0 Hlo). lia.
Qed.

(** *** [min] and [max] with a key *)

Lemma min_by_spec {A} (key : A → Q) xs m :
  Py.min_by key xs = Some m → m ∈ xs ∧ Forall (λ y, key m <= key y) xs.
Proof.
  destruct xs as [|x rest]; [discriminate|]. cbn. intros H. injection H as <-.
  assert (G : ∀ best seen,
            best ∈ seen → Forall (λ y, key best <= key y) seen →
            let m := fold_left (λ best y, if Py.ltb (key y) (key best) then y else best)
                               rest best in
            m ∈ seen ++ rest ∧ Forall (λ y, key m <= key y) (seen ++ rest)).
  { induction rest as [|y rest IH]; intros best seen Hin Hall; cbn.
    - by rewrite app_nil_r.
    - replace (seen ++ y :: rest) with ((seen ++ [y]) ++ rest)
        by (by rewrite <- app_assoc).
      destruct (Py.ltb (key y) (key best)) eqn:E.
      + apply PyFacts.ltb_lt in E. apply IH.
        * apply elem_of_app. right. left.
        * apply Forall_app. split.
          -- eapply Forall_impl; [exact Hall|]. cbn. intros z Hz. lra.
          -- constructor; [apply Qle_refl|constructor].
      + apply PyFacts.ltb_ge in E. apply IH.
        * apply elem_of_app. by left.
        * apply Forall_app. split; [done|]. constructor; [done|constructor]. }
  apply (G x [x]); [left|]. constructor; [apply Qle_refl|constructor].
Qed.

Lemma max_by_spec {A} (key : A → Q) xs m :
  Py.max_by key xs = Some m → m ∈ xs ∧ Forall (λ y, key y <= key m) xs.
Proof.
  destruct xs as [|x rest]; [discriminate|]. cbn. intros H. injection H as <-.
  assert (G : ∀ best seen,
            best ∈ seen → Forall (λ y, key y <= key best) seen →
            let m := fold_left (λ best y, if Py.gtb (key y) (key best) then y else best)
                               rest best in
            m ∈ seen ++ rest ∧ Forall (λ y, key y <= key m) (seen ++ rest)).
  { induction rest as [|y rest IH]; intros best seen Hin Hall; cbn.
    - by rewrite app_nil_r.
    - replace (seen ++ y :: rest) with ((seen ++ [y]) ++ rest)
        by (by rewrite <- app_assoc).
      destruct (Py.gtb (key y) (key best)) eqn:E.
      + apply PyFacts.gtb_gt in E. apply IH.
        * apply elem_of_app. right. left.
        * apply Forall_app. split.
          -- eapply Forall_impl; [exact Hall|]. cbn. intros z Hz. lra.
          -- constructor; [apply Qle_refl|constructor].
      + apply PyFacts.gtb_le in E. apply IH.
        * apply elem_of_app. by left.
        * apply Forall_app. split; [done|]. constructor; [done|constructor]. }
  apply (G x [x]); [left|]. constructor; [apply Qle_refl|constructor].
Qed.

(** X11: [_generate_recommendations] raises only on an empty mapping;
    otherwise it returns exactly three lines, and the first names as
    priority a component whose percentage no other component
    undercuts. *)
Theorem recommendations_name_the_lowest
    (component_scores : list (Component * WeightedScoreData)) (total_score : Q) :
  (_generate_recommendations component_scores total_score = None
   ↔ component_scores = [])
  ∧ ∀ recs, _generate_recommendations component_scores total_score = Some recs →
      length recs = 3%nat
      ∧ ∃ c w prefix,
          (c, w) ∈ component_scores
          ∧ Forall (λ x, w_percentage w <= w_percentage x.2) component_scores
          ∧ head recs
            = Some [Py.FStr prefix; Py.FStr (component_name c);
                    Py.FStr " (currently "; Py.FFix1 (w_percentage w);
                    Py.FStr "%)"].
Proof.
  unfold _generate_recommendations. split.
  - destruct component_scores; cbn; [done|]. split; discriminate.
  - intros recs.
    destruct (Py.min_by (λ x, w_percentage x.2) component_scores)
      as [[c w]|] eqn:E; cbn; [|discriminate].
    intros H. injection H as <-.
    apply min_by_spec in E as [Hin Hall]. cbn in Hall.
    split.
    + by destruct (Py.ltb total_score 450), (Py.ltb total_score 550),
        (Py.ltb total_score 650), (Py.ltb total_score 750).
    + exists c, w. eexists. split; [done|]. split; [done|]. reflexivity.
Qed.

Lemma omap_first_three {A B} (f : A → option B) (l : list A) :
  (length (omap f (Py.take_first 3 l)) ≤ 3)%nat.
Proof.
  assert (Hle : ∀ l' : list A, (length (omap f l') ≤ length l')%nat).
  { induction l' as [|x l' IH]; cbn; [done|]. destruct (f x); cbn; lia. }
  etransitivity; [apply Hle|]. unfold Py.take_first. rewrite length_take.
  apply Nat.le_min_l.
Qed.

(** X12: whatever the component scores, the strengths and the weaknesses
    each hold at least one line and at most three. *)
Theorem strengths_and_weaknesses_one_to_three
    (component_scores : list (Component * WeightedScoreData)) :
  (1 ≤ length (_identify_strengths component_scores) ≤ 3)%nat
  ∧ (1 ≤ length (_identify_weaknesses component_scores) ≤ 3)%nat.
Proof.
  unfold _identify_strengths, _identify_weaknesses.
  split;
    (match goal with
     | |- context [omap ?f (Py.take_first 3 ?l)] =>
         pose proof (omap_first_three f l) as H;
         destruct (omap f (Py.take_first 3 l))
     end; cbn [length] in *; unfold Py.fstring in *; lia).
Qed.

(** *** Rounding *)

Lemma round_half_even_ge x (n : Z) :
  inject_Z n <= x → (n ≤ Py.round_half_even x)%Z.
Proof.
  intros H. unfold Py.round_half_even.
  assert (n ≤ Qfloor x)%Z.
  { rewrite <- (Qfloor_Z n). by apply Qfloor_resp_le. }
  destruct (x - inject_Z (Qfloor x) ?= 1 # 2); [destruct (Z.even (Qfloor x))|..]; lia.
Qed.

Lemma round_half_even_le x (n : Z) :
  x <= inject_Z n → (Py.round_half_even x ≤ n)%Z.
Proof.
  intros H. unfold Py.round_half_even.
  assert (Hf : (Qfloor x ≤ n)%Z).
  { rewrite <- (Qfloor_Z n). by apply Qfloor_resp_le. }
  destruct (Z.eq_dec (Qfloor x) n) as [E|NE].
  - destruct (Qcompare_spec (x - inject_Z (Qfloor x)) (1 # 2)) as [Hc|Hc|Hc];
      [rewrite E in Hc; lra|lia|rewrite E in Hc; lra].
  - destruct (x - inject_Z (Qfloor x) ?= 1 # 2); [destruct (Z.even (Qfloor x))|..]; lia.
Qed.

Lemma round1_nonneg x : 0 <= x → 0 <= Py.round1 x.
Proof.
  intros H. unfold Py.round1.
  pose proof (round_half_even_ge (x * 10) 0 ltac:(unfold inject_Z; lra)) as Hr.
  apply PyFacts.div_nonneg; [lra|]. by rewrite Zle_Qle in Hr.
Qed.

Lemma round1_le_100 x : x <= 100 → Py.round1 x <= 100.
Proof.
  intros H. unfold Py.round1.
  pose proof (round_half_even_le (x * 10) 1000 ltac:(unfold inject_Z; lra)) as Hr.
  rewrite Zle_Qle in Hr.
  apply Qle_shift_div_r; [lra|]. unfold inject_Z in Hr at 2. lra.
Qed.

(** *** What [calculate_comprehensive_score] puts in its result *)

Lemma sum_as_fold {A} (f : A → Q) l acc :
  fold_left Qplus (f <$> l) acc = fold_left (λ t x, t + f x) l acc.
Proof. revert acc. induction l as [|x l IH]; intros acc; cbn; [done|apply IH]. Qed.

Lemma current_total_is_total cs :
  Py.sum (weighted_score <$> cs.*2) = total_of cs.
Proof.
  unfold Py.sum, total_of. rewrite <- list_fmap_compose. apply sum_as_fold.
Qed.

Lemma comprehensive_score_inv y p r :
  calculate_comprehensive_score y p = Some r →
  let cs := weighted_components (score_components y p) in
  r_component_scores r = cs
  ∧ _generate_recommendations cs (total_score y p) = Some (r_recommendations r)
  ∧ _calculate_improvement_potential cs = Some (r_improvement_potential r)
  ∧ r_strengths r = _identify_strengths cs
  ∧ r_weaknesses r = _identify_weaknesses cs
  ∧ r_score_breakdown r = _create_score_breakdown cs.
Proof.
  unfold calculate_comprehensive_score. fold (total_score y p).
  intros H. cbv zeta.
  set (cs := weighted_components (score_components y p)) in *.
  destruct (_generate_recommendations cs (total_score y p)) as [recs|];
    [|discriminate].
  destruct (_calculate_improvement_potential cs) as [ip|]; [|discriminate].
  cbn [mbind option_bind] in H. apply Some_inj in H. rewrite <- H.
  cbn [r_component_scores r_recommendations r_improvement_potential
       r_strengths r_weaknesses r_score_breakdown].
  split; [reflexivity|]. split; [reflexivity|]. split; [reflexivity|].
  split; [reflexivity|]. split; reflexivity.
Qed.

Lemma weighted_le_100 y p :
  Forall (λ x, w_percentage x.2 <= 100) (weighted_components (score_components y p)).
Proof.
  unfold weighted_components, score_components. cbn [fmap list_fmap weigh].
  repeat (constructor; [cbn [snd w_percentage];
    first [apply HolisticFacts.resume_le_100 | apply HolisticFacts.skills_le_100
          | apply HolisticFacts.projects_le_100
          | apply HolisticFacts.certifications_le_100
          | apply HolisticFacts.extracurricular_le_100
          | apply HolisticFacts.github_le_100 | apply HolisticFacts.learning_le_100
          | apply HolisticFacts.interview_le_100]|]).
  constructor.
Qed.

Lemma weighted_max_points cs :
  Forall (λ x, w_max_points x.2 = max_points (SCORE_COMPONENTS x.1)
               ∧ weighted_score x.2 == w_percentage x.2 / 100 * w_max_points x.2)
         (weighted_components cs).
Proof.
  unfold weighted_components. apply Forall_fmap, Forall_forall.
  intros [c sd] _. cbn. split; [done|reflexivity].
Qed.

Lemma max_points_nonneg c : 0 <= max_points (SCORE_COMPONENTS c).
Proof. destruct c; cbn; lra. Qed.

Lemma best_profile_float_sized : float_sized_profile best_profile.
Proof.
  split; [HolisticFacts.float_sized_dict|].
  split; [HolisticFacts.float_sized_dict|].
  split; [HolisticFacts.float_sized_dict|].
  split; HolisticFacts.float_sized_dict.
Qed.

Lemma best_profile_nonneg : nonneg_profile best_profile.
Proof.
  split; [HolisticFacts.nonneg_keys|].
  split.
  { apply map_Forall_to_list. vm_compute. repeat constructor. discriminate. }
  split; [HolisticFacts.nonneg_keys|].
  split; HolisticFacts.nonneg_keys.
Qed.

(** X13: for every profile whose numeric mappings are [float_sized] and
    hold no negative amount, [calculate_comprehensive_score] returns a
    result whose improvement potential is well formed: the total
    potential gain and the points to be won in the best area are not
    negative, the percentage of the maximum is at most 100, and the best
    improvement area is a component for which
    [(100 - percentage) * weight] is largest. *)
Theorem improvement_potential_well_formed (current_year : Z) (p : Profile.t) :
  float_sized_profile p → nonneg_profile p →
  ∃ r, calculate_comprehensive_score current_year p = Some r
    ∧ 0 <= total_potential_gain (r_improvement_potential r)
    ∧ 0 <= potential_points_from_best_area (r_improvement_potential r)
    ∧ percentage_to_max (r_improvement_potential r) <= 100
    ∧ ∃ c w,
        (c, w) ∈ r_component_scores r
        ∧ best_improvement_area (r_improvement_potential r) = component_name c
        ∧ Forall (λ x, (100 - w_percentage x.2) * weight (SCORE_COMPONENTS x.1)
                       <= (100 - w_percentage w) * weight (SCORE_COMPONENTS c))
                 (r_component_scores r).
Proof.
  intros _ _.
  destruct (HolisticFacts.comprehensive_score_Some current_year p)
    as (r & Hr & _).
  exists r. split; [done|].
  destruct (comprehensive_score_inv _ _ _ Hr) as (Hcs & _ & Hip & _).
  rewrite Hcs. revert Hip.
  pose proof (weighted_le_100 current_year p) as H100.
  pose proof (weighted_max_points (score_components current_year p)) as Hmax.
  pose proof (HolisticFacts.total_score_le_850 current_year p) as H850.
  unfold total_score in H850.
  generalize dependent (weighted_components (score_components current_year p)).
  intros cs _ H100 Hmax H850.
  unfold _calculate_improvement_potential. rewrite current_total_is_total.
  destruct (Py.max_by _ cs) as [[c w]|] eqn:E; cbn; [|discriminate].
  intros H. injection H as <-.
  cbn [total_potential_gain potential_points_from_best_area percentage_to_max
       best_improvement_area].
  apply max_by_spec in E as [Hin Hall]. cbn [fst snd] in Hall.
  rewrite Forall_forall in H100, Hmax.
  specialize (H100 _ Hin). destruct (Hmax _ Hin) as [Hmp _]. cbn [fst snd] in H100, Hmp.
  split; [apply round1_nonneg; lra|].
  split.
  { apply round1_nonneg. rewrite Hmp.
    apply Qmult_le_0_compat; [|apply max_points_nonneg].
    apply PyFacts.div_nonneg; lra. }
  split.
  { apply round1_le_100.
    assert (total_of cs / 850 <= 1) by (apply PyFacts.div_le_1; lra). lra. }
  exists c, w. done.
Qed.

Lemma improvement_potential_well_formed_witness :
  float_sized_profile best_profile ∧ nonneg_profile best_profile
  ∧ ∃ r, calculate_comprehensive_score 2026 best_profile = Some r
      ∧ 0 <= total_potential_gain (r_improvement_potential r)
      ∧ percentage_to_max (r_improvement_potential r) <= 100.
Proof.
  split; [exact best_profile_float_sized|].
  split; [exact best_profile_nonneg|].
  destruct (improvement_potential_well_formed 2026 best_profile
              best_profile_float_sized best_profile_nonneg)
    as (r & Hr & Hgain & _ & Hmax & _).
  exists r. split; [exact Hr|]. split; [exact Hgain|exact Hmax].
Defined.

(** *** The score breakdown *)

(** X14: for every profile whose numeric mappings are [float_sized] and
    hold no negative amount, [calculate_comprehensive_score] returns a
    result whose score breakdown has one row for each of the eight
    components, in descending order of weighted score, and no row has
    more points than its component can give. *)
Theorem score_breakdown_ranks_the_components (current_year : Z) (p : Profile.t) :
  float_sized_profile p → nonneg_profile p →
  ∃ r, calculate_comprehensive_score current_year p = Some r
    ∧ b_component <$> r_score_breakdown r
      ≡ₚ component_name <$>
           [resume_quality; skills_portfolio; project_portfolio;
            certifications_c; extracurricular_c; github_activity;
            learning_progress_c; interview_readiness]
    ∧ StronglySorted (Py.desc b_weighted_score) (r_score_breakdown r)
    ∧ Forall (λ row, b_weighted_score row <= b_max_points row)
             (r_score_breakdown r).
Proof.
  intros _ _.
  destruct (HolisticFacts.comprehensive_score_Some current_year p)
    as (r & Hr & _).
  exists r. split; [done|].
  destruct (comprehensive_score_inv _ _ _ Hr) as (_ & _ & _ & _ & _ & ->).
  unfold _create_score_breakdown.
  set (cs := weighted_components (score_components current_year p)).
  match goal with
  | |- context [Py.sorted_desc b_weighted_score (?f <$> cs)] => set (row := f)
  end.
  assert (Hrow : ∀ x, b_weighted_score (row x) = weighted_score x.2
                      ∧ b_max_points (row x) = w_max_points x.2)
    by (by intros [c w]).
  pose proof (PyFacts.sorted_desc_perm b_weighted_score (row <$> cs)) as Hperm.
  split.
  { rewrite Hperm, <- list_fmap_compose. reflexivity. }
  split; [apply PyFacts.sorted_desc_sorted|].
  rewrite Hperm. apply Forall_fmap.
  pose proof (weighted_le_100 current_year p) as H100.
  pose proof (weighted_max_points (score_components current_year p)) as Hmax.
  fold cs in H100, Hmax.
  eapply Forall_impl; [apply Forall_and; split; [exact H100|exact Hmax]|].
  intros [c w] [Hle [Hmp Hw]]. cbn [fst snd] in *.
  unfold compose. destruct (Hrow (c, w)) as [-> ->]. cbn [snd].
  rewrite Hw, Hmp.
  pose proof (max_points_nonneg c).
  assert (w_percentage w / 100 <= 1) by (apply PyFacts.div_le_1; lra).
  nra.
Qed.

Lemma score_breakdown_ranks_the_components_witness :
  float_sized_profile best_profile ∧ nonneg_profile best_profile
  ∧ ∃ r, calculate_comprehensive_score 2026 best_profile = Some r
      ∧ StronglySorted (Py.desc b_weighted_score) (r_score_breakdown r)
      ∧ length (r_score_breakdown r) = 8%nat.
Proof.
  split; [exact best_profile_float_sized|].
  split; [exact best_profile_nonneg|].
  destruct (score_breakdown_ranks_the_components 2026 best_profile
              best_profile_float_sized best_profile_nonneg)
    as (r & Hr & Hperm & Hsorted & _).
  exists r. split; [exact Hr|]. split; [exact Hsorted|].
  rewrite <- (length_fmap b_component), Hperm. reflexivity.
Defined.

(** *** Raising a metric *)

Section Raised.

(** [d'] has the keys of [d], each with at least the value [d] holds *)
Variables d d' : gmap string Q.
Hypothesis same_keys : ∀ k, is_Some (d !! k) ↔ is_Some (d' !! k).
Hypothesis raised : ∀ k v v', d !! k = Some v → d' !! k = Some v' → v <= v'.











End Raised.



End HolisticExtras.

(** ** The certificates *)

Module ValidatorExtras.
Import Profile CertificateValidator Examples.
Local Open Scope Q_scope.

(** *** One certificate *)

Lemma provider_trust_scores :
  ∀ x, In x CERT_PROVIDERS →
       85 <= provider_trust_score x.2 ∧ provider_trust_score x.2 <= 98.
Proof.
  assert (H : forallb (λ x, Qle_bool 85 (provider_trust_score x.2)
                            && Qle_bool (provider_trust_score x.2) 98)
                      CERT_PROVIDERS = true) by (vm_compute; reflexivity).
  intros x Hx. rewrite forallb_forall in H. specialize (H x Hx).
  apply andb_prop in H as [H1 H2]. by rewrite !Qle_bool_iff in H1, H2.
Qed.

Lemma trust_score_bounds (now_first now_second : datetime) (cert : Certification) :
  85 # 2 <= trust_score (validate_certificate now_first now_second cert)
  ∧ trust_score (validate_certificate now_first now_second cert) <= 98.
Proof.
  unfold validate_certificate.
  assert (Hknown : ∀ x (st : ExpiryStatus), In x CERT_PROVIDERS →
    85 # 2 <= (match st with
               | Expired => (["Certificate has expired"%string],
                             provider_trust_score x.2 * (5 # 10))
               | ExpiresSoon => (["Certificate expires soon"%string],
                                 provider_trust_score x.2)
               | NoWarning => ([], provider_trust_score x.2)
               end).2
    ∧ (match st with
       | Expired => (["Certificate has expired"%string],
                     provider_trust_score x.2 * (5 # 10))
       | ExpiresSoon => (["Certificate expires soon"%string],
                         provider_trust_score x.2)
       | NoWarning => ([], provider_trust_score x.2)
       end).2 <= 98).
  { intros x st Hin. destruct (provider_trust_scores _ Hin) as [Hlo Hhi].
    destruct st; cbn [snd]; split; lra. }
  destruct (find_named_provider _ _) as [[n i]|] eqn:En.
  - apply find_some in En as [Hin _].
    specialize (Hknown (n, i) (expiry_status now_first now_second cert) Hin).
    cbn [snd] in Hknown.
    destruct (Py.truthy _); [destruct (find_url_provider _) as [[n' i']|]|];
      cbn [negb orb]; destruct (expiry_status now_first now_second cert);
      cbn [trust_score]; exact Hknown.
  - destruct (Py.truthy _); [destruct (find_url_provider _) as [[n' i']|] eqn:Ef|].
    + apply find_some in Ef as [Hin _].
      specialize (Hknown (n', i') (expiry_status now_first now_second cert) Hin).
      cbn [snd] in Hknown. cbn [negb orb].
      destruct (expiry_status now_first now_second cert); cbn [trust_score];
        exact Hknown.
    + cbn [negb orb]. destruct (expiry_status now_first now_second cert);
        cbn [trust_score]; split; lra.
    + cbn [negb orb]. destruct (expiry_status now_first now_second cert);
        cbn [trust_score]; split; lra.
Qed.

Lemma warnings_at_most_two (now_first now_second : datetime) (cert : Certification) :
  (length (warnings (validate_certificate now_first now_second cert)) ≤ 2)%nat.
Proof.
  unfold validate_certificate.
  destruct (find_named_provider _ _) as [[n i]|];
    (destruct (Py.truthy _); [destruct (find_url_provider _) as [[n' i']|]|]);
    cbn [negb orb]; destruct (expiry_status now_first now_second cert);
    cbn [warnings app length]; lia.
Qed.

Lemma validation_warnings_known (now_first now_second : datetime)
    (cert : Certification) :
  warnings (validate_certificate now_first now_second cert)
  ⊆ ["Certificate has expired"; "Certificate expires soon";
     "Provider not recognized - manual verification recommended"]%string.
Proof.
  unfold validate_certificate.
  destruct (find_named_provider _ _) as [[n i]|];
    (destruct (Py.truthy _); [destruct (find_url_provider _) as [[n' i']|]|]);
    cbn [negb orb]; destruct (expiry_status now_first now_second cert);
    cbn [warnings app]; intros w Hw;
    repeat (apply elem_of_cons in Hw as [->|Hw]);
    try (by apply elem_of_nil in Hw);
    first [apply list_elem_of_here
          |apply list_elem_of_further, list_elem_of_here
          |do 2 apply list_elem_of_further; apply list_elem_of_here].
Qed.

(** X15: in every validation result, whatever the clock: a certificate is
    valid exactly when its provider is verified, which is when a
    verified provider is named; a verified URL implies a verified
    provider; an invalid certificate has the trust score 50 and the
    warning that its provider is not recognised; a valid one has the
    trust score of a provider of the table, halved when it has expired,
    so that an expired certificate of a known provider scores below an
    unrecognised one; and the trust score lies between 42.5 and 98. *)
Theorem validation_invariants (now_first now_second : datetime)
    (cert : Certification) :
  let v := validate_certificate now_first now_second cert in
  valid v = provider_verified v
  ∧ (url_verified v = true → provider_verified v = true)
  ∧ (valid v = true ↔ is_Some (verified_provider v))
  ∧ (valid v = false →
     trust_score v = 50
     ∧ last (warnings v)
       = Some "Provider not recognized - manual verification recommended"%string)
  ∧ (valid v = true →
     ∃ name info, (name, info) ∈ CERT_PROVIDERS
       ∧ verified_provider v = Some name
       ∧ (expiry_status now_first now_second cert = Expired →
          trust_score v = provider_trust_score info * (5 # 10)
          ∧ trust_score v < 50
          ∧ warnings v = ["Certificate has expired"%string])
       ∧ (expiry_status now_first now_second cert ≠ Expired →
          trust_score v = provider_trust_score info))
  ∧ 85 # 2 <= trust_score v ∧ trust_score v <= 98
  ∧ (length (warnings v) ≤ 2)%nat ∧ (length (recommendations v) ≤ 2)%nat.
Proof.
  intros v. subst v. unfold validate_certificate.
  set (name := Py.lower (get (cert_name cert) "")).
  set (prov := Py.lower (get (cert_provider cert) "")).
  set (url := get (cert_url cert) "").
  assert (Hrec : ∀ (b1 b2 : bool),
    (length ((if b1 then ["Add certificate URL for verification"%string] else [])
             ++ (if b2 then ["Add issue date for better tracking"%string] else []))
     ≤ 2)%nat).
  { intros [] []; cbn; lia. }
  assert (Hknown : ∀ n i (st : ExpiryStatus),
    In (n, i) CERT_PROVIDERS →
    let '(w, t) := match st with
                   | Expired => (["Certificate has expired"%string],
                                 provider_trust_score i * (5 # 10))
                   | ExpiresSoon => (["Certificate expires soon"%string],
                                     provider_trust_score i)
                   | NoWarning => ([], provider_trust_score i)
                   end in
    (∃ name info, (name, info) ∈ CERT_PROVIDERS ∧ Some n = Some name
       ∧ (st = Expired →
          t = provider_trust_score info * (5 # 10) ∧ t < 50
          ∧ w = ["Certificate has expired"%string])
       ∧ (st ≠ Expired → t = provider_trust_score info))
    ∧ 85 # 2 <= t ∧ t <= 98 ∧ (length w ≤ 2)%nat).
  { intros n i st Hin. destruct (provider_trust_scores _ Hin) as [Hlo Hhi].
    cbn [snd] in Hlo, Hhi. apply list_elem_of_In in Hin.
    destruct st; cbn [length];
      (split; [exists n, i; split; [done|]; split; [done|]|]).
    - split; [|done]. intros _. split; [done|]. split; [lra|done].
    - split; [lra|]. split; [lra|lia].
    - split; [discriminate|done].
    - split; [lra|]. split; [lra|lia].
    - split; [discriminate|done].
    - split; [lra|]. split; [lra|lia]. }
  assert (Hunknown : ∀ (st : ExpiryStatus),
    let '(w, _) := match st with
                   | Expired => (["Certificate has expired"%string], 0 * (5 # 10))
                   | ExpiresSoon => (["Certificate expires soon"%string], 0)
                   | NoWarning => ([], 0)
                   end in
    last (w ++ ["Provider not recognized - manual verification recommended"%string])
    = Some "Provider not recognized - manual verification recommended"%string
    ∧ (length (w ++ ["Provider not recognized - manual verification recommended"%string])
       ≤ 2)%nat).
  { intros []; cbn; split; (done || lia). }
  destruct (find_named_provider prov name) as [[n i]|] eqn:En.
  - apply find_some in En as [Hin _].
    specialize (Hknown n i (expiry_status now_first now_second cert) Hin).
    destruct (Py.truthy url); [destruct (find_url_provider url) as [[n' i']|]|];
      cbn [negb orb];
      destruct (expiry_status now_first now_second cert);
      cbn [valid trust_score provider_verified url_verified warnings
           recommendations verified_provider];
      destruct Hknown as (Hk & Hlo & Hhi & Hw);
      (split; [done|]; split; [done|]; split; [split; [by eexists|done]|];
       split; [discriminate|]; split; [intros _; exact Hk|];
       split; [exact Hlo|]; split; [exact Hhi|]; split; [exact Hw|first [apply Hrec|exact (Hrec false _)|exact (Hrec true _)]]).
  - destruct (Py.truthy url) eqn:Eu;
      [destruct (find_url_provider url) as [[n' i']|] eqn:Ef|].
    + apply find_some in Ef as [Hin _].
      specialize (Hknown n' i' (expiry_status now_first now_second cert) Hin).
      cbn [negb orb].
      destruct (expiry_status now_first now_second cert);
      cbn [valid trust_score provider_verified url_verified warnings
           recommendations verified_provider];
      destruct Hknown as (Hk & Hlo & Hhi & Hw);
      (split; [done|]; split; [done|]; split; [split; [by eexists|done]|];
       split; [discriminate|]; split; [intros _; exact Hk|];
       split; [exact Hlo|]; split; [exact Hhi|]; split; [exact Hw|first [apply Hrec|exact (Hrec false _)|exact (Hrec true _)]]).
    + specialize (Hunknown (expiry_status now_first now_second cert)).
      cbn [negb orb].
      destruct (expiry_status now_first now_second cert);
      cbn [valid trust_score provider_verified url_verified warnings
           recommendations verified_provider];
      destruct Hunknown as [Hl Hw];
      (split; [done|]; split; [done|];
       split; [split; [discriminate|by intros [? ?]]|];
       split; [intros _; split; [done|exact Hl]|]; split; [discriminate|];
       split; [lra|]; split; [lra|]; split; [exact Hw|first [apply Hrec|exact (Hrec false _)|exact (Hrec true _)]]).
    + specialize (Hunknown (expiry_status now_first now_second cert)).
      cbn [negb orb].
      destruct (expiry_status now_first now_second cert);
      cbn [valid trust_score provider_verified url_verified warnings
           recommendations verified_provider];
      destruct Hunknown as [Hl Hw];
      (split; [done|]; split; [done|];
       split; [split; [discriminate|by intros [? ?]]|];
       split; [intros _; split; [done|exact Hl]|]; split; [discriminate|];
       split; [lra|]; split; [lra|]; split; [exact Hw|first [apply Hrec|exact (Hrec false _)|exact (Hrec true _)]]).
Qed.

(** *** The counters of the analysis *)

Lemma dict_update_count k (d : list (string * nat)) :
  sum_list (dict_update k 0%nat S d).*2 = S (sum_list d.*2).
Proof.
  induction d as [|[k' n] d IH]; cbn [dict_update fmap list_fmap snd sum_list];
    [done|].
  destruct (String.eqb k' k); cbn [fmap list_fmap snd sum_list sum_list_with].
  - done.
  - fold (fmap (M:=list) (@snd string nat) (dict_update k 0%nat S d)).
    fold (fmap (M:=list) (@snd string nat) d).
    fold (sum_list (dict_update k 0%nat S d).*2). fold (sum_list d.*2).
    rewrite IH. lia.
Qed.

Section Loop.
Variable clock : nat → datetime * datetime.

Lemma analyze_step_fields i st cert :
  st_verified_count (analyze_step clock i st cert)
  = (if valid (validate_certificate (clock i).1 (clock i).2 (cert_data cert)) then S (st_verified_count st)
     else st_verified_count st)
  ∧ st_total_trust (analyze_step clock i st cert)
    = st_total_trust st + trust_score (validate_certificate (clock i).1 (clock i).2 (cert_data cert))
  ∧ st_warnings (analyze_step clock i st cert)
    = (st_warnings st ++ warnings (validate_certificate (clock i).1 (clock i).2 (cert_data cert)))%list
  ∧ (∃ d, st_details (analyze_step clock i st cert) = (st_details st ++ [d])%list
          ∧ cd_validation d = validate_certificate (clock i).1 (clock i).2 (cert_data cert))
  ∧ sum_list (st_providers (analyze_step clock i st cert)).*2
    = S (sum_list (st_providers st).*2)
  ∧ (length (st_timeline st) ≤ length (st_timeline (analyze_step clock i st cert))
     ≤ S (length (st_timeline st)))%nat.
Proof.
  unfold analyze_step.
  destruct (categorize _ _ _ _) as [[cats skills] matched].
  cbn [st_verified_count st_total_trust st_warnings st_details st_timeline
       st_providers].
  split; [done|]. split; [done|]. split; [done|].
  split; [by eexists|]. split; [apply dict_update_count|].
  destruct (cert_date (cert_data cert)) as [date|]; [|lia].
  destruct (Py.truthy date); [|lia].
  destruct (strptime_ymd date); [|lia].
  rewrite length_app. cbn. lia.
Qed.

Lemma analyze_loop_facts certs : ∀ i st,
  let st' := analyze_loop clock i certs st in
  (st_verified_count st' + length (filter (λ d, valid (cd_validation d) = true) (st_details st))
   = st_verified_count st + length (filter (λ d, valid (cd_validation d) = true) (st_details st')))%nat
  ∧ length (st_details st') = (length (st_details st) + length certs)%nat
  ∧ st_total_trust st + (85 # 2) * Py.Qnat (length certs) <= st_total_trust st'
  ∧ st_total_trust st' <= st_total_trust st + 98 * Py.Qnat (length certs)
  ∧ (length (st_timeline st') ≤ length (st_timeline st) + length certs)%nat
  ∧ (length (st_warnings st') ≤ length (st_warnings st) + 2 * length certs)%nat
  ∧ sum_list (st_providers st').*2
    = (sum_list (st_providers st).*2 + length certs)%nat.
Proof.
  induction certs as [|cert rest IH]; intros i st; cbn [analyze_loop length].
  { cbn zeta. change (Py.Qnat 0) with 0.
    split; [lia|]. split; [lia|]. split; [lra|]. split; [lra|]. lia. }
  specialize (IH (S i) (analyze_step clock i st cert)). cbn zeta in IH |- *.
  destruct IH as (Hv & Hd & Hlo & Hhi & Ht & Hw & Hp).
  destruct (analyze_step_fields i st cert)
    as (Ev & Et & Ew & (d & Ed & Edv) & Ep & Etl).
  rewrite Ep in Hp.
  rewrite Ed in Hv, Hd. rewrite Et in Hlo, Hhi. rewrite Ew in Hw.
  rewrite Ev in Hv.
  destruct (trust_score_bounds (clock i).1 (clock i).2 (cert_data cert))
    as [Hlo1 Hhi1].
  assert (HS : Py.Qnat (S (length rest)) == Py.Qnat (length rest) + 1).
  { unfold Py.Qnat. rewrite Nat2Z.inj_succ, <- Z.add_1_r, inject_Z_plus.
    reflexivity. }
  rewrite !HS.
  assert (Hwl : (length (warnings (validate_certificate (clock i).1 (clock i).2 (cert_data cert))) ≤ 2)%nat).
  { apply warnings_at_most_two. }
  rewrite length_app in Hw, Hd. cbn [length] in Hd.
  split.
  { rewrite filter_app, length_app in Hv. rewrite filter_cons, filter_nil in Hv.
    rewrite Edv in Hv.
    destruct (valid (validate_certificate (clock i).1 (clock i).2 (cert_data cert)));
      [rewrite decide_True in Hv by done|rewrite decide_False in Hv by done];
      cbn in Hv; lia. }
  split; [lia|]. split; [lra|]. split; [lra|]. lia.
Qed.

End Loop.

Lemma insert_by_date_perm x l : insert_by_date x l ≡ₚ x :: l.
Proof.
  induction l as [|y l IH]; cbn [insert_by_date]; [done|].
  destruct (String.ltb (tl_date x) (tl_date y)); [|done].
  rewrite IH. apply Permutation_swap.
Qed.

Lemma sort_by_date_desc_perm l : sort_by_date_desc l ≡ₚ l.
Proof.
  induction l as [|x l IH]; cbn; [done|].
  fold (sort_by_date_desc l). by rewrite insert_by_date_perm, IH.
Qed.

Lemma filter_length_le_all {A} (P : A → Prop) `{∀ x, Decision (P x)} (l : list A) :
  (length (filter P l) ≤ length l)%nat.
Proof. apply length_filter. Qed.

Lemma analysis_avg_bounds
    (clock : nat → datetime * datetime) (certificates : list Certificate) :
  certificates ≠ [] →
  85 # 2 <= trust_score_avg (analyze_certificates clock certificates)
  ∧ trust_score_avg (analyze_certificates clock certificates) <= 98.
Proof.
  intros Hne. unfold analyze_certificates, with_recommendations.
  cbn [trust_score_avg].
  pose proof (analyze_loop_facts clock certificates 0 initial_state) as H.
  cbn zeta in H. destruct H as (_ & _ & Hlo & Hhi & _).
  cbn [initial_state st_total_trust] in Hlo, Hhi.
  destruct certificates as [|c rest]; [done|].
  set (n := Py.Qnat (length (c :: rest))) in *.
  assert (Hn : 0 < n) by (apply PyFacts.Qnat_pos; cbn; lia).
  split.
  - apply Qle_shift_div_l; [exact Hn|]. lra.
  - apply Qle_shift_div_r; [exact Hn|]. lra.
Qed.

(** X16: the counters of an analysis fit its list of certificates: there
    is one detail per certificate, the verified count is the number of
    valid details and so at most the total, the average trust score is
    0 for an empty list and lies between 42.5 and 98 otherwise, at most
    one timeline entry per certificate and at most two warnings, and
    the counts of the providers add up to the number of certificates. *)
Theorem analysis_counts_fit_the_list
    (clock : nat → datetime * datetime) (certificates : list Certificate) :
  let analysis := analyze_certificates clock certificates in
  total_certificates analysis = length certificates
  ∧ length (certificate_details analysis) = length certificates
  ∧ verified_count analysis
    = length (filter (λ d, valid (cd_validation d) = true)
                     (certificate_details analysis))
  ∧ (verified_count analysis ≤ total_certificates analysis)%nat
  ∧ (certificates = [] → trust_score_avg analysis = 0)
  ∧ (certificates ≠ [] →
     85 # 2 <= trust_score_avg analysis ∧ trust_score_avg analysis <= 98)
  ∧ (length (timeline analysis) ≤ length certificates)%nat
  ∧ (length (analysis_warnings analysis) ≤ 2 * length certificates)%nat
  ∧ sum_list (providers analysis).*2 = length certificates.
Proof.
  intros analysis. subst analysis. unfold analyze_certificates, with_recommendations.
  cbn [total_certificates certificate_details verified_count trust_score_avg
       timeline analysis_warnings providers].
  pose proof (analyze_loop_facts clock certificates 0 initial_state) as H.
  cbn zeta in H. destruct H as (Hv & Hd & Hlo & Hhi & Ht & Hw & Hp).
  cbn [initial_state st_verified_count st_details st_total_trust st_timeline
       st_warnings length filter] in Hv, Hd, Hlo, Hhi, Ht, Hw.
  rewrite filter_nil in Hv. cbn [length] in Hv.
  rewrite Nat.add_0_r in Hv. rewrite Nat.add_0_l in Hv.
  split; [done|]. split; [exact Hd|]. split; [exact Hv|].
  split.
  { rewrite Hv. etransitivity; [apply length_filter|]. by rewrite Hd. }
  split; [by intros ->|].
  split.
  { intros Hne. exact (analysis_avg_bounds clock certificates Hne). }
  split; [by rewrite sort_by_date_desc_perm|]. split; [exact Hw|exact Hp].
Qed.

(** X17: the value score of an empty list of certificates is 0; that of
    any other list lies between 32 and 99.2, so that the cap at 100
    never takes effect and the full score cannot be reached. *)
Theorem value_score_between_32_and_99
    (clock : nat → datetime * datetime) (certificates : list Certificate) :
  (certificates = [] → get_certificate_value_score clock certificates = 0)
  ∧ (certificates ≠ [] →
     32 <= get_certificate_value_score clock certificates
     ∧ get_certificate_value_score clock certificates <= 992 # 10
     ∧ get_certificate_value_score clock certificates
       = Py.min (Py.Qnat (length certificates) * 5) 30
         + trust_score_avg (analyze_certificates clock certificates) / 100 * 40
         + Py.min (Py.Qnat (length (categories
                                      (analyze_certificates clock certificates)))
                   * 5) 20
         + 10).
Proof.
  split; [by intros ->|]. intros Hne.
  destruct (analysis_avg_bounds clock certificates Hne) as [Hlo Hhi].
  unfold get_certificate_value_score.
  destruct certificates as [|c rest]; [done|].
  set (a := analyze_certificates clock (c :: rest)) in *.
  set (quantity := Py.min (Py.Qnat (length (c :: rest)) * 5) 30).
  set (diversity := Py.min (Py.Qnat (length (categories a)) * 5) 20).
  assert (Hq : 5 <= quantity ∧ quantity <= 30).
  { split; [|apply PyFacts.min_le_r].
    apply PyFacts.min_glb; [|lra].
    assert (1 <= Py.Qnat (length (c :: rest))); [|lra].
    change 1 with (Py.Qnat 1). apply PyFacts.Qnat_le. cbn. lia. }
  assert (Hd : 0 <= diversity ∧ diversity <= 20).
  { split; [|apply PyFacts.min_le_r].
    apply PyFacts.min_glb; [|lra].
    pose proof (PyFacts.Qnat_nonneg (length (categories a))). lra. }
  assert (Hquality : 17 <= trust_score_avg a / 100 * 40
                     ∧ trust_score_avg a / 100 * 40 <= 392 # 10).
  { unfold Qdiv. change (/ 100) with (1 # 100). split; lra. }
  destruct (PyFacts.min_spec
              (quantity + trust_score_avg a / 100 * 40 + diversity + 10) 100)
    as [[_ ->]|[Hlt _]]; [|lra].
  split; [lra|]. split; [lra|done].
Qed.

Local Close Scope Q_scope.
Local Open Scope string_scope.

(** *** The dictionaries of the analysis *)

Lemma dict_update_keys {V} k (dflt : V) f d x :
  x ∈ (dict_update k dflt f d).*1 ↔ x = k ∨ x ∈ d.*1.
Proof.
  induction d as [|[k' v] d IH]; cbn [dict_update fmap list_fmap fst].
  - rewrite list_elem_of_singleton, elem_of_nil. tauto.
  - destruct (String.eqb_spec k' k) as [->|Hne]; cbn [fmap list_fmap fst].
    + fold (fmap (M:=list) (@fst string V) d). rewrite elem_of_cons. tauto.
    + fold (fmap (M:=list) (@fst string V) (dict_update k dflt f d)).
      fold (fmap (M:=list) (@fst string V) d).
      rewrite !elem_of_cons, IH. tauto.
Qed.

Lemma dict_update_NoDup {V} k (dflt : V) f d :
  NoDup d.*1 → NoDup (dict_update k dflt f d).*1.
Proof.
  induction d as [|[k' v] d IH]; cbn [dict_update fmap list_fmap fst].
  - intros _. apply NoDup_singleton.
  - fold (fmap (M:=list) (@fst string V) d).
    intros [Hnot Hnd]%NoDup_cons.
    destruct (String.eqb_spec k' k) as [->|Hne]; cbn [fmap list_fmap fst].
    + fold (fmap (M:=list) (@fst string V) d). by apply NoDup_cons.
    + fold (fmap (M:=list) (@fst string V) (dict_update k dflt f d)).
      apply NoDup_cons. split; [|by apply IH].
      rewrite dict_update_keys. intros [->|Hin]; [done|done].
Qed.

Lemma categorize_from (name : option string) (text : string)
    (l : list (string * CertCategory)) :
  ∀ (cats : list (string * list (option string))) (skills : list (string * Q))
    (matched : list string),
    let r := fold_left
      (λ '((categories, skills_gained, matched_categories)
           : list (string * list (option string)) * list (string * Q) * list string)
         '((category, info) : string * CertCategory),
         if Py.any (λ keyword, Py.contains keyword text) (cat_keywords info)
         then (dict_update category [] (λ names, (names ++ [name])%list) categories,
               fold_left (λ skills_gained skill,
                            dict_update skill 0%Q (λ n, (n + cat_weight info)%Q)
                                        skills_gained)
                         (cat_skills info) skills_gained,
               (matched_categories ++ [category])%list)
         else (categories, skills_gained, matched_categories))
      l (cats, skills, matched) in
    r.2 = (matched ++ (filter (λ x : string * CertCategory,
                         Py.any (λ keyword, Py.contains keyword text)
                                (cat_keywords x.2) = true) l).*1)%list
    ∧ (∀ x, x ∈ r.1.1.*1
            ↔ x ∈ cats.*1
              ∨ x ∈ (filter (λ x : string * CertCategory,
                       Py.any (λ keyword, Py.contains keyword text)
                              (cat_keywords x.2) = true) l).*1)
    ∧ (NoDup cats.*1 → NoDup r.1.1.*1).
Proof.
  induction l as [|[category info] l IH]; intros cats skills matched;
    cbn [fold_left].
  - cbn zeta. cbn [fst snd]. rewrite filter_nil. cbn [fmap list_fmap].
    rewrite app_nil_r. split; [done|]. split; [|done]. intros x.
    rewrite elem_of_nil. tauto.
  - rewrite filter_cons. cbn [snd].
    destruct (Py.any _ (cat_keywords info)) eqn:E.
    + rewrite decide_True by done.
      specialize (IH (dict_update category [] (λ names, (names ++ [name])%list) cats)
                     (fold_left (λ skills_gained skill,
                            dict_update skill 0%Q (λ n, (n + cat_weight info)%Q)
                                        skills_gained)
                         (cat_skills info) skills)
                     (matched ++ [category])%list).
      cbn zeta in IH |- *. destruct IH as (Hm & Hk & Hnd).
      split; [rewrite Hm; cbn [fmap list_fmap fst]; by rewrite <- app_assoc|].
      split; [|intros H; by apply Hnd, dict_update_NoDup].
      intros x. rewrite (Hk x), dict_update_keys.
      cbn [fmap list_fmap fst]. rewrite elem_of_cons. tauto.
    + rewrite decide_False by (cbn beta; cbn [snd]; congruence).
      specialize (IH cats skills matched). exact IH.
Qed.

Section Loop.
Variable clock : nat → datetime * datetime.

Lemma analyze_step_details i st cert :
  (∃ d, st_details (analyze_step clock i st cert) = (st_details st ++ [d])%list
        ∧ cd_validation d
          = validate_certificate (clock i).1 (clock i).2 (cert_data cert)
        ∧ cd_categories d = matching_categories (combined_text cert))
  ∧ (∀ x, x ∈ (st_categories (analyze_step clock i st cert)).*1
          ↔ x ∈ (st_categories st).*1 ∨ x ∈ matching_categories (combined_text cert))
  ∧ (NoDup (st_categories st).*1
     → NoDup (st_categories (analyze_step clock i st cert)).*1)
  ∧ st_warnings (analyze_step clock i st cert)
    = (st_warnings st
       ++ warnings (validate_certificate (clock i).1 (clock i).2 (cert_data cert)))%list.
Proof.
  unfold analyze_step, categorize.
  pose proof (categorize_from (cert_name (cert_data cert)) (combined_text cert)
                CERT_CATEGORIES (st_categories st) (st_skills_gained st) [])
    as H.
  cbn zeta in H.
  destruct (fold_left _ CERT_CATEGORIES _) as [[cats skills] matched].
  cbn [fst snd app] in H. destruct H as (Hm & Hk & Hnd).
  cbn [st_details st_categories st_warnings].
  split; [eexists; split; [reflexivity|]; split; [reflexivity|exact Hm]|].
  split; [exact Hk|]. split; [exact Hnd|reflexivity].
Qed.

Lemma analyze_loop_details certs : ∀ i st,
  let st' := analyze_loop clock i certs st in
  cd_categories <$> st_details st'
  = ((cd_categories <$> st_details st)
     ++ ((λ cert, matching_categories (combined_text cert)) <$> certs))%list
  ∧ (∀ x, x ∈ (st_categories st').*1
          ↔ x ∈ (st_categories st).*1
            ∨ ∃ cert, cert ∈ certs ∧ x ∈ matching_categories (combined_text cert))
  ∧ (NoDup (st_categories st).*1 → NoDup (st_categories st').*1)
  ∧ (st_warnings st
     = concat ((λ d, warnings (cd_validation d)) <$> st_details st)
     → st_warnings st'
       = concat ((λ d, warnings (cd_validation d)) <$> st_details st')).
Proof.
  induction certs as [|cert rest IH]; intros i st; cbn [analyze_loop].
  { cbn zeta. cbn [fmap list_fmap]. rewrite app_nil_r.
    split; [done|]. split; [|done]. intros x. split; [tauto|].
    intros [H|(c & Hc & _)]; [done|]. by apply elem_of_nil in Hc. }
  specialize (IH (S i) (analyze_step clock i st cert)). cbn zeta in IH |- *.
  destruct IH as (Hd & Hk & Hnd & Hw).
  destruct (analyze_step_details i st cert)
    as ((d & Ed & Edv & Edc) & Ek & End & Ew).
  split.
  { rewrite Hd, Ed, fmap_app. cbn [fmap list_fmap]. rewrite Edc.
    by rewrite <- app_assoc. }
  split.
  { intros x. rewrite (Hk x), (Ek x). split.
    - intros [[H|H]|(c & Hc & H)]; [by left|right..].
      + exists cert. split; [left|done].
      + exists c. split; [by right|done].
    - intros [H|(c & Hc & H)]; [by left; left|].
      apply elem_of_cons in Hc as [->|Hc]; [by left; right|].
      right. by exists c. }
  split; [intros H; by apply Hnd, End|].
  intros H. apply Hw. rewrite Ew, Ed, H, fmap_app, concat_app.
  cbn [fmap list_fmap concat]. by rewrite Edv, app_nil_r.
Qed.

End Loop.

Lemma loop_details_are_validations clock certs : ∀ i st,
  (∀ d, d ∈ st_details st →
        ∃ n1 n2 c, cd_validation d = validate_certificate n1 n2 c) →
  ∀ d, d ∈ st_details (analyze_loop clock i certs st) →
       ∃ n1 n2 c, cd_validation d = validate_certificate n1 n2 c.
Proof.
  induction certs as [|cert rest IH]; intros i st Hst; cbn [analyze_loop];
    [exact Hst|].
  apply IH. intros d.
  destruct (analyze_step_details clock i st cert) as ((d' & -> & Edv & _) & _).
  intros [Hd|Hd%list_elem_of_singleton]%elem_of_app; [by apply Hst|].
  subst d'. by eexists _, _, _.
Qed.

Lemma details_are_validations clock certificates d :
  d ∈ certificate_details (analyze_certificates clock certificates) →
  ∃ n1 n2 c, cd_validation d = validate_certificate n1 n2 c.
Proof.
  unfold analyze_certificates, with_recommendations. cbn [certificate_details].
  apply loop_details_are_validations. intros d' Hd'.
  by apply elem_of_nil in Hd'.
Qed.

Lemma matching_names text : matching_categories text ⊆ CERT_CATEGORIES.*1.
Proof.
  unfold matching_categories. intros x (y & -> & Hy)%list_elem_of_fmap.
  apply list_elem_of_filter in Hy as [_ Hy]. by apply list_elem_of_fmap_2.
Qed.

Lemma category_names_NoDup : NoDup CERT_CATEGORIES.*1.
Proof. apply (bool_decide_unpack _). vm_compute. exact I. Qed.

Lemma analysis_categories
    (clock : nat → datetime * datetime) (certificates : list Certificate) :
  cd_categories <$> certificate_details (analyze_certificates clock certificates)
  = (λ cert, matching_categories (combined_text cert)) <$> certificates
  ∧ (∀ category,
       category ∈ (categories (analyze_certificates clock certificates)).*1
       ↔ ∃ d, d ∈ certificate_details (analyze_certificates clock certificates)
              ∧ category ∈ cd_categories d)
  ∧ NoDup (categories (analyze_certificates clock certificates)).*1
  ∧ (categories (analyze_certificates clock certificates)).*1 ⊆ CERT_CATEGORIES.*1
  ∧ analysis_warnings (analyze_certificates clock certificates)
    = concat ((λ d, warnings (cd_validation d))
                <$> certificate_details (analyze_certificates clock certificates)).
Proof.
  unfold analyze_certificates, with_recommendations.
  cbn [certificate_details categories analysis_warnings].
  pose proof (analyze_loop_details clock certificates 0 initial_state) as H.
  cbn zeta in H. destruct H as (Hd & Hk & Hnd & Hw).
  cbn [initial_state st_details st_categories st_warnings fmap list_fmap app
       concat] in Hd, Hk, Hnd, Hw.
  assert (Hkeys : ∀ category,
    category ∈ (st_categories (analyze_loop clock 0 certificates initial_state)).*1
    ↔ ∃ d, d ∈ st_details (analyze_loop clock 0 certificates initial_state)
           ∧ category ∈ cd_categories d).
  { intros x. rewrite (Hk x). rewrite elem_of_nil. split.
    - intros [[]|(c & Hc & Hx)].
      assert (Hin : matching_categories (combined_text c)
                    ∈ cd_categories
                        <$> st_details (analyze_loop clock 0 certificates
                                          initial_state)).
      { rewrite Hd. by apply (list_elem_of_fmap_2 (λ cert, matching_categories (combined_text cert))). }
      apply list_elem_of_fmap in Hin as (d & Hdc & Hdin).
      exists d. split; [done|]. by rewrite <- Hdc.
    - intros (d & Hdin & Hx). right.
      assert (Hin : cd_categories d
                    ∈ (λ cert, matching_categories (combined_text cert)) <$> certificates).
      { rewrite <- Hd. by apply list_elem_of_fmap_2. }
      apply list_elem_of_fmap in Hin as (c & Hcc & Hcin).
      exists c. split; [done|]. by rewrite <- Hcc. }
  split; [exact Hd|]. split; [exact Hkeys|].
  split; [apply Hnd; constructor|].
  split; [|by apply Hw].
  intros x Hx. apply Hk in Hx as [Hx|(c & _ & Hx)]; [by apply elem_of_nil in Hx|].
  by apply (matching_names (combined_text c)).
Qed.

(** X18: the categories of an analysis are those of its certificates: each
    detail lists, in the order of the table, the categories one of whose
    keywords occurs in the certificate's lowered name and description;
    the keys of [categories] are the categories some detail lists, each
    once, so there are at most ten; and the warnings are those of the
    validations, in the order of the certificates. *)
Theorem analysis_categories_are_those_of_the_details
    (clock : nat → datetime * datetime) (certificates : list Certificate) :
  let analysis := analyze_certificates clock certificates in
  cd_categories <$> certificate_details analysis
  = (λ cert, matching_categories (combined_text cert)) <$> certificates
  ∧ (∀ category, category ∈ (categories analysis).*1
       ↔ ∃ d, d ∈ certificate_details analysis ∧ category ∈ cd_categories d)
  ∧ NoDup (categories analysis).*1
  ∧ (categories analysis).*1 ⊆ CERT_CATEGORIES.*1
  ∧ (length (categories analysis) ≤ 10)%nat
  ∧ analysis_warnings analysis
    = concat ((λ d, warnings (cd_validation d)) <$> certificate_details analysis).
Proof.
  intros analysis. subst analysis.
  destruct (analysis_categories clock certificates) as (Hd & Hk & Hnd & Hsub & Hw).
  split; [exact Hd|]. split; [exact Hk|]. split; [exact Hnd|].
  split; [exact Hsub|]. split; [|exact Hw].
  rewrite <- (length_fmap fst).
  change 10%nat with (length CERT_CATEGORIES.*1).
  apply submseteq_length, NoDup_submseteq; [exact Hnd|].
  intros x Hx. by apply Hsub.
Qed.

(** *** The recommendations of the analysis *)

Lemma elem_of_if_app {A} (b : bool) (l : list A) (y x : A) :
  x ∈ (if b then (l ++ [y])%list else l) ↔ x ∈ l ∨ (b = true ∧ x = y).
Proof.
  destruct b.
  - rewrite elem_of_app, list_elem_of_singleton. tauto.
  - split; [tauto|]. intros [H|[[=] _]]. done.
Qed.

Lemma length_if_app {A} (b : bool) (l : list A) (y : A) :
  (length (if b then (l ++ [y])%list else l) ≤ S (length l))%nat.
Proof. destruct b; [rewrite length_app; cbn|]; lia. Qed.

Lemma any_true {A} (f : A → bool) l :
  Py.any f l = true ↔ ∃ x, x ∈ l ∧ f x = true.
Proof.
  unfold Py.any. rewrite existsb_exists. split.
  - intros (x & Hx & Hf). exists x. by rewrite list_elem_of_In.
  - intros (x & Hx & Hf). exists x. by rewrite <- list_elem_of_In.
Qed.

Lemma elem_of_concat {A} (x : A) (ls : list (list A)) :
  x ∈ concat ls ↔ ∃ l, x ∈ l ∧ l ∈ ls.
Proof.
  rewrite list_elem_of_In, in_concat. split.
  - intros (l & Hl & Hx). exists l. by rewrite !list_elem_of_In.
  - intros (l & Hx & Hl). exists l. by rewrite <- !list_elem_of_In.
Qed.

Lemma cloud_category name :
  name ∈ CERT_CATEGORIES.*1 →
  Py.contains "Cloud" name = true ↔ name = "Cloud Computing".
Proof.
  intros Hin. split; [|by intros ->].
  assert (H : Forall (λ n, Py.contains "Cloud" n = true → n = "Cloud Computing")
                     CERT_CATEGORIES.*1)
    by (apply (bool_decide_unpack _); vm_compute; exact I).
  rewrite Forall_forall in H. by apply H.
Qed.

Lemma ai_category name :
  name ∈ CERT_CATEGORIES.*1 →
  Py.contains "AI" name || Py.contains "Data Science" name = true
  ↔ name = "Data Science" ∨ name = "AI/ML".
Proof.
  intros Hin. split; [|by intros [->| ->]].
  assert (H : Forall (λ n, Py.contains "AI" n || Py.contains "Data Science" n = true
                           → n = "Data Science" ∨ n = "AI/ML")
                     CERT_CATEGORIES.*1)
    by (apply (bool_decide_unpack _); vm_compute; exact I).
  rewrite Forall_forall in H. by apply H.
Qed.

Lemma expired_warning w :
  w ∈ ["Certificate has expired"; "Certificate expires soon";
       "Provider not recognized - manual verification recommended"] →
  Py.contains "expired" (Py.lower w) = true ↔ w = "Certificate has expired".
Proof.
  intros Hin. split; [|by intros ->].
  repeat (apply elem_of_cons in Hin as [->|Hin]); [done|..].
  - vm_compute. discriminate.
  - vm_compute. discriminate.
  - by apply elem_of_nil in Hin.
Qed.

Lemma cert_recommendations_length analysis :
  (length (_generate_cert_recommendations analysis) ≤ 7)%nat.
Proof.
  unfold _generate_cert_recommendations. cbv zeta.
  repeat (etransitivity; [apply length_if_app|]; apply le_n_S).
  destruct (total_certificates analysis <? 3)%nat;
    [|destruct (20 <? total_certificates analysis)%nat]; cbn; lia.
Qed.

(** X19: the recommendations of an analysis reflect its certificates: the
    cloud advice is given exactly when no certificate falls into "Cloud
    Computing", the AI advice exactly when none falls into "Data
    Science" or "AI/ML", the renewal advice exactly when some
    certificate has expired; the advice to earn more comes with fewer
    than three certificates and the advice on quality with more than
    twenty; and there are at most seven recommendations. *)
Theorem advice_reflects_the_certificates
    (clock : nat → datetime * datetime) (certificates : list Certificate) :
  let analysis := analyze_certificates clock certificates in
  let advice := analysis_recommendations analysis in
  ([Py.FStr "☁️ Consider cloud certifications (AWS/Azure/GCP) - highly valued in the current market"]
     ∈ advice
   ↔ ∀ d, d ∈ certificate_details analysis → "Cloud Computing" ∉ cd_categories d)
  ∧ ([Py.FStr "🤖 AI/ML certifications are in high demand - consider adding them to your portfolio"]
       ∈ advice
     ↔ ∀ d, d ∈ certificate_details analysis →
            ("Data Science" ∉ cd_categories d) ∧ ("AI/ML" ∉ cd_categories d))
  ∧ ([Py.FStr "🔄 Renew expired certifications or replace them with current ones"]
       ∈ advice
     ↔ ∃ d, d ∈ certificate_details analysis
            ∧ "Certificate has expired" ∈ warnings (cd_validation d))
  ∧ ([Py.FStr "🎯 Consider earning more certifications to strengthen your profile (aim for 5-10 relevant certificates)"]
       ∈ advice
     ↔ (length certificates < 3)%nat)
  ∧ ([Py.FStr "📋 Focus on quality over quantity - highlight your most relevant and recent certifications"]
       ∈ advice
     ↔ (20 < length certificates)%nat)
  ∧ (length advice ≤ 7)%nat.
Proof.
  intros analysis advice.
  destruct (analysis_categories clock certificates) as (_ & Hk & _ & Hsub & Hw).
  fold analysis in Hk, Hsub, Hw.
  assert (Hadvice : advice
                    = _generate_cert_recommendations
                        (with_recommendations analysis [])).
  { reflexivity. }
  assert (Hcloud :
    Py.any (λ cat, Py.contains "Cloud" cat) (categories analysis).*1 = false
    ↔ ∀ d, d ∈ certificate_details analysis → "Cloud Computing" ∉ cd_categories d).
  { rewrite <- not_true_iff_false, any_true. split.
    - intros Hno d Hd Hin. apply Hno. exists "Cloud Computing".
      split; [|done]. apply Hk. by exists d.
    - intros Hall (cat & Hcat & Hc).
      apply (cloud_category _ (Hsub _ Hcat)) in Hc as ->.
      apply Hk in Hcat as (d & Hd & Hin). by apply (Hall d). }
  assert (Hai :
    Py.any (λ cat, Py.contains "AI" cat || Py.contains "Data Science" cat)
           (categories analysis).*1 = false
    ↔ ∀ d, d ∈ certificate_details analysis →
           ("Data Science" ∉ cd_categories d) ∧ ("AI/ML" ∉ cd_categories d)).
  { rewrite <- not_true_iff_false, any_true. split.
    - intros Hno d Hd. split; intros Hin; apply Hno.
      + exists "Data Science". split; [|done]. apply Hk. by exists d.
      + exists "AI/ML". split; [|done]. apply Hk. by exists d.
    - intros Hall (cat & Hcat & Hc).
      apply (ai_category _ (Hsub _ Hcat)) in Hc.
      apply Hk in Hcat as (d & Hd & Hin). destruct (Hall d Hd) as [H1 H2].
      destruct Hc as [-> | ->]; done. }
  assert (Hexpired :
    Py.any (λ w, Py.contains "expired" (Py.lower w)) (analysis_warnings analysis)
    = true
    ↔ ∃ d, d ∈ certificate_details analysis
           ∧ "Certificate has expired" ∈ warnings (cd_validation d)).
  { rewrite any_true, Hw. split.
    - intros (w & Hwin & Hc).
      apply elem_of_concat in Hwin as (ws & Hwws & Hws).
      apply list_elem_of_fmap in Hws as (d & -> & Hd).
      exists d. split; [done|].
      assert (Hknown : w ∈ ["Certificate has expired"; "Certificate expires soon";
                "Provider not recognized - manual verification recommended"]).
      { destruct (details_are_validations clock certificates d Hd)
          as (n1 & n2 & c & E).
        rewrite E in Hwws. by apply (validation_warnings_known n1 n2 c). }
      by apply (expired_warning _ Hknown) in Hc as <-.
    - intros (d & Hd & Hin). exists "Certificate has expired". split; [|done].
      apply elem_of_concat. exists (warnings (cd_validation d)).
      split; [done|]. by apply (list_elem_of_fmap_2 (λ d, warnings (cd_validation d))). }
  clearbody advice. subst advice.
  unfold _generate_cert_recommendations. cbv zeta.
  change (categories (with_recommendations analysis [])) with (categories analysis).
  change (analysis_warnings (with_recommendations analysis []))
    with (analysis_warnings analysis).
  change (total_certificates (with_recommendations analysis []))
    with (length certificates).
  split; [|split; [|split; [|split; [|split]]]].
  - rewrite <- Hcloud, !elem_of_if_app. split.
    + intros [[[[[[H|[_ [=]]]|[_ [=]]]|[Hc _]]|[_ [=]]]|[_ [=]]]|[_ [=]]].
      * destruct (length certificates <? 3)%nat;
          [|destruct (20 <? length certificates)%nat];
          repeat (apply elem_of_cons in H as [[=]|H]); by apply elem_of_nil in H.
      * by apply negb_true_iff in Hc.
    + intros Hc. left; left; left; right. split; [by rewrite Hc|done].
  - rewrite <- Hai, !elem_of_if_app. split.
    + intros [[[[[[H|[_ [=]]]|[_ [=]]]|[_ [=]]]|[Hc _]]|[_ [=]]]|[_ [=]]].
      * destruct (length certificates <? 3)%nat;
          [|destruct (20 <? length certificates)%nat];
          repeat (apply elem_of_cons in H as [[=]|H]); by apply elem_of_nil in H.
      * by apply negb_true_iff in Hc.
    + intros Hc. left; left; right. split; [by rewrite Hc|done].
  - rewrite <- Hexpired, !elem_of_if_app. split.
    + intros [[[[[[H|[_ [=]]]|[_ [=]]]|[_ [=]]]|[_ [=]]]|[Hc _]]|[_ [=]]].
      * destruct (length certificates <? 3)%nat;
          [|destruct (20 <? length certificates)%nat];
          repeat (apply elem_of_cons in H as [[=]|H]); by apply elem_of_nil in H.
      * done.
    + intros Hc. left; right. split; [done|done].
  - rewrite !elem_of_if_app. split.
    + intros [[[[[[H|[_ [=]]]|[_ [=]]]|[_ [=]]]|[_ [=]]]|[_ [=]]]|[_ [=]]].
      destruct (Nat.ltb_spec (length certificates) 3); [done|].
      destruct (20 <? length certificates)%nat;
        repeat (apply elem_of_cons in H as [[=]|H]); by apply elem_of_nil in H.
    + intros Hlt. do 6 left. apply Nat.ltb_lt in Hlt. rewrite Hlt. left.
  - rewrite !elem_of_if_app. split.
    + intros [[[[[[H|[_ [=]]]|[_ [=]]]|[_ [=]]]|[_ [=]]]|[_ [=]]]|[_ [=]]].
      destruct (Nat.ltb_spec (length certificates) 3);
        [repeat (apply elem_of_cons in H as [[=]|H]); by apply elem_of_nil in H|].
      destruct (Nat.ltb_spec 20 (length certificates)); [done|].
      by apply elem_of_nil in H.
    + intros Hlt. do 6 left.
      destruct (Nat.ltb_spec (length certificates) 3); [lia|].
      apply Nat.ltb_lt in Hlt. rewrite Hlt. left.
  - apply (cert_recommendations_length (with_recommendations analysis [])).
Qed.

(** *** The timeline *)

Lemma string_lt_trans s1 s2 s3 :
  String.ltb s1 s2 = true → String.ltb s2 s3 = true → String.ltb s1 s3 = true.
Proof.
  unfold String.ltb. revert s2 s3.
  induction s1 as [|a s1 IH]; intros [|b s2] [|c s3]; cbn [String.compare];
    try done.
  unfold Ascii.compare.
  destruct (N.compare_spec (N_of_ascii a) (N_of_ascii b)) as [Eab|Hab|Hab];
    destruct (N.compare_spec (N_of_ascii b) (N_of_ascii c)) as [Ebc|Hbc|Hbc];
    destruct (N.compare_spec (N_of_ascii a) (N_of_ascii c)) as [Eac|Hac|Hac];
    try done; try lia.
  apply IH.
Qed.

Lemma string_lt_irrefl s : String.ltb s s = false.
Proof.
  unfold String.ltb. pose proof (String.compare_antisym s s) as H.
  destruct (String.compare s s); [done|discriminate|done].
Qed.

Lemma string_not_lt s1 s2 :
  String.ltb s1 s2 = false → s1 = s2 ∨ String.ltb s2 s1 = true.
Proof.
  unfold String.ltb. intros H.
  destruct (String.compare s1 s2) eqn:E; [|discriminate|].
  - left. by apply String.compare_eq_iff.
  - right. by rewrite String.compare_antisym, E.
Qed.

Lemma string_not_lt_trans s1 s2 s3 :
  String.ltb s1 s2 = false → String.ltb s2 s3 = false → String.ltb s1 s3 = false.
Proof.
  intros H12 H23. apply not_true_iff_false. intros H13.
  destruct (string_not_lt _ _ H12) as [->|H21];
    destruct (string_not_lt _ _ H23) as [->|H32]; try congruence.
  pose proof (string_lt_trans _ _ _ H21 H13). congruence.
Qed.

Lemma insert_by_date_sorted x l :
  newest_first l → newest_first (insert_by_date x l).
Proof.
  unfold newest_first.
  induction 1 as [|y l Hl IH Hy]; cbn [insert_by_date].
  - repeat constructor.
  - destruct (String.ltb (tl_date x) (tl_date y)) eqn:E.
    + constructor; [exact IH|].
      rewrite insert_by_date_perm. constructor; [|exact Hy].
      apply not_true_iff_false. intros Hyx.
      pose proof (string_lt_trans _ _ _ E Hyx) as Hxx.
      by rewrite string_lt_irrefl in Hxx.
    + constructor; [by constructor|]. constructor; [exact E|].
      eapply Forall_impl; [exact Hy|]. intros z Hz. cbn beta in Hz |- *.
      by eapply string_not_lt_trans.
Qed.

Lemma sort_by_date_desc_sorted l : newest_first (sort_by_date_desc l).
Proof.
  induction l as [|x l IH]; cbn; [constructor|].
  by apply insert_by_date_sorted.
Qed.

Lemma analyze_step_timeline clock i st cert :
  tl_date <$> st_timeline (analyze_step clock i st cert)
  = ((tl_date <$> st_timeline st) ++ option_list (timeline_date cert))%list.
Proof.
  unfold analyze_step, timeline_date.
  destruct (categorize _ _ _ _) as [[cats skills] matched].
  cbn [st_timeline].
  destruct (cert_date (cert_data cert)) as [date|]; cbn [mbind option_bind];
    [|by rewrite app_nil_r].
  destruct (Py.truthy date); cbn [andb]; [|by rewrite app_nil_r].
  destruct (strptime_ymd date) as [parsed|] eqn:E.
  - rewrite bool_decide_eq_true_2 by (by eexists).
    by rewrite fmap_app.
  - rewrite bool_decide_eq_false_2 by (by intros [? ?]).
    by rewrite app_nil_r.
Qed.

Lemma analyze_loop_timeline clock certs : ∀ i st,
  tl_date <$> st_timeline (analyze_loop clock i certs st)
  = ((tl_date <$> st_timeline st) ++ omap timeline_date certs)%list.
Proof.
  induction certs as [|cert rest IH]; intros i st; cbn [analyze_loop omap list_omap].
  - by rewrite app_nil_r.
  - rewrite IH, analyze_step_timeline, <- app_assoc. f_equal.
    by destruct (timeline_date cert).
Qed.

(** X20: the timeline of an analysis holds one entry for each certificate
    whose date is there and parses, under that date, and no entry is
    followed by one with a greater date. *)
Theorem timeline_lists_the_dated_certificates
    (clock : nat → datetime * datetime) (certificates : list Certificate) :
  let analysis := analyze_certificates clock certificates in
  newest_first (timeline analysis)
  ∧ tl_date <$> timeline analysis ≡ₚ omap timeline_date certificates
  ∧ Forall (λ entry, is_Some (strptime_ymd (tl_date entry))) (timeline analysis).
Proof.
  intros analysis. subst analysis.
  unfold analyze_certificates, with_recommendations. cbn [timeline].
  assert (Hperm : tl_date <$> sort_by_date_desc
                    (st_timeline (analyze_loop clock 0 certificates initial_state))
                  ≡ₚ omap timeline_date certificates).
  { rewrite sort_by_date_desc_perm, analyze_loop_timeline. done. }
  split; [apply sort_by_date_desc_sorted|]. split; [exact Hperm|].
  apply Forall_fmap with (f := tl_date) (P := λ date, is_Some (strptime_ymd date)).
  rewrite Hperm. apply Forall_forall. intros date Hd.
  apply list_elem_of_omap in Hd as (cert & _ & Hd).
  unfold timeline_date in Hd.
  destruct (cert_date (cert_data cert)) as [date'|]; [|done].
  cbn [mbind option_bind] in Hd.
  destruct (Py.truthy date'); [|done]. cbn [andb] in Hd.
  destruct (bool_decide (is_Some (strptime_ymd date'))) eqn:E; [|done].
  injection Hd as <-. by apply bool_decide_eq_true in E.
Qed.

End ValidatorExtras.

(** ** The text generators, further *)

Module LLMExtras.
Import OpenRouterLLM.
Local Open Scope string_scope.

Lemma str_prefix_length n s :
  String.length (Py.str_prefix n s) = (n `min` String.length s)%nat.
Proof.
  revert s. induction n as [|n IH]; intros [|c s]; cbn; [done..|].
  by rewrite IH.
Qed.

Lemma str_prefix_is_prefix n s : String.prefix (Py.str_prefix n s) s = true.
Proof.
  revert s. induction n as [|n IH]; intros [|c s]; cbn; [done..|].
  destruct (Ascii.ascii_dec c c); [apply IH|done].
Qed.

Lemma string_length_app s t :
  String.length (s +:+ t) = (String.length s + String.length t)%nat.
Proof. induction s as [|c s IH]; cbn; [done|]. by rewrite <- IH. Qed.

Lemma prefix_app p s t : String.prefix p s = true → String.prefix p (s +:+ t) = true.
Proof.
  revert s. induction p as [|a p IH]; intros s; [by destruct (s +:+ t)|].
  destruct s as [|c s]; simpl; [discriminate|].
  destruct (Ascii.ascii_dec a c); [apply IH|done].
Qed.

Lemma prefix_refl s : String.prefix s s = true.
Proof.
  induction s as [|c s IH]; cbn; [done|]. by destruct (Ascii.ascii_dec c c).
Qed.

(** X21: [_truncate] leaves a text within the limit as it is; a longer
    text is cut to its first [limit] characters, followed by a marker of
    16 characters, so that the result is never longer than
    [limit + 16]. *)
Theorem truncate_keeps_or_cuts (text : string) (limit : nat) :
  ((String.length text ≤ limit)%nat → _truncate text limit = text)
  ∧ ((limit < String.length text)%nat →
     String.length (_truncate text limit) = (limit + 16)%nat
     ∧ Py.startswith (_truncate text limit) (Py.str_prefix limit text) = true
     ∧ Py.startswith text (Py.str_prefix limit text) = true)
  ∧ (String.length (_truncate text limit) ≤ limit + 16)%nat.
Proof.
  unfold _truncate.
  destruct text as [|c text]; cbn [Py.truthy negb].
  { split; [done|]. split; [cbn; lia|cbn; lia]. }
  destruct (Nat.leb_spec (String.length (String c text)) limit) as [Hle|Hgt].
  { split; [done|]. split; lia. }
  assert (Hlen : String.length
                   (Py.str_prefix limit (String c text) +:+ Py.nl +:+ Py.nl
                    +:+ "...[truncated]") = (limit + 16)%nat).
  { rewrite string_length_app, str_prefix_length.
    change (String.length (Py.nl +:+ Py.nl +:+ "...[truncated]")) with 16%nat.
    lia. }
  split; [lia|]. split; [|lia]. intros _.
  split; [exact Hlen|]. unfold Py.startswith.
  split; [apply prefix_app, prefix_refl|apply str_prefix_is_prefix].
Qed.

Lemma fallback_has_heading set_order resume_text jd_text missing_skills :
  ∃ rest, _generate_resume_improvements_fallback set_order resume_text jd_text
            missing_skills
          = "###" +:+ rest.
Proof.
  unfold _generate_resume_improvements_fallback.
  destruct (negb (bool_decide (jd_keywords_of jd_text = ∅)));
    destruct (Py.take_first 8 (unique (Py.strip <$> missing_skills)));
    cbn [app Py.join]; eexists; reflexivity.
Qed.

(** X22: whatever the provider answers and whether or not it is available,
    none of the three generators returns a text that starts with
    ["Error:"]. *)
Theorem generators_never_return_an_error_text
    (set_order : gset string → list string) (is_openrouter_available : bool)
    (call_openrouter_llm : string → Q → Z → bool → option string → string)
    (resume_text jd_text : string) (missing_skills skills : list string) :
  Py.startswith
    (enhance_resume_section set_order is_openrouter_available call_openrouter_llm
       resume_text jd_text missing_skills) "Error:" = false
  ∧ Py.startswith
      (generate_project_ideas is_openrouter_available call_openrouter_llm
         resume_text skills) "Error:" = false
  ∧ Py.startswith
      (generate_cover_letter is_openrouter_available call_openrouter_llm
         resume_text jd_text skills) "Error:" = false.
Proof.
  assert (Hfb : Py.startswith
                  (_generate_resume_improvements_fallback set_order resume_text
                     jd_text missing_skills) "Error:" = false).
  { destruct (fallback_has_heading set_order resume_text jd_text missing_skills)
      as [rest ->]. reflexivity. }
  unfold enhance_resume_section, generate_project_ideas, generate_cover_letter.
  destruct is_openrouter_available; cbn [negb].
  - split; [|split].
    + destruct (Py.startswith (call_openrouter_llm _ (3 # 10)%Q _ _ _) "Error:")
        eqn:E; [exact Hfb|exact E].
    + destruct (Py.startswith (call_openrouter_llm _ (5 # 10)%Q _ _ _) "Error:")
        eqn:E; [reflexivity|exact E].
    + destruct (Py.startswith (call_openrouter_llm _ (4 # 10)%Q _ _ _) "Error:")
        eqn:E; [reflexivity|exact E].
  - split; [exact Hfb|]. split; reflexivity.
Qed.

End LLMExtras.
